(** * djchat: the server app (models, serializer, validators, list view)

    A shallow embedding of [djchat/server/models.py],
    [djchat/server/serializer.py], [djchat/server/validators.py] and
    [djchat/server/views.py], together with the part of Python, Django
    (4.2, on SQLite) and Django REST framework that these files rely on,
    and the properties of the listing endpoint, of the [save] overrides,
    of deletion, of the upload paths, of the validators and of the
    serializer stated over that embedding.

    Conventions.
    - A Python [str] is a [text], a list of Unicode code points, where the
      code transforms it (the name of a channel); elsewhere (parameters,
      names of categories, servers and files) it is a [string], read as
      the code points 0..255, on which the functions of [string] agree
      with those of [text].
    - An [int] is a [Z].  [None] is [None].  The data store holds 64-bit
      integers: an integer read from a request is checked against that
      range where the store receives it, and so are the integers that a
      [Model.save] writes; the key of an instance that is looked up is
      taken to be one that the store has handed out.
    - A raised exception is a value of [exc]; code that can raise returns a
      [result], and code that also mutates runs in the monad [M] below, in
      which the state survives an exception (neither the file system nor an
      autocommitting database rolls back when a view raises). *)

From Stdlib Require Import ZArith NArith List String Ascii Bool Lia Permutation.
From Stdlib Require DecimalString DecimalZ DecimalPos.
Import ListNotations.
Local Open Scope string_scope.
Local Open Scope list_scope.
Local Open Scope Z_scope.

Set Implicit Arguments.

(* ===================================================================== *)
(** * Python *)
(* ===================================================================== *)

(** Exceptions that the modelled code can raise.  Only the detail of a
    REST framework [ValidationError] is looked at by a caller. *)
Inductive exc : Type :=
| AuthenticationFailed                 (* rest_framework.exceptions *)
| ValidationError (detail : string)    (* rest_framework.exceptions *)
| ValueError
| TypeError
| AttributeError
| OverflowError
| Http404                              (* django.http *)
| IntegrityError                       (* django.db *)
| OperationalError                     (* django.db *)
| SuspiciousFileOperation.             (* django.core.exceptions *)

Inductive result (A : Type) : Type :=
| Ok (a : A)
| Raise (e : exc).
Arguments Ok {A} a.
Arguments Raise {A} e.

(** State and exceptions.  The state is returned in both cases. *)
Definition M (S A : Type) : Type := S -> result A * S.

Definition ret {S A} (a : A) : M S A := fun s => (Ok a, s).
Definition raise {S A} (e : exc) : M S A := fun s => (Raise e, s).
Definition bind {S A B} (m : M S A) (k : A -> M S B) : M S B :=
  fun s => match m s with
           | (Ok a, s') => k a s'
           | (Raise e, s') => (Raise e, s')
           end.
Definition get_state {S} : M S S := fun s => (Ok s, s).
Definition modify {S} (f : S -> S) : M S unit := fun s => (Ok tt, f s).
Definition lift {S A} (r : result A) : M S A := fun s => (r, s).

(** [try: body except ValueError: handler] *)
Definition try_except_ValueError {S A} (body : M S A) (handler : M S A) : M S A :=
  fun s => match body s with
           | (Raise ValueError, s') => handler s'
           | r => r
           end.

Declare Scope py_scope.
Delimit Scope py_scope with py.
Notation "x <- m ;; k" := (bind m (fun x => k))
  (at level 61, m at next level, right associativity) : py_scope.
Notation "m ;; k" := (bind m (fun _ => k))
  (at level 61, right associativity) : py_scope.
Notation "'when' b 'then' m" := (if b then m else ret tt)
  (at level 60, b at level 9, m at level 60) : py_scope.

(** ** Strings *)

Definition code (c : ascii) : N := N_of_ascii c.

Definition in_range (lo hi n : N) : bool := ((lo <=? n) && (n <=? hi))%N.

(** Truth value of a [str]: the empty string is false. *)
Definition str_truthy (s : string) : bool :=
  match s with EmptyString => false | String _ _ => true end.

(** Truth value of an optional [str] ([None] is false). *)
Definition truthy (o : option string) : bool :=
  match o with None => false | Some s => str_truthy s end.

(** Truth value of an optional [int] ([None] and [0] are false). *)
Definition int_truthy (o : option Z) : bool :=
  match o with None => false | Some z => negb (z =? 0) end.

(** On a [string], whose code points are below 256: [c.isupper()] holds
    of A-Z and of the capital letters of Latin-1 (U+00C0..U+00DE without
    the multiplication sign U+00D7). *)
Definition char_isupper (c : ascii) : bool :=
  let n := code c in
  in_range 65 90 n || (in_range 192 222 n && negb (n =? 215)%N).

(** [c.lower()]: every upper-case code point below 256 has its lower-case
    form 32 places further. *)
Definition char_lower (c : ascii) : ascii :=
  if char_isupper c then ascii_of_N (code c + 32) else c.

(** [s.lower()] *)
Fixpoint str_lower (s : string) : string :=
  match s with
  | EmptyString => EmptyString
  | String c s' => String (char_lower c) (str_lower s')
  end.

(** [c in s] for a character. *)
Fixpoint str_mem (c : ascii) (s : string) : bool :=
  match s with
  | EmptyString => false
  | String d s' => Ascii.eqb c d || str_mem c s'
  end.

(** ** Unicode strings

    [str.lower()] as CPython 3.11 computes it (Unicode 14.0): code point
    by code point with the full lower-case mapping, in which U+0130 alone
    has two code points, and with the capital sigma U+03A3 mapped to the
    final sigma U+03C2 when a cased letter stands before it and none
    after it, case-ignorable code points not counted. *)

Definition text : Type := list N.

Definition text_of_string (s : string) : text := map code (list_ascii_of_string s).
Coercion text_of_string : string >-> text.

(** The code points that [lower()] changes, each with its lower-case form
    (U+0130 and U+03A3 are treated apart). *)
Definition lower_table : list (N * N) :=
  [(65, 97); (66, 98); (67, 99); (68, 100); (69, 101); (70, 102); (71, 103);
   (72, 104); (73, 105); (74, 106); (75, 107); (76, 108); (77, 109); (78, 110);
   (79, 111); (80, 112); (81, 113); (82, 114); (83, 115); (84, 116); (85, 117);
   (86, 118); (87, 119); (88, 120); (89, 121); (90, 122); (192, 224); (193, 225);
   (194, 226); (195, 227); (196, 228); (197, 229); (198, 230); (199, 231);
   (200, 232); (201, 233); (202, 234); (203, 235); (204, 236); (205, 237);
   (206, 238); (207, 239); (208, 240); (209, 241); (210, 242); (211, 243);
   (212, 244); (213, 245); (214, 246); (216, 248); (217, 249); (218, 250);
   (219, 251); (220, 252); (221, 253); (222, 254); (256, 257); (258, 259);
   (260, 261); (262, 263); (264, 265); (266, 267); (268, 269); (270, 271);
   (272, 273); (274, 275); (276, 277); (278, 279); (280, 281); (282, 283);
   (284, 285); (286, 287); (288, 289); (290, 291); (292, 293); (294, 295);
   (296, 297); (298, 299); (300, 301); (302, 303); (306, 307); (308, 309);
   (310, 311); (313, 314); (315, 316); (317, 318); (319, 320); (321, 322);
   (323, 324); (325, 326); (327, 328); (330, 331); (332, 333); (334, 335);
   (336, 337); (338, 339); (340, 341); (342, 343); (344, 345); (346, 347);
   (348, 349); (350, 351); (352, 353); (354, 355); (356, 357); (358, 359);
   (360, 361); (362, 363); (364, 365); (366, 367); (368, 369); (370, 371);
   (372, 373); (374, 375); (376, 255); (377, 378); (379, 380); (381, 382);
   (385, 595); (386, 387); (388, 389); (390, 596); (391, 392); (393, 598);
   (394, 599); (395, 396); (398, 477); (399, 601); (400, 603); (401, 402);
   (403, 608); (404, 611); (406, 617); (407, 616); (408, 409); (412, 623);
   (413, 626); (415, 629); (416, 417); (418, 419); (420, 421); (422, 640);
   (423, 424); (425, 643); (428, 429); (430, 648); (431, 432); (433, 650);
   (434, 651); (435, 436); (437, 438); (439, 658); (440, 441); (444, 445);
   (452, 454); (453, 454); (455, 457); (456, 457); (458, 460); (459, 460);
   (461, 462); (463, 464); (465, 466); (467, 468); (469, 470); (471, 472);
   (473, 474); (475, 476); (478, 479); (480, 481); (482, 483); (484, 485);
   (486, 487); (488, 489); (490, 491); (492, 493); (494, 495); (497, 499);
   (498, 499); (500, 501); (502, 405); (503, 447); (504, 505); (506, 507);
   (508, 509); (510, 511); (512, 513); (514, 515); (516, 517); (518, 519);
   (520, 521); (522, 523); (524, 525); (526, 527); (528, 529); (530, 531);
   (532, 533); (534, 535); (536, 537); (538, 539); (540, 541); (542, 543);
   (544, 414); (546, 547); (548, 549); (550, 551); (552, 553); (554, 555);
   (556, 557); (558, 559); (560, 561); (562, 563); (570, 11365); (571, 572);
   (573, 410); (574, 11366); (577, 578); (579, 384); (580, 649); (581, 652);
   (582, 583); (584, 585); (586, 587); (588, 589); (590, 591); (880, 881);
   (882, 883); (886, 887); (895, 1011); (902, 940); (904, 941); (905, 942);
   (906, 943); (908, 972); (910, 973); (911, 974); (913, 945); (914, 946);
   (915, 947); (916, 948); (917, 949); (918, 950); (919, 951); (920, 952);
   (921, 953); (922, 954); (923, 955); (924, 956); (925, 957); (926, 958);
   (927, 959); (928, 960); (929, 961); (932, 964); (933, 965); (934, 966);
   (935, 967); (936, 968); (937, 969); (938, 970); (939, 971); (975, 983);
   (984, 985); (986, 987); (988, 989); (990, 991); (992, 993); (994, 995);
   (996, 997); (998, 999); (1000, 1001); (1002, 1003); (1004, 1005); (1006, 1007);
   (1012, 952); (1015, 1016); (1017, 1010); (1018, 1019); (1021, 891);
   (1022, 892); (1023, 893); (1024, 1104); (1025, 1105); (1026, 1106);
   (1027, 1107); (1028, 1108); (1029, 1109); (1030, 1110); (1031, 1111);
   (1032, 1112); (1033, 1113); (1034, 1114); (1035, 1115); (1036, 1116);
   (1037, 1117); (1038, 1118); (1039, 1119); (1040, 1072); (1041, 1073);
   (1042, 1074); (1043, 1075); (1044, 1076); (1045, 1077); (1046, 1078);
   (1047, 1079); (1048, 1080); (1049, 1081); (1050, 1082); (1051, 1083);
   (1052, 1084); (1053, 1085); (1054, 1086); (1055, 1087); (1056, 1088);
   (1057, 1089); (1058, 1090); (1059, 1091); (1060, 1092); (1061, 1093);
   (1062, 1094); (1063, 1095); (1064, 1096); (1065, 1097); (1066, 1098);
   (1067, 1099); (1068, 1100); (1069, 1101); (1070, 1102); (1071, 1103);
   (1120, 1121); (1122, 1123); (1124, 1125); (1126, 1127); (1128, 1129);
   (1130, 1131); (1132, 1133); (1134, 1135); (1136, 1137); (1138, 1139);
   (1140, 1141); (1142, 1143); (1144, 1145); (1146, 1147); (1148, 1149);
   (1150, 1151); (1152, 1153); (1162, 1163); (1164, 1165); (1166, 1167);
   (1168, 1169); (1170, 1171); (1172, 1173); (1174, 1175); (1176, 1177);
   (1178, 1179); (1180, 1181); (1182, 1183); (1184, 1185); (1186, 1187);
   (1188, 1189); (1190, 1191); (1192, 1193); (1194, 1195); (1196, 1197);
   (1198, 1199); (1200, 1201); (1202, 1203); (1204, 1205); (1206, 1207);
   (1208, 1209); (1210, 1211); (1212, 1213); (1214, 1215); (1216, 1231);
   (1217, 1218); (1219, 1220); (1221, 1222); (1223, 1224); (1225, 1226);
   (1227, 1228); (1229, 1230); (1232, 1233); (1234, 1235); (1236, 1237);
   (1238, 1239); (1240, 1241); (1242, 1243); (1244, 1245); (1246, 1247);
   (1248, 1249); (1250, 1251); (1252, 1253); (1254, 1255); (1256, 1257);
   (1258, 1259); (1260, 1261); (1262, 1263); (1264, 1265); (1266, 1267);
   (1268, 1269); (1270, 1271); (1272, 1273); (1274, 1275); (1276, 1277);
   (1278, 1279); (1280, 1281); (1282, 1283); (1284, 1285); (1286, 1287);
   (1288, 1289); (1290, 1291); (1292, 1293); (1294, 1295); (1296, 1297);
   (1298, 1299); (1300, 1301); (1302, 1303); (1304, 1305); (1306, 1307);
   (1308, 1309); (1310, 1311); (1312, 1313); (1314, 1315); (1316, 1317);
   (1318, 1319); (1320, 1321); (1322, 1323); (1324, 1325); (1326, 1327);
   (1329, 1377); (1330, 1378); (1331, 1379); (1332, 1380); (1333, 1381);
   (1334, 1382); (1335, 1383); (1336, 1384); (1337, 1385); (1338, 1386);
   (1339, 1387); (1340, 1388); (1341, 1389); (1342, 1390); (1343, 1391);
   (1344, 1392); (1345, 1393); (1346, 1394); (1347, 1395); (1348, 1396);
   (1349, 1397); (1350, 1398); (1351, 1399); (1352, 1400); (1353, 1401);
   (1354, 1402); (1355, 1403); (1356, 1404); (1357, 1405); (1358, 1406);
   (1359, 1407); (1360, 1408); (1361, 1409); (1362, 1410); (1363, 1411);
   (1364, 1412); (1365, 1413); (1366, 1414); (4256, 11520); (4257, 11521);
   (4258, 11522); (4259, 11523); (4260, 11524); (4261, 11525); (4262, 11526);
   (4263, 11527); (4264, 11528); (4265, 11529); (4266, 11530); (4267, 11531);
   (4268, 11532); (4269, 11533); (4270, 11534); (4271, 11535); (4272, 11536);
   (4273, 11537); (4274, 11538); (4275, 11539); (4276, 11540); (4277, 11541);
   (4278, 11542); (4279, 11543); (4280, 11544); (4281, 11545); (4282, 11546);
   (4283, 11547); (4284, 11548); (4285, 11549); (4286, 11550); (4287, 11551);
   (4288, 11552); (4289, 11553); (4290, 11554); (4291, 11555); (4292, 11556);
   (4293, 11557); (4295, 11559); (4301, 11565); (5024, 43888); (5025, 43889);
   (5026, 43890); (5027, 43891); (5028, 43892); (5029, 43893); (5030, 43894);
   (5031, 43895); (5032, 43896); (5033, 43897); (5034, 43898); (5035, 43899);
   (5036, 43900); (5037, 43901); (5038, 43902); (5039, 43903); (5040, 43904);
   (5041, 43905); (5042, 43906); (5043, 43907); (5044, 43908); (5045, 43909);
   (5046, 43910); (5047, 43911); (5048, 43912); (5049, 43913); (5050, 43914);
   (5051, 43915); (5052, 43916); (5053, 43917); (5054, 43918); (5055, 43919);
   (5056, 43920); (5057, 43921); (5058, 43922); (5059, 43923); (5060, 43924);
   (5061, 43925); (5062, 43926); (5063, 43927); (5064, 43928); (5065, 43929);
   (5066, 43930); (5067, 43931); (5068, 43932); (5069, 43933); (5070, 43934);
   (5071, 43935); (5072, 43936); (5073, 43937); (5074, 43938); (5075, 43939);
   (5076, 43940); (5077, 43941); (5078, 43942); (5079, 43943); (5080, 43944);
   (5081, 43945); (5082, 43946); (5083, 43947); (5084, 43948); (5085, 43949);
   (5086, 43950); (5087, 43951); (5088, 43952); (5089, 43953); (5090, 43954);
   (5091, 43955); (5092, 43956); (5093, 43957); (5094, 43958); (5095, 43959);
   (5096, 43960); (5097, 43961); (5098, 43962); (5099, 43963); (5100, 43964);
   (5101, 43965); (5102, 43966); (5103, 43967); (5104, 5112); (5105, 5113);
   (5106, 5114); (5107, 5115); (5108, 5116); (5109, 5117); (7312, 4304);
   (7313, 4305); (7314, 4306); (7315, 4307); (7316, 4308); (7317, 4309);
   (7318, 4310); (7319, 4311); (7320, 4312); (7321, 4313); (7322, 4314);
   (7323, 4315); (7324, 4316); (7325, 4317); (7326, 4318); (7327, 4319);
   (7328, 4320); (7329, 4321); (7330, 4322); (7331, 4323); (7332, 4324);
   (7333, 4325); (7334, 4326); (7335, 4327); (7336, 4328); (7337, 4329);
   (7338, 4330); (7339, 4331); (7340, 4332); (7341, 4333); (7342, 4334);
   (7343, 4335); (7344, 4336); (7345, 4337); (7346, 4338); (7347, 4339);
   (7348, 4340); (7349, 4341); (7350, 4342); (7351, 4343); (7352, 4344);
   (7353, 4345); (7354, 4346); (7357, 4349); (7358, 4350); (7359, 4351);
   (7680, 7681); (7682, 7683); (7684, 7685); (7686, 7687); (7688, 7689);
   (7690, 7691); (7692, 7693); (7694, 7695); (7696, 7697); (7698, 7699);
   (7700, 7701); (7702, 7703); (7704, 7705); (7706, 7707); (7708, 7709);
   (7710, 7711); (7712, 7713); (7714, 7715); (7716, 7717); (7718, 7719);
   (7720, 7721); (7722, 7723); (7724, 7725); (7726, 7727); (7728, 7729);
   (7730, 7731); (7732, 7733); (7734, 7735); (7736, 7737); (7738, 7739);
   (7740, 7741); (7742, 7743); (7744, 7745); (7746, 7747); (7748, 7749);
   (7750, 7751); (7752, 7753); (7754, 7755); (7756, 7757); (7758, 7759);
   (7760, 7761); (7762, 7763); (7764, 7765); (7766, 7767); (7768, 7769);
   (7770, 7771); (7772, 7773); (7774, 7775); (7776, 7777); (7778, 7779);
   (7780, 7781); (7782, 7783); (7784, 7785); (7786, 7787); (7788, 7789);
   (7790, 7791); (7792, 7793); (7794, 7795); (7796, 7797); (7798, 7799);
   (7800, 7801); (7802, 7803); (7804, 7805); (7806, 7807); (7808, 7809);
   (7810, 7811); (7812, 7813); (7814, 7815); (7816, 7817); (7818, 7819);
   (7820, 7821); (7822, 7823); (7824, 7825); (7826, 7827); (7828, 7829);
   (7838, 223); (7840, 7841); (7842, 7843); (7844, 7845); (7846, 7847);
   (7848, 7849); (7850, 7851); (7852, 7853); (7854, 7855); (7856, 7857);
   (7858, 7859); (7860, 7861); (7862, 7863); (7864, 7865); (7866, 7867);
   (7868, 7869); (7870, 7871); (7872, 7873); (7874, 7875); (7876, 7877);
   (7878, 7879); (7880, 7881); (7882, 7883); (7884, 7885); (7886, 7887);
   (7888, 7889); (7890, 7891); (7892, 7893); (7894, 7895); (7896, 7897);
   (7898, 7899); (7900, 7901); (7902, 7903); (7904, 7905); (7906, 7907);
   (7908, 7909); (7910, 7911); (7912, 7913); (7914, 7915); (7916, 7917);
   (7918, 7919); (7920, 7921); (7922, 7923); (7924, 7925); (7926, 7927);
   (7928, 7929); (7930, 7931); (7932, 7933); (7934, 7935); (7944, 7936);
   (7945, 7937); (7946, 7938); (7947, 7939); (7948, 7940); (7949, 7941);
   (7950, 7942); (7951, 7943); (7960, 7952); (7961, 7953); (7962, 7954);
   (7963, 7955); (7964, 7956); (7965, 7957); (7976, 7968); (7977, 7969);
   (7978, 7970); (7979, 7971); (7980, 7972); (7981, 7973); (7982, 7974);
   (7983, 7975); (7992, 7984); (7993, 7985); (7994, 7986); (7995, 7987);
   (7996, 7988); (7997, 7989); (7998, 7990); (7999, 7991); (8008, 8000);
   (8009, 8001); (8010, 8002); (8011, 8003); (8012, 8004); (8013, 8005);
   (8025, 8017); (8027, 8019); (8029, 8021); (8031, 8023); (8040, 8032);
   (8041, 8033); (8042, 8034); (8043, 8035); (8044, 8036); (8045, 8037);
   (8046, 8038); (8047, 8039); (8072, 8064); (8073, 8065); (8074, 8066);
   (8075, 8067); (8076, 8068); (8077, 8069); (8078, 8070); (8079, 8071);
   (8088, 8080); (8089, 8081); (8090, 8082); (8091, 8083); (8092, 8084);
   (8093, 8085); (8094, 8086); (8095, 8087); (8104, 8096); (8105, 8097);
   (8106, 8098); (8107, 8099); (8108, 8100); (8109, 8101); (8110, 8102);
   (8111, 8103); (8120, 8112); (8121, 8113); (8122, 8048); (8123, 8049);
   (8124, 8115); (8136, 8050); (8137, 8051); (8138, 8052); (8139, 8053);
   (8140, 8131); (8152, 8144); (8153, 8145); (8154, 8054); (8155, 8055);
   (8168, 8160); (8169, 8161); (8170, 8058); (8171, 8059); (8172, 8165);
   (8184, 8056); (8185, 8057); (8186, 8060); (8187, 8061); (8188, 8179);
   (8486, 969); (8490, 107); (8491, 229); (8498, 8526); (8544, 8560);
   (8545, 8561); (8546, 8562); (8547, 8563); (8548, 8564); (8549, 8565);
   (8550, 8566); (8551, 8567); (8552, 8568); (8553, 8569); (8554, 8570);
   (8555, 8571); (8556, 8572); (8557, 8573); (8558, 8574); (8559, 8575);
   (8579, 8580); (9398, 9424); (9399, 9425); (9400, 9426); (9401, 9427);
   (9402, 9428); (9403, 9429); (9404, 9430); (9405, 9431); (9406, 9432);
   (9407, 9433); (9408, 9434); (9409, 9435); (9410, 9436); (9411, 9437);
   (9412, 9438); (9413, 9439); (9414, 9440); (9415, 9441); (9416, 9442);
   (9417, 9443); (9418, 9444); (9419, 9445); (9420, 9446); (9421, 9447);
   (9422, 9448); (9423, 9449); (11264, 11312); (11265, 11313); (11266, 11314);
   (11267, 11315); (11268, 11316); (11269, 11317); (11270, 11318);
   (11271, 11319); (11272, 11320); (11273, 11321); (11274, 11322);
   (11275, 11323); (11276, 11324); (11277, 11325); (11278, 11326);
   (11279, 11327); (11280, 11328); (11281, 11329); (11282, 11330);
   (11283, 11331); (11284, 11332); (11285, 11333); (11286, 11334);
   (11287, 11335); (11288, 11336); (11289, 11337); (11290, 11338);
   (11291, 11339); (11292, 11340); (11293, 11341); (11294, 11342);
   (11295, 11343); (11296, 11344); (11297, 11345); (11298, 11346);
   (11299, 11347); (11300, 11348); (11301, 11349); (11302, 11350);
   (11303, 11351); (11304, 11352); (11305, 11353); (11306, 11354);
   (11307, 11355); (11308, 11356); (11309, 11357); (11310, 11358);
   (11311, 11359); (11360, 11361); (11362, 619); (11363, 7549); (11364, 637);
   (11367, 11368); (11369, 11370); (11371, 11372); (11373, 593); (11374, 625);
   (11375, 592); (11376, 594); (11378, 11379); (11381, 11382); (11390, 575);
   (11391, 576); (11392, 11393); (11394, 11395); (11396, 11397); (11398, 11399);
   (11400, 11401); (11402, 11403); (11404, 11405); (11406, 11407);
   (11408, 11409); (11410, 11411); (11412, 11413); (11414, 11415);
   (11416, 11417); (11418, 11419); (11420, 11421); (11422, 11423);
   (11424, 11425); (11426, 11427); (11428, 11429); (11430, 11431);
   (11432, 11433); (11434, 11435); (11436, 11437); (11438, 11439);
   (11440, 11441); (11442, 11443); (11444, 11445); (11446, 11447);
   (11448, 11449); (11450, 11451); (11452, 11453); (11454, 11455);
   (11456, 11457); (11458, 11459); (11460, 11461); (11462, 11463);
   (11464, 11465); (11466, 11467); (11468, 11469); (11470, 11471);
   (11472, 11473); (11474, 11475); (11476, 11477); (11478, 11479);
   (11480, 11481); (11482, 11483); (11484, 11485); (11486, 11487);
   (11488, 11489); (11490, 11491); (11499, 11500); (11501, 11502);
   (11506, 11507); (42560, 42561); (42562, 42563); (42564, 42565);
   (42566, 42567); (42568, 42569); (42570, 42571); (42572, 42573);
   (42574, 42575); (42576, 42577); (42578, 42579); (42580, 42581);
   (42582, 42583); (42584, 42585); (42586, 42587); (42588, 42589);
   (42590, 42591); (42592, 42593); (42594, 42595); (42596, 42597);
   (42598, 42599); (42600, 42601); (42602, 42603); (42604, 42605);
   (42624, 42625); (42626, 42627); (42628, 42629); (42630, 42631);
   (42632, 42633); (42634, 42635); (42636, 42637); (42638, 42639);
   (42640, 42641); (42642, 42643); (42644, 42645); (42646, 42647);
   (42648, 42649); (42650, 42651); (42786, 42787); (42788, 42789);
   (42790, 42791); (42792, 42793); (42794, 42795); (42796, 42797);
   (42798, 42799); (42802, 42803); (42804, 42805); (42806, 42807);
   (42808, 42809); (42810, 42811); (42812, 42813); (42814, 42815);
   (42816, 42817); (42818, 42819); (42820, 42821); (42822, 42823);
   (42824, 42825); (42826, 42827); (42828, 42829); (42830, 42831);
   (42832, 42833); (42834, 42835); (42836, 42837); (42838, 42839);
   (42840, 42841); (42842, 42843); (42844, 42845); (42846, 42847);
   (42848, 42849); (42850, 42851); (42852, 42853); (42854, 42855);
   (42856, 42857); (42858, 42859); (42860, 42861); (42862, 42863);
   (42873, 42874); (42875, 42876); (42877, 7545); (42878, 42879); (42880, 42881);
   (42882, 42883); (42884, 42885); (42886, 42887); (42891, 42892); (42893, 613);
   (42896, 42897); (42898, 42899); (42902, 42903); (42904, 42905);
   (42906, 42907); (42908, 42909); (42910, 42911); (42912, 42913);
   (42914, 42915); (42916, 42917); (42918, 42919); (42920, 42921); (42922, 614);
   (42923, 604); (42924, 609); (42925, 620); (42926, 618); (42928, 670);
   (42929, 647); (42930, 669); (42931, 43859); (42932, 42933); (42934, 42935);
   (42936, 42937); (42938, 42939); (42940, 42941); (42942, 42943);
   (42944, 42945); (42946, 42947); (42948, 42900); (42949, 642); (42950, 7566);
   (42951, 42952); (42953, 42954); (42960, 42961); (42966, 42967);
   (42968, 42969); (42997, 42998); (65313, 65345); (65314, 65346);
   (65315, 65347); (65316, 65348); (65317, 65349); (65318, 65350);
   (65319, 65351); (65320, 65352); (65321, 65353); (65322, 65354);
   (65323, 65355); (65324, 65356); (65325, 65357); (65326, 65358);
   (65327, 65359); (65328, 65360); (65329, 65361); (65330, 65362);
   (65331, 65363); (65332, 65364); (65333, 65365); (65334, 65366);
   (65335, 65367); (65336, 65368); (65337, 65369); (65338, 65370);
   (66560, 66600); (66561, 66601); (66562, 66602); (66563, 66603);
   (66564, 66604); (66565, 66605); (66566, 66606); (66567, 66607);
   (66568, 66608); (66569, 66609); (66570, 66610); (66571, 66611);
   (66572, 66612); (66573, 66613); (66574, 66614); (66575, 66615);
   (66576, 66616); (66577, 66617); (66578, 66618); (66579, 66619);
   (66580, 66620); (66581, 66621); (66582, 66622); (66583, 66623);
   (66584, 66624); (66585, 66625); (66586, 66626); (66587, 66627);
   (66588, 66628); (66589, 66629); (66590, 66630); (66591, 66631);
   (66592, 66632); (66593, 66633); (66594, 66634); (66595, 66635);
   (66596, 66636); (66597, 66637); (66598, 66638); (66599, 66639);
   (66736, 66776); (66737, 66777); (66738, 66778); (66739, 66779);
   (66740, 66780); (66741, 66781); (66742, 66782); (66743, 66783);
   (66744, 66784); (66745, 66785); (66746, 66786); (66747, 66787);
   (66748, 66788); (66749, 66789); (66750, 66790); (66751, 66791);
   (66752, 66792); (66753, 66793); (66754, 66794); (66755, 66795);
   (66756, 66796); (66757, 66797); (66758, 66798); (66759, 66799);
   (66760, 66800); (66761, 66801); (66762, 66802); (66763, 66803);
   (66764, 66804); (66765, 66805); (66766, 66806); (66767, 66807);
   (66768, 66808); (66769, 66809); (66770, 66810); (66771, 66811);
   (66928, 66967); (66929, 66968); (66930, 66969); (66931, 66970);
   (66932, 66971); (66933, 66972); (66934, 66973); (66935, 66974);
   (66936, 66975); (66937, 66976); (66938, 66977); (66940, 66979);
   (66941, 66980); (66942, 66981); (66943, 66982); (66944, 66983);
   (66945, 66984); (66946, 66985); (66947, 66986); (66948, 66987);
   (66949, 66988); (66950, 66989); (66951, 66990); (66952, 66991);
   (66953, 66992); (66954, 66993); (66956, 66995); (66957, 66996);
   (66958, 66997); (66959, 66998); (66960, 66999); (66961, 67000);
   (66962, 67001); (66964, 67003); (66965, 67004); (68736, 68800);
   (68737, 68801); (68738, 68802); (68739, 68803); (68740, 68804);
   (68741, 68805); (68742, 68806); (68743, 68807); (68744, 68808);
   (68745, 68809); (68746, 68810); (68747, 68811); (68748, 68812);
   (68749, 68813); (68750, 68814); (68751, 68815); (68752, 68816);
   (68753, 68817); (68754, 68818); (68755, 68819); (68756, 68820);
   (68757, 68821); (68758, 68822); (68759, 68823); (68760, 68824);
   (68761, 68825); (68762, 68826); (68763, 68827); (68764, 68828);
   (68765, 68829); (68766, 68830); (68767, 68831); (68768, 68832);
   (68769, 68833); (68770, 68834); (68771, 68835); (68772, 68836);
   (68773, 68837); (68774, 68838); (68775, 68839); (68776, 68840);
   (68777, 68841); (68778, 68842); (68779, 68843); (68780, 68844);
   (68781, 68845); (68782, 68846); (68783, 68847); (68784, 68848);
   (68785, 68849); (68786, 68850); (71840, 71872); (71841, 71873);
   (71842, 71874); (71843, 71875); (71844, 71876); (71845, 71877);
   (71846, 71878); (71847, 71879); (71848, 71880); (71849, 71881);
   (71850, 71882); (71851, 71883); (71852, 71884); (71853, 71885);
   (71854, 71886); (71855, 71887); (71856, 71888); (71857, 71889);
   (71858, 71890); (71859, 71891); (71860, 71892); (71861, 71893);
   (71862, 71894); (71863, 71895); (71864, 71896); (71865, 71897);
   (71866, 71898); (71867, 71899); (71868, 71900); (71869, 71901);
   (71870, 71902); (71871, 71903); (93760, 93792); (93761, 93793);
   (93762, 93794); (93763, 93795); (93764, 93796); (93765, 93797);
   (93766, 93798); (93767, 93799); (93768, 93800); (93769, 93801);
   (93770, 93802); (93771, 93803); (93772, 93804); (93773, 93805);
   (93774, 93806); (93775, 93807); (93776, 93808); (93777, 93809);
   (93778, 93810); (93779, 93811); (93780, 93812); (93781, 93813);
   (93782, 93814); (93783, 93815); (93784, 93816); (93785, 93817);
   (93786, 93818); (93787, 93819); (93788, 93820); (93789, 93821);
   (93790, 93822); (93791, 93823); (125184, 125218); (125185, 125219);
   (125186, 125220); (125187, 125221); (125188, 125222); (125189, 125223);
   (125190, 125224); (125191, 125225); (125192, 125226); (125193, 125227);
   (125194, 125228); (125195, 125229); (125196, 125230); (125197, 125231);
   (125198, 125232); (125199, 125233); (125200, 125234); (125201, 125235);
   (125202, 125236); (125203, 125237); (125204, 125238); (125205, 125239);
   (125206, 125240); (125207, 125241); (125208, 125242); (125209, 125243);
   (125210, 125244); (125211, 125245); (125212, 125246); (125213, 125247);
   (125214, 125248); (125215, 125249); (125216, 125250); (125217, 125251)]%N.

(** The code points [c] with [c.isupper()], as ranges. *)
Definition uppercase_table : list (N * N) :=
  [(65, 90); (192, 214); (216, 222); (256, 256); (258, 258); (260, 260);
   (262, 262); (264, 264); (266, 266); (268, 268); (270, 270); (272, 272);
   (274, 274); (276, 276); (278, 278); (280, 280); (282, 282); (284, 284);
   (286, 286); (288, 288); (290, 290); (292, 292); (294, 294); (296, 296);
   (298, 298); (300, 300); (302, 302); (304, 304); (306, 306); (308, 308);
   (310, 310); (313, 313); (315, 315); (317, 317); (319, 319); (321, 321);
   (323, 323); (325, 325); (327, 327); (330, 330); (332, 332); (334, 334);
   (336, 336); (338, 338); (340, 340); (342, 342); (344, 344); (346, 346);
   (348, 348); (350, 350); (352, 352); (354, 354); (356, 356); (358, 358);
   (360, 360); (362, 362); (364, 364); (366, 366); (368, 368); (370, 370);
   (372, 372); (374, 374); (376, 377); (379, 379); (381, 381); (385, 386);
   (388, 388); (390, 391); (393, 395); (398, 401); (403, 404); (406, 408);
   (412, 413); (415, 416); (418, 418); (420, 420); (422, 423); (425, 425);
   (428, 428); (430, 431); (433, 435); (437, 437); (439, 440); (444, 444);
   (452, 452); (455, 455); (458, 458); (461, 461); (463, 463); (465, 465);
   (467, 467); (469, 469); (471, 471); (473, 473); (475, 475); (478, 478);
   (480, 480); (482, 482); (484, 484); (486, 486); (488, 488); (490, 490);
   (492, 492); (494, 494); (497, 497); (500, 500); (502, 504); (506, 506);
   (508, 508); (510, 510); (512, 512); (514, 514); (516, 516); (518, 518);
   (520, 520); (522, 522); (524, 524); (526, 526); (528, 528); (530, 530);
   (532, 532); (534, 534); (536, 536); (538, 538); (540, 540); (542, 542);
   (544, 544); (546, 546); (548, 548); (550, 550); (552, 552); (554, 554);
   (556, 556); (558, 558); (560, 560); (562, 562); (570, 571); (573, 574);
   (577, 577); (579, 582); (584, 584); (586, 586); (588, 588); (590, 590);
   (880, 880); (882, 882); (886, 886); (895, 895); (902, 902); (904, 906);
   (908, 908); (910, 911); (913, 929); (931, 939); (975, 975); (978, 980);
   (984, 984); (986, 986); (988, 988); (990, 990); (992, 992); (994, 994);
   (996, 996); (998, 998); (1000, 1000); (1002, 1002); (1004, 1004); (1006, 1006);
   (1012, 1012); (1015, 1015); (1017, 1018); (1021, 1071); (1120, 1120);
   (1122, 1122); (1124, 1124); (1126, 1126); (1128, 1128); (1130, 1130);
   (1132, 1132); (1134, 1134); (1136, 1136); (1138, 1138); (1140, 1140);
   (1142, 1142); (1144, 1144); (1146, 1146); (1148, 1148); (1150, 1150);
   (1152, 1152); (1162, 1162); (1164, 1164); (1166, 1166); (1168, 1168);
   (1170, 1170); (1172, 1172); (1174, 1174); (1176, 1176); (1178, 1178);
   (1180, 1180); (1182, 1182); (1184, 1184); (1186, 1186); (1188, 1188);
   (1190, 1190); (1192, 1192); (1194, 1194); (1196, 1196); (1198, 1198);
   (1200, 1200); (1202, 1202); (1204, 1204); (1206, 1206); (1208, 1208);
   (1210, 1210); (1212, 1212); (1214, 1214); (1216, 1217); (1219, 1219);
   (1221, 1221); (1223, 1223); (1225, 1225); (1227, 1227); (1229, 1229);
   (1232, 1232); (1234, 1234); (1236, 1236); (1238, 1238); (1240, 1240);
   (1242, 1242); (1244, 1244); (1246, 1246); (1248, 1248); (1250, 1250);
   (1252, 1252); (1254, 1254); (1256, 1256); (1258, 1258); (1260, 1260);
   (1262, 1262); (1264, 1264); (1266, 1266); (1268, 1268); (1270, 1270);
   (1272, 1272); (1274, 1274); (1276, 1276); (1278, 1278); (1280, 1280);
   (1282, 1282); (1284, 1284); (1286, 1286); (1288, 1288); (1290, 1290);
   (1292, 1292); (1294, 1294); (1296, 1296); (1298, 1298); (1300, 1300);
   (1302, 1302); (1304, 1304); (1306, 1306); (1308, 1308); (1310, 1310);
   (1312, 1312); (1314, 1314); (1316, 1316); (1318, 1318); (1320, 1320);
   (1322, 1322); (1324, 1324); (1326, 1326); (1329, 1366); (4256, 4293);
   (4295, 4295); (4301, 4301); (5024, 5109); (7312, 7354); (7357, 7359);
   (7680, 7680); (7682, 7682); (7684, 7684); (7686, 7686); (7688, 7688);
   (7690, 7690); (7692, 7692); (7694, 7694); (7696, 7696); (7698, 7698);
   (7700, 7700); (7702, 7702); (7704, 7704); (7706, 7706); (7708, 7708);
   (7710, 7710); (7712, 7712); (7714, 7714); (7716, 7716); (7718, 7718);
   (7720, 7720); (7722, 7722); (7724, 7724); (7726, 7726); (7728, 7728);
   (7730, 7730); (7732, 7732); (7734, 7734); (7736, 7736); (7738, 7738);
   (7740, 7740); (7742, 7742); (7744, 7744); (7746, 7746); (7748, 7748);
   (7750, 7750); (7752, 7752); (7754, 7754); (7756, 7756); (7758, 7758);
   (7760, 7760); (7762, 7762); (7764, 7764); (7766, 7766); (7768, 7768);
   (7770, 7770); (7772, 7772); (7774, 7774); (7776, 7776); (7778, 7778);
   (7780, 7780); (7782, 7782); (7784, 7784); (7786, 7786); (7788, 7788);
   (7790, 7790); (7792, 7792); (7794, 7794); (7796, 7796); (7798, 7798);
   (7800, 7800); (7802, 7802); (7804, 7804); (7806, 7806); (7808, 7808);
   (7810, 7810); (7812, 7812); (7814, 7814); (7816, 7816); (7818, 7818);
   (7820, 7820); (7822, 7822); (7824, 7824); (7826, 7826); (7828, 7828);
   (7838, 7838); (7840, 7840); (7842, 7842); (7844, 7844); (7846, 7846);
   (7848, 7848); (7850, 7850); (7852, 7852); (7854, 7854); (7856, 7856);
   (7858, 7858); (7860, 7860); (7862, 7862); (7864, 7864); (7866, 7866);
   (7868, 7868); (7870, 7870); (7872, 7872); (7874, 7874); (7876, 7876);
   (7878, 7878); (7880, 7880); (7882, 7882); (7884, 7884); (7886, 7886);
   (7888, 7888); (7890, 7890); (7892, 7892); (7894, 7894); (7896, 7896);
   (7898, 7898); (7900, 7900); (7902, 7902); (7904, 7904); (7906, 7906);
   (7908, 7908); (7910, 7910); (7912, 7912); (7914, 7914); (7916, 7916);
   (7918, 7918); (7920, 7920); (7922, 7922); (7924, 7924); (7926, 7926);
   (7928, 7928); (7930, 7930); (7932, 7932); (7934, 7934); (7944, 7951);
   (7960, 7965); (7976, 7983); (7992, 7999); (8008, 8013); (8025, 8025);
   (8027, 8027); (8029, 8029); (8031, 8031); (8040, 8047); (8120, 8123);
   (8136, 8139); (8152, 8155); (8168, 8172); (8184, 8187); (8450, 8450);
   (8455, 8455); (8459, 8461); (8464, 8466); (8469, 8469); (8473, 8477);
   (8484, 8484); (8486, 8486); (8488, 8488); (8490, 8493); (8496, 8499);
   (8510, 8511); (8517, 8517); (8544, 8559); (8579, 8579); (9398, 9423);
   (11264, 11311); (11360, 11360); (11362, 11364); (11367, 11367);
   (11369, 11369); (11371, 11371); (11373, 11376); (11378, 11378);
   (11381, 11381); (11390, 11392); (11394, 11394); (11396, 11396);
   (11398, 11398); (11400, 11400); (11402, 11402); (11404, 11404);
   (11406, 11406); (11408, 11408); (11410, 11410); (11412, 11412);
   (11414, 11414); (11416, 11416); (11418, 11418); (11420, 11420);
   (11422, 11422); (11424, 11424); (11426, 11426); (11428, 11428);
   (11430, 11430); (11432, 11432); (11434, 11434); (11436, 11436);
   (11438, 11438); (11440, 11440); (11442, 11442); (11444, 11444);
   (11446, 11446); (11448, 11448); (11450, 11450); (11452, 11452);
   (11454, 11454); (11456, 11456); (11458, 11458); (11460, 11460);
   (11462, 11462); (11464, 11464); (11466, 11466); (11468, 11468);
   (11470, 11470); (11472, 11472); (11474, 11474); (11476, 11476);
   (11478, 11478); (11480, 11480); (11482, 11482); (11484, 11484);
   (11486, 11486); (11488, 11488); (11490, 11490); (11499, 11499);
   (11501, 11501); (11506, 11506); (42560, 42560); (42562, 42562);
   (42564, 42564); (42566, 42566); (42568, 42568); (42570, 42570);
   (42572, 42572); (42574, 42574); (42576, 42576); (42578, 42578);
   (42580, 42580); (42582, 42582); (42584, 42584); (42586, 42586);
   (42588, 42588); (42590, 42590); (42592, 42592); (42594, 42594);
   (42596, 42596); (42598, 42598); (42600, 42600); (42602, 42602);
   (42604, 42604); (42624, 42624); (42626, 42626); (42628, 42628);
   (42630, 42630); (42632, 42632); (42634, 42634); (42636, 42636);
   (42638, 42638); (42640, 42640); (42642, 42642); (42644, 42644);
   (42646, 42646); (42648, 42648); (42650, 42650); (42786, 42786);
   (42788, 42788); (42790, 42790); (42792, 42792); (42794, 42794);
   (42796, 42796); (42798, 42798); (42802, 42802); (42804, 42804);
   (42806, 42806); (42808, 42808); (42810, 42810); (42812, 42812);
   (42814, 42814); (42816, 42816); (42818, 42818); (42820, 42820);
   (42822, 42822); (42824, 42824); (42826, 42826); (42828, 42828);
   (42830, 42830); (42832, 42832); (42834, 42834); (42836, 42836);
   (42838, 42838); (42840, 42840); (42842, 42842); (42844, 42844);
   (42846, 42846); (42848, 42848); (42850, 42850); (42852, 42852);
   (42854, 42854); (42856, 42856); (42858, 42858); (42860, 42860);
   (42862, 42862); (42873, 42873); (42875, 42875); (42877, 42878);
   (42880, 42880); (42882, 42882); (42884, 42884); (42886, 42886);
   (42891, 42891); (42893, 42893); (42896, 42896); (42898, 42898);
   (42902, 42902); (42904, 42904); (42906, 42906); (42908, 42908);
   (42910, 42910); (42912, 42912); (42914, 42914); (42916, 42916);
   (42918, 42918); (42920, 42920); (42922, 42926); (42928, 42932);
   (42934, 42934); (42936, 42936); (42938, 42938); (42940, 42940);
   (42942, 42942); (42944, 42944); (42946, 42946); (42948, 42951);
   (42953, 42953); (42960, 42960); (42966, 42966); (42968, 42968);
   (42997, 42997); (65313, 65338); (66560, 66599); (66736, 66771);
   (66928, 66938); (66940, 66954); (66956, 66962); (66964, 66965);
   (68736, 68786); (71840, 71871); (93760, 93791); (119808, 119833);
   (119860, 119885); (119912, 119937); (119964, 119964); (119966, 119967);
   (119970, 119970); (119973, 119974); (119977, 119980); (119982, 119989);
   (120016, 120041); (120068, 120069); (120071, 120074); (120077, 120084);
   (120086, 120092); (120120, 120121); (120123, 120126); (120128, 120132);
   (120134, 120134); (120138, 120144); (120172, 120197); (120224, 120249);
   (120276, 120301); (120328, 120353); (120380, 120405); (120432, 120457);
   (120488, 120512); (120546, 120570); (120604, 120628); (120662, 120686);
   (120720, 120744); (120778, 120778); (125184, 125217); (127280, 127305);
   (127312, 127337); (127344, 127369)]%N.

(** The cased code points (upper-case, lower-case or title-case), as
    ranges. *)
Definition cased_table : list (N * N) :=
  [(65, 90); (97, 122); (170, 170); (181, 181); (186, 186); (192, 214); (216, 246);
   (248, 442); (444, 447); (452, 659); (661, 696); (704, 705); (736, 740);
   (837, 837); (880, 883); (886, 887); (890, 893); (895, 895); (902, 902);
   (904, 906); (908, 908); (910, 929); (931, 1013); (1015, 1153); (1162, 1327);
   (1329, 1366); (1376, 1416); (4256, 4293); (4295, 4295); (4301, 4301);
   (4304, 4346); (4349, 4351); (5024, 5109); (5112, 5117); (7296, 7304);
   (7312, 7354); (7357, 7359); (7424, 7615); (7680, 7957); (7960, 7965);
   (7968, 8005); (8008, 8013); (8016, 8023); (8025, 8025); (8027, 8027);
   (8029, 8029); (8031, 8061); (8064, 8116); (8118, 8124); (8126, 8126);
   (8130, 8132); (8134, 8140); (8144, 8147); (8150, 8155); (8160, 8172);
   (8178, 8180); (8182, 8188); (8305, 8305); (8319, 8319); (8336, 8348);
   (8450, 8450); (8455, 8455); (8458, 8467); (8469, 8469); (8473, 8477);
   (8484, 8484); (8486, 8486); (8488, 8488); (8490, 8493); (8495, 8500);
   (8505, 8505); (8508, 8511); (8517, 8521); (8526, 8526); (8544, 8575);
   (8579, 8580); (9398, 9449); (11264, 11492); (11499, 11502); (11506, 11507);
   (11520, 11557); (11559, 11559); (11565, 11565); (42560, 42605);
   (42624, 42653); (42786, 42887); (42891, 42894); (42896, 42954);
   (42960, 42961); (42963, 42963); (42965, 42969); (42997, 42998);
   (43000, 43002); (43824, 43866); (43868, 43880); (43888, 43967);
   (64256, 64262); (64275, 64279); (65313, 65338); (65345, 65370);
   (66560, 66639); (66736, 66771); (66776, 66811); (66928, 66938);
   (66940, 66954); (66956, 66962); (66964, 66965); (66967, 66977);
   (66979, 66993); (66995, 67001); (67003, 67004); (67456, 67456);
   (67459, 67461); (67463, 67504); (67506, 67514); (68736, 68786);
   (68800, 68850); (71840, 71903); (93760, 93823); (119808, 119892);
   (119894, 119964); (119966, 119967); (119970, 119970); (119973, 119974);
   (119977, 119980); (119982, 119993); (119995, 119995); (119997, 120003);
   (120005, 120069); (120071, 120074); (120077, 120084); (120086, 120092);
   (120094, 120121); (120123, 120126); (120128, 120132); (120134, 120134);
   (120138, 120144); (120146, 120485); (120488, 120512); (120514, 120538);
   (120540, 120570); (120572, 120596); (120598, 120628); (120630, 120654);
   (120656, 120686); (120688, 120712); (120714, 120744); (120746, 120770);
   (120772, 120779); (122624, 122633); (122635, 122654); (125184, 125251);
   (127280, 127305); (127312, 127337); (127344, 127369)]%N.

(** The case-ignorable code points, as ranges. *)
Definition case_ignorable_table : list (N * N) :=
  [(39, 39); (46, 46); (58, 58); (94, 94); (96, 96); (168, 168); (173, 173);
   (175, 175); (180, 180); (183, 184); (688, 879); (884, 885); (890, 890);
   (900, 901); (903, 903); (1155, 1161); (1369, 1369); (1375, 1375); (1425, 1469);
   (1471, 1471); (1473, 1474); (1476, 1477); (1479, 1479); (1524, 1524);
   (1536, 1541); (1552, 1562); (1564, 1564); (1600, 1600); (1611, 1631);
   (1648, 1648); (1750, 1757); (1759, 1768); (1770, 1773); (1807, 1807);
   (1809, 1809); (1840, 1866); (1958, 1968); (2027, 2037); (2042, 2042);
   (2045, 2045); (2070, 2093); (2137, 2139); (2184, 2184); (2192, 2193);
   (2200, 2207); (2249, 2306); (2362, 2362); (2364, 2364); (2369, 2376);
   (2381, 2381); (2385, 2391); (2402, 2403); (2417, 2417); (2433, 2433);
   (2492, 2492); (2497, 2500); (2509, 2509); (2530, 2531); (2558, 2558);
   (2561, 2562); (2620, 2620); (2625, 2626); (2631, 2632); (2635, 2637);
   (2641, 2641); (2672, 2673); (2677, 2677); (2689, 2690); (2748, 2748);
   (2753, 2757); (2759, 2760); (2765, 2765); (2786, 2787); (2810, 2815);
   (2817, 2817); (2876, 2876); (2879, 2879); (2881, 2884); (2893, 2893);
   (2901, 2902); (2914, 2915); (2946, 2946); (3008, 3008); (3021, 3021);
   (3072, 3072); (3076, 3076); (3132, 3132); (3134, 3136); (3142, 3144);
   (3146, 3149); (3157, 3158); (3170, 3171); (3201, 3201); (3260, 3260);
   (3263, 3263); (3270, 3270); (3276, 3277); (3298, 3299); (3328, 3329);
   (3387, 3388); (3393, 3396); (3405, 3405); (3426, 3427); (3457, 3457);
   (3530, 3530); (3538, 3540); (3542, 3542); (3633, 3633); (3636, 3642);
   (3654, 3662); (3761, 3761); (3764, 3772); (3782, 3782); (3784, 3789);
   (3864, 3865); (3893, 3893); (3895, 3895); (3897, 3897); (3953, 3966);
   (3968, 3972); (3974, 3975); (3981, 3991); (3993, 4028); (4038, 4038);
   (4141, 4144); (4146, 4151); (4153, 4154); (4157, 4158); (4184, 4185);
   (4190, 4192); (4209, 4212); (4226, 4226); (4229, 4230); (4237, 4237);
   (4253, 4253); (4348, 4348); (4957, 4959); (5906, 5908); (5938, 5939);
   (5970, 5971); (6002, 6003); (6068, 6069); (6071, 6077); (6086, 6086);
   (6089, 6099); (6103, 6103); (6109, 6109); (6155, 6159); (6211, 6211);
   (6277, 6278); (6313, 6313); (6432, 6434); (6439, 6440); (6450, 6450);
   (6457, 6459); (6679, 6680); (6683, 6683); (6742, 6742); (6744, 6750);
   (6752, 6752); (6754, 6754); (6757, 6764); (6771, 6780); (6783, 6783);
   (6823, 6823); (6832, 6862); (6912, 6915); (6964, 6964); (6966, 6970);
   (6972, 6972); (6978, 6978); (7019, 7027); (7040, 7041); (7074, 7077);
   (7080, 7081); (7083, 7085); (7142, 7142); (7144, 7145); (7149, 7149);
   (7151, 7153); (7212, 7219); (7222, 7223); (7288, 7293); (7376, 7378);
   (7380, 7392); (7394, 7400); (7405, 7405); (7412, 7412); (7416, 7417);
   (7468, 7530); (7544, 7544); (7579, 7679); (8125, 8125); (8127, 8129);
   (8141, 8143); (8157, 8159); (8173, 8175); (8189, 8190); (8203, 8207);
   (8216, 8217); (8228, 8228); (8231, 8231); (8234, 8238); (8288, 8292);
   (8294, 8303); (8305, 8305); (8319, 8319); (8336, 8348); (8400, 8432);
   (11388, 11389); (11503, 11505); (11631, 11631); (11647, 11647);
   (11744, 11775); (11823, 11823); (12293, 12293); (12330, 12333);
   (12337, 12341); (12347, 12347); (12441, 12446); (12540, 12542);
   (40981, 40981); (42232, 42237); (42508, 42508); (42607, 42610);
   (42612, 42621); (42623, 42623); (42652, 42655); (42736, 42737);
   (42752, 42785); (42864, 42864); (42888, 42890); (42994, 42996);
   (43000, 43001); (43010, 43010); (43014, 43014); (43019, 43019);
   (43045, 43046); (43052, 43052); (43204, 43205); (43232, 43249);
   (43263, 43263); (43302, 43309); (43335, 43345); (43392, 43394);
   (43443, 43443); (43446, 43449); (43452, 43453); (43471, 43471);
   (43493, 43494); (43561, 43566); (43569, 43570); (43573, 43574);
   (43587, 43587); (43596, 43596); (43632, 43632); (43644, 43644);
   (43696, 43696); (43698, 43700); (43703, 43704); (43710, 43711);
   (43713, 43713); (43741, 43741); (43756, 43757); (43763, 43764);
   (43766, 43766); (43867, 43871); (43881, 43883); (44005, 44005);
   (44008, 44008); (44013, 44013); (64286, 64286); (64434, 64450);
   (65024, 65039); (65043, 65043); (65056, 65071); (65106, 65106);
   (65109, 65109); (65279, 65279); (65287, 65287); (65294, 65294);
   (65306, 65306); (65342, 65342); (65344, 65344); (65392, 65392);
   (65438, 65439); (65507, 65507); (65529, 65531); (66045, 66045);
   (66272, 66272); (66422, 66426); (67456, 67461); (67463, 67504);
   (67506, 67514); (68097, 68099); (68101, 68102); (68108, 68111);
   (68152, 68154); (68159, 68159); (68325, 68326); (68900, 68903);
   (69291, 69292); (69446, 69456); (69506, 69509); (69633, 69633);
   (69688, 69702); (69744, 69744); (69747, 69748); (69759, 69761);
   (69811, 69814); (69817, 69818); (69821, 69821); (69826, 69826);
   (69837, 69837); (69888, 69890); (69927, 69931); (69933, 69940);
   (70003, 70003); (70016, 70017); (70070, 70078); (70089, 70092);
   (70095, 70095); (70191, 70193); (70196, 70196); (70198, 70199);
   (70206, 70206); (70367, 70367); (70371, 70378); (70400, 70401);
   (70459, 70460); (70464, 70464); (70502, 70508); (70512, 70516);
   (70712, 70719); (70722, 70724); (70726, 70726); (70750, 70750);
   (70835, 70840); (70842, 70842); (70847, 70848); (70850, 70851);
   (71090, 71093); (71100, 71101); (71103, 71104); (71132, 71133);
   (71219, 71226); (71229, 71229); (71231, 71232); (71339, 71339);
   (71341, 71341); (71344, 71349); (71351, 71351); (71453, 71455);
   (71458, 71461); (71463, 71467); (71727, 71735); (71737, 71738);
   (71995, 71996); (71998, 71998); (72003, 72003); (72148, 72151);
   (72154, 72155); (72160, 72160); (72193, 72202); (72243, 72248);
   (72251, 72254); (72263, 72263); (72273, 72278); (72281, 72283);
   (72330, 72342); (72344, 72345); (72752, 72758); (72760, 72765);
   (72767, 72767); (72850, 72871); (72874, 72880); (72882, 72883);
   (72885, 72886); (73009, 73014); (73018, 73018); (73020, 73021);
   (73023, 73029); (73031, 73031); (73104, 73105); (73109, 73109);
   (73111, 73111); (73459, 73460); (78896, 78904); (92912, 92916);
   (92976, 92982); (92992, 92995); (94031, 94031); (94095, 94111);
   (94176, 94177); (94179, 94180); (110576, 110579); (110581, 110587);
   (110589, 110590); (113821, 113822); (113824, 113827); (118528, 118573);
   (118576, 118598); (119143, 119145); (119155, 119170); (119173, 119179);
   (119210, 119213); (119362, 119364); (121344, 121398); (121403, 121452);
   (121461, 121461); (121476, 121476); (121499, 121503); (121505, 121519);
   (122880, 122886); (122888, 122904); (122907, 122913); (122915, 122916);
   (122918, 122922); (123184, 123197); (123566, 123566); (123628, 123631);
   (125136, 125142); (125252, 125259); (127995, 127999); (917505, 917505);
   (917536, 917631); (917760, 917999)]%N.

Definition in_ranges (t : list (N * N)) (c : N) : bool :=
  existsb (fun r => (fst r <=? c) && (c <=? snd r))%N t.

(** [c.isupper()] *)
Definition is_uppercase (c : N) : bool := in_ranges uppercase_table c.

Definition is_cased (c : N) : bool := in_ranges cased_table c.

Definition is_case_ignorable (c : N) : bool := in_ranges case_ignorable_table c.

Definition to_lower (c : N) : N :=
  match find (fun p => (fst p =? c)%N) lower_table with
  | Some p => snd p
  | None => c
  end.

Definition to_lower_full (c : N) : list N :=
  if (c =? 304)%N then [105; 775]%N else [to_lower c].

(** The first code point of [l] that is not case-ignorable. *)
Fixpoint skip_case_ignorable (l : list N) : option N :=
  match l with
  | [] => None
  | c :: l' => if is_case_ignorable c then skip_case_ignorable l' else Some c
  end.

(** [before] is what stands before the sigma, nearest first. *)
Definition final_sigma (before after : list N) : bool :=
  match skip_case_ignorable before with
  | Some c =>
      is_cased c &&
      match skip_case_ignorable after with
      | Some d => negb (is_cased d)
      | None => true
      end
  | None => false
  end.

Fixpoint lower_from (before : list N) (s : text) : text :=
  match s with
  | [] => []
  | c :: rest =>
      (if (c =? 931)%N
       then [if final_sigma before rest then 962%N else 963%N]
       else to_lower_full c) ++ lower_from (c :: before) rest
  end.

(** [s.lower()] *)
Definition text_lower (s : text) : text := lower_from [] s.

(** A code point that [lower()] leaves as it is, wherever it stands. *)
Definition fixedb (c : N) : bool :=
  negb (c =? 304)%N && negb (c =? 931)%N &&
  match find (fun p => (fst p =? c)%N) lower_table with
  | Some _ => false
  | None => true
  end.


(** ** [int(s)] for a [str]

    CPython accepts: white space, an optional sign, decimal digits in
    which single underscores may separate digits, white space.  White
    space here is what [PyLong_FromString] skips (tab, LF, VT, FF, CR and
    space) and, in a string that is not pure ASCII, the code points that
    [str.isspace] accepts (below 256: U+0085 and U+00A0).  A literal with
    more than [int_max_str_digits] digits is refused.  Anything else
    raises [ValueError]. *)

Definition is_space (c : ascii) : bool :=
  let n := code c in
  in_range 9 13 n || (n =? 32)%N || (n =? 133)%N || (n =? 160)%N.

Definition is_digit (c : ascii) : bool := in_range 48 57 (code c).

Definition digit_val (c : ascii) : Z := Z.of_N (code c) - 48.

Fixpoint lstrip (l : list ascii) : list ascii :=
  match l with
  | c :: l' => if is_space c then lstrip l' else l
  | [] => []
  end.

Definition strip (l : list ascii) : list ascii :=
  rev (lstrip (rev (lstrip l))).

Definition int_max_str_digits : nat := 4300.

(** [digits l prev acc n]: reads the digits of [l]; [prev] says that the
    previous character was a digit (an underscore must stand between two
    digits), [acc] is the value read so far and [n] the number of digits. *)
Fixpoint digits (l : list ascii) (prev : bool) (acc : Z) (n : nat) : option (Z * nat) :=
  match l with
  | [] => if prev then Some (acc, n) else None
  | c :: l' =>
      if is_digit c then digits l' true (10 * acc + digit_val c) (S n)
      else if Ascii.eqb c "_" && prev then digits l' false acc n
      else None
  end.

Definition unsigned_int (l : list ascii) : option Z :=
  match digits l false 0 0 with
  | Some (v, n) => if (n <=? int_max_str_digits)%nat then Some v else None
  | None => None
  end.

Definition py_int (s : string) : option Z :=
  match strip (list_ascii_of_string s) with
  | "+"%char :: l => unsigned_int l
  | "-"%char :: l => option_map Z.opp (unsigned_int l)
  | l => unsigned_int l
  end.

(** [int(s)] as an expression that can raise. *)
Definition int_of_str (s : string) : result Z :=
  match py_int s with
  | Some z => Ok z
  | None => Raise ValueError
  end.

(* ===================================================================== *)
(** * The data store *)
(* ===================================================================== *)

(** A [FileField] or [ImageField] value is known by its name; [None] (or
    the empty name) is "no file". *)
Definition FieldFile : Type := option string.

(** Model instances, as [models.py] declares them.  [id] is [None] until
    the first save; the rows of a table carry their primary key.
    [c_icon_committed] is the flag [_committed] of the icon of a category:
    it is false for a file that has been assigned to the field and that
    no save has stored yet, whose name [c_icon] then holds. *)
Record Category : Type := {
  c_id : option Z;
  c_name : string;
  c_description : option string;
  c_icon : FieldFile;
  c_icon_committed : bool }.

Record Server : Type := {
  s_id : option Z;
  s_name : string;
  s_owner : Z;                  (* ForeignKey to the user model *)
  s_category : Z;               (* ForeignKey to Category *)
  s_description : option string;
  s_banner : FieldFile;
  s_icon : FieldFile }.

Record Channel : Type := {
  ch_id : option Z;
  ch_name : text;
  ch_owner : Z;                 (* ForeignKey to the user model *)
  ch_topic : string;
  ch_server : Z }.              (* ForeignKey to Server *)

(** The integers that the data store holds. *)
Definition in_int64 (z : Z) : bool := (- 2 ^ 63 <=? z) && (z <? 2 ^ 63).

(** Keyword arguments that the view passes to [filter()]. *)
Inductive kwarg : Type :=
| kw_category__name (v : string)
| kw_member (v : Z)
| kw_id (v : string).

(** The same once [get_prep_value] has run: the primary key is an
    integer field, whose [get_prep_value] calls [int(value)] and raises
    [ValueError] when that fails. *)
Inductive Lookup : Type :=
| category__name (v : string)
| member (v : Z)
| id_exact (v : Z).

Definition get_prep_lookup (kw : kwarg) : result Lookup :=
  match kw with
  | kw_category__name v => Ok (category__name v)
  | kw_member v => Ok (member v)
  | kw_id v => match int_of_str v with
               | Ok i => Ok (id_exact i)
               | Raise e => Raise e
               end
  end.

(** The query built so far.
    - [where_]: the conditions of the [filter()] calls, all of which a row
      must satisfy.
    - [num_members]: [None] without the annotation; [Some r] once
      [annotate(num_members=Count("member"))] has run, where [r] is the
      membership condition that was in the query at that moment.
      [annotate()] counts over the join with the intermediary table that
      the query already has, so that a [filter(member=u)] made before it
      restricts the rows that are counted (Django documents this under
      "order of annotate() and filter() clauses").
    - [high_mark]: the limit set by a slice [[:n]]. *)
Record Query : Type := {
  where_ : list Lookup;
  num_members : option (option Z);
  high_mark : option Z }.

(** The data store.
    - The tables.  The order of a list says nothing: rows are found by key,
      and a query orders its rows as said below.  [server_server_member]
      is the intermediary table of [Server.member], one row
      [(server_id, account_id)] per membership.
    - [seq_category], [seq_server], [seq_channel]: the largest key that
      each table with an [AUTOINCREMENT] key has ever held (SQLite's
      [sqlite_sequence]).
    - [row_order]: the models declare no ordering and the view asks for
      none, so that the order in which the rows of a query come back is
      the store's choice, made for each query (it follows the index that
      the query is answered from).  [row_order q] ranks the servers for
      the query [q], and the rows of [q] come back by ascending rank. *)
Record Database : Type := {
  account_account : list Z;
  server_category : list Category;
  server_server : list Server;
  server_server_member : list (Z * Z);
  server_channel : list Channel;
  seq_category : Z;
  seq_server : Z;
  seq_channel : Z;
  row_order : Query -> Server -> Z }.

(** The media storage: the names of the stored files. *)
Definition Storage : Type := list string.

Definition opt_Z_eqb (a b : option Z) : bool :=
  match a, b with
  | Some x, Some y => x =? y
  | None, None => true
  | _, _ => false
  end.

Definition opt_str_eqb (a b : option string) : bool :=
  match a, b with
  | Some x, Some y => String.eqb x y
  | None, None => true
  | _, _ => false
  end.

Definition has_pk {R} (pk : R -> option Z) (i : Z) (r : R) : bool :=
  opt_Z_eqb (pk r) (Some i).

(** Rows by ascending rank, rows of equal rank in the order given. *)
Fixpoint insert_by {A} (rank : A -> Z) (x : A) (l : list A) : list A :=
  match l with
  | [] => [x]
  | y :: l' => if rank x <=? rank y then x :: l else y :: insert_by rank x l'
  end.

Definition sort_by {A} (rank : A -> Z) (l : list A) : list A :=
  fold_right (insert_by rank) [] l.

(* ===================================================================== *)
(** * Django's QuerySet over [Server] *)
(* ===================================================================== *)

(** A [Server] instance produced by a queryset; the annotation is an
    attribute that may be missing. *)
Record ServerObj : Type := {
  instance : Server;
  attr_num_members : option Z }.

Record QuerySet : Type := {
  query : Query;
  result_cache : option (list ServerObj) }.

(** [Server.objects.all()] *)
Definition Server_objects_all : QuerySet :=
  {| query := {| where_ := []; num_members := None; high_mark := None |};
     result_cache := None |}.

Definition is_sliced (q : Query) : bool :=
  match high_mark q with Some _ => true | None => false end.

Definition category_matches (s : Server) (v : string) (c : Category) : bool :=
  has_pk c_id (s_category s) c && String.eqb (c_name c) v.

Definition membership_of (s : Server) (r : Z * Z) : bool :=
  has_pk s_id (fst r) s.

Definition lookup_holds (db : Database) (s : Server) (l : Lookup) : bool :=
  match l with
  | category__name v => existsb (category_matches s v) (server_category db)
  | member u =>
      existsb (fun r => membership_of s r && (snd r =? u)) (server_server_member db)
  | id_exact i => has_pk s_id i s
  end.

(** [Count("member")] for one server: the rows of the intermediary table
    that are joined to it, restricted by [r]. *)
Definition count_member (db : Database) (r : option Z) (s : Server) : Z :=
  Z.of_nat (List.length (filter
    (fun row => membership_of s row &&
                match r with Some u => snd row =? u | None => true end)
    (server_server_member db))).

Definition first_n {A} (n : Z) (l : list A) : list A := firstn (Z.to_nat n) l.

(** The query without its limit: the limit cuts the rows short and has
    no part in their order. *)
Definition unlimited (q : Query) : Query :=
  {| where_ := where_ q; num_members := num_members q; high_mark := None |}.

(** The rows of a query: the servers that satisfy the conditions, in the
    order that the store gives to the rows of this query, each with its
    count when the query is annotated, up to the limit.  Primary keys and
    memberships are stored once (the data store enforces both), so that
    the joins of the SQL query give every server at most once.  An
    integer that is the key of no row matches nothing. *)
Definition run_query (db : Database) (q : Query) : list ServerObj :=
  let rows := sort_by (row_order db (unlimited q))
                (filter (fun s => forallb (lookup_holds db s) (where_ q)) (server_server db)) in
  let objs := map (fun s => {| instance := s;
                               attr_num_members :=
                                 option_map (fun r => count_member db r s) (num_members q) |})
                  rows in
  match high_mark q with
  | Some n => first_n n objs
  | None => objs
  end.

(** What the store accepts.  The integer of [filter(id=...)] is sent as a
    parameter of the statement, and the driver refuses one that is not a
    64-bit integer with an [OverflowError]. *)
Definition bound (l : Lookup) : bool :=
  match l with
  | id_exact i => in_int64 i
  | _ => true
  end.

(** A limit of 0 gives no rows without asking the store. *)
Definition no_rows (q : Query) : bool :=
  match high_mark q with Some n => n =? 0 | None => false end.

(** Running the query of a queryset.  The limit is written into the
    statement, and SQLite refuses one that is not a 64-bit integer
    ("datatype mismatch", an [IntegrityError] for Django). *)
Definition execute (db : Database) (q : Query) : result (list ServerObj) :=
  if no_rows q then Ok []
  else if negb (forallb bound (where_ q)) then Raise OverflowError
  else if match high_mark q with Some n => in_int64 n | None => true end
  then Ok (run_query db q)
  else Raise IntegrityError.

Definition first_member (w : list Lookup) : option Z :=
  match find (fun l => match l with member _ => true | _ => false end) w with
  | Some (member u) => Some u
  | _ => None
  end.

(** What [self.queryset] can hold: a queryset, or the plain list that
    slicing an already evaluated queryset gives. *)
Inductive queryset_value : Type :=
| IsQuerySet (qs : QuerySet)
| IsList (l : list ServerObj).

(** [qs.filter(...)] with one keyword argument: refused on a sliced
    query ("Cannot filter a query once a slice has been taken."), before
    the argument is looked at; the result is a new, unevaluated queryset.
    The refusal is a [TypeError] (an [AssertionError] in old versions
    of Django); [except ValueError] catches neither. *)
Definition QuerySet_filter (kw : kwarg) (v : queryset_value) : result queryset_value :=
  match v with
  | IsQuerySet qs =>
      if is_sliced (query qs) then Raise TypeError
      else match get_prep_lookup kw with
           | Ok l => Ok (IsQuerySet
                       {| query := {| where_ := where_ (query qs) ++ [l];
                                      num_members := num_members (query qs);
                                      high_mark := high_mark (query qs) |};
                          result_cache := None |})
           | Raise e => Raise e
           end
  | IsList _ => Raise AttributeError
  end.

(** [qs.annotate(num_members=Count("member"))] *)
Definition QuerySet_annotate_num_members (v : queryset_value) : result queryset_value :=
  match v with
  | IsQuerySet qs =>
      Ok (IsQuerySet
            {| query := {| where_ := where_ (query qs);
                           num_members := Some (first_member (where_ (query qs)));
                           high_mark := high_mark (query qs) |};
               result_cache := None |})
  | IsList _ => Raise AttributeError
  end.

(** [v[:n]].  On a queryset a negative bound is refused ("Negative
    indexing is not supported.", a [ValueError]; an [AssertionError] in
    old versions of Django); an evaluated queryset answers from its cache
    with a list; otherwise the limit is recorded in a new queryset, which
    asks the store only when it is evaluated.  On a list it is Python's
    slice. *)
Definition getitem_slice (n : Z) (v : queryset_value) : result queryset_value :=
  match v with
  | IsQuerySet qs =>
      if n <? 0 then Raise ValueError
      else match result_cache qs with
           | Some c => Ok (IsList (first_n n c))
           | None =>
               Ok (IsQuerySet
                     {| query := {| where_ := where_ (query qs);
                                    num_members := num_members (query qs);
                                    high_mark := Some (match high_mark (query qs) with
                                                       | Some h => Z.min h n
                                                       | None => n
                                                       end) |};
                        result_cache := None |})
           end
  | IsList l =>
      Ok (IsList (first_n (if n <? 0 then Z.max 0 (Z.of_nat (List.length l) + n) else n) l))
  end.

(** [qs.exists()]: an evaluated queryset looks at its rows; otherwise the
    store is asked for one row of the query (the limit of the statement
    is then 1, or the limit of the query if that is 0). *)
Definition QuerySet_exists (db : Database) (v : queryset_value) : result bool :=
  match v with
  | IsQuerySet qs =>
      match result_cache qs with
      | Some c => Ok (negb (Nat.eqb (List.length c) 0))
      | None =>
          if no_rows (query qs) then Ok false
          else if negb (forallb bound (where_ (query qs))) then Raise OverflowError
          else Ok (negb (Nat.eqb (List.length (run_query db (unlimited (query qs)))) 0))
      end
  | IsList _ => Raise AttributeError
  end.

(** Iterating a queryset evaluates it once and keeps the rows in the
    queryset object. *)
Definition fetch_all (db : Database) (qs : QuerySet) : result QuerySet :=
  match result_cache qs with
  | Some _ => Ok qs
  | None =>
      match execute db (query qs) with
      | Ok rows => Ok {| query := query qs; result_cache := Some rows |}
      | Raise e => Raise e
      end
  end.

Definition rows_of (qs : QuerySet) : list ServerObj :=
  match result_cache qs with Some c => c | None => [] end.

(* ===================================================================== *)
(** * serializer.py *)
(* ===================================================================== *)

(** Serialized data.  [JUrl name] stands for the URL that the storage
    gives to the file called [name]. *)
#[warnings="-register-all"]
Inductive JSON : Type :=
| JNull
| JBool (b : bool)
| JInt (z : Z)
| JStr (s : string)
| JText (s : text)
| JUrl (name : string)
| JList (l : list (list (string * JSON))).

Definition JObject : Type := list (string * JSON).

Definition opt_int (o : option Z) : JSON :=
  match o with Some z => JInt z | None => JNull end.

Definition opt_str (o : option string) : JSON :=
  match o with Some s => JStr s | None => JNull end.

(** A file field is serialized as [None] when it holds no file. *)
Definition file_repr (f : FieldFile) : JSON :=
  match f with
  | Some name => if str_truthy name then JUrl name else JNull
  | None => JNull
  end.

(** [key in data] *)
Definition has_key (key : string) (data : JObject) : bool :=
  existsb (fun kv => String.eqb (fst kv) key) data.

(** [data.get(key)] *)
Definition dict_get (key : string) (data : JObject) : option JSON :=
  option_map snd (find (fun kv => String.eqb (fst kv) key) data).

(** [data.pop(key, None)], for its effect on [data]. *)
Definition dict_pop (key : string) (data : JObject) : JObject :=
  filter (fun kv => negb (String.eqb (fst kv) key)) data.

(** [ChannelSerializer], with [fields = "__all__"]. *)
Definition ChannelSerializer_to_representation (c : Channel) : JObject :=
  [ ("id", opt_int (ch_id c));
    ("name", JText (ch_name c));
    ("topic", JStr (ch_topic c));
    ("owner", JInt (ch_owner c));
    ("server", JInt (ch_server c)) ].

(** The rank of a row in the order of its key. *)
Definition by_key {R} (pk : R -> option Z) (r : R) : Z :=
  match pk r with Some i => i | None => 0 end.

(** [instance.channel_server.all()]: the channels of a server, which the
    store finds through the index of [server_id] and returns in the order
    of their keys. *)
Definition channel_server (db : Database) (s : Server) : list Channel :=
  sort_by (by_key ch_id) (filter (fun c => has_pk s_id (ch_server c) s) (server_channel db)).

(** [ServerSerializer.get_num_members] *)
Definition get_num_members (obj : ServerObj) : JSON :=
  match attr_num_members obj with
  | Some n => JInt n        (* hasattr(obj, "num_members") *)
  | None => JNull
  end.

(** [ModelSerializer.to_representation] for [ServerSerializer]: the
    primary key, the declared fields [num_members] and [channel_server],
    then the model's fields without the excluded [member]. *)
Definition super_to_representation (db : Database) (obj : ServerObj) : JObject :=
  let s := instance obj in
  [ ("id", opt_int (s_id s));
    ("num_members", get_num_members obj);
    ("channel_server",
       JList (map ChannelSerializer_to_representation (channel_server db s)));
    ("name", JStr (s_name s));
    ("description", opt_str (s_description s));
    ("banner", file_repr (s_banner s));
    ("icon", file_repr (s_icon s));
    ("owner", JInt (s_owner s));
    ("category", JInt (s_category s)) ].

(** The serializer's [context]: the view passes the one key
    ["num_members"]. *)
Definition Context : Type := list (string * bool).

Definition context_get (key : string) (ctx : Context) : option bool :=
  option_map snd (find (fun kv => String.eqb (fst kv) key) ctx).

(** [ServerSerializer.to_representation] *)
Definition to_representation (db : Database) (ctx : Context) (obj : ServerObj) : JObject :=
  let data := super_to_representation db obj in
  let num_members := context_get "num_members" ctx in
  if negb (match num_members with Some b => b | None => false end)
  then dict_pop "num_members" data
  else data.

(** [ServerSerializer(objs, many=True, context=ctx).data] *)
Definition ServerSerializer_many (db : Database) (ctx : Context) (objs : list ServerObj)
  : list JObject :=
  map (to_representation db ctx) objs.

(* ===================================================================== *)
(** * views.py *)
(* ===================================================================== *)

(** [request.query_params]: the pairs of the query string, in order.
    [get] gives the last value of a key. *)
Definition QueryDict : Type := list (string * string).

Fixpoint QueryDict_get (key : string) (q : QueryDict) : option string :=
  match q with
  | [] => None
  | (k, v) :: q' =>
      match QueryDict_get key q' with
      | Some v' => Some v'
      | None => if String.eqb k key then Some v else None
      end
  end.

(** The query string without a parameter. *)
Definition QueryDict_without (key : string) (q : QueryDict) : QueryDict :=
  filter (fun kv => negb (String.eqb (fst kv) key)) q.

(** [request.user]: [None] is the anonymous user, [Some i] the
    authenticated account with primary key [i]. *)
Record Request : Type := {
  query_params : QueryDict;
  user : option Z }.

Definition is_authenticated (u : option Z) : bool :=
  match u with Some _ => true | None => false end.

(** The two places where [self.queryset] is looked up: the attribute of
    the class [ServerListViewSet], one object for the life of the process,
    and the attribute of the view instance, which exists once the request
    has assigned it. *)
Record ViewState : Type := {
  cls_queryset : QuerySet;
  self_queryset : option queryset_value }.

Definition read_queryset : M ViewState queryset_value :=
  fun st => (Ok match self_queryset st with
                | Some v => v
                | None => IsQuerySet (cls_queryset st)
                end, st).

Definition assign_queryset (v : queryset_value) : M ViewState unit :=
  modify (fun st => {| cls_queryset := cls_queryset st; self_queryset := Some v |}).

(** [self.queryset = op(self.queryset)] *)
Definition update_queryset (op : queryset_value -> result queryset_value)
  : M ViewState unit :=
  (v <- read_queryset ;; v' <- lift (op v) ;; assign_queryset v')%py.

(** Iteration of [self.queryset] by the serializer.  A queryset keeps its
    rows; when the request assigned nothing, that queryset is the
    attribute of the class. *)
Definition iterate_queryset (db : Database) : M ViewState (list ServerObj) :=
  fun st =>
    match self_queryset st with
    | Some (IsQuerySet qs) =>
        match fetch_all db qs with
        | Ok qs' =>
            (Ok (rows_of qs'),
             {| cls_queryset := cls_queryset st; self_queryset := Some (IsQuerySet qs') |})
        | Raise e => (Raise e, st)
        end
    | Some (IsList l) => (Ok l, st)
    | None =>
        match fetch_all db (cls_queryset st) with
        | Ok qs' => (Ok (rows_of qs'), {| cls_queryset := qs'; self_queryset := None |})
        | Raise e => (Raise e, st)
        end
    end.

(** [if x:] for an optional string parameter. *)
Definition if_truthy {S} (o : option string) (k : string -> M S unit) : M S unit :=
  match o with
  | Some s => if str_truthy s then k s else ret tt
  | None => ret tt
  end.

Definition does_not_exist (by_serverid : string) : string :=
  ("Server with ID " ++ by_serverid ++ " does not exist")%string.

(** [ServerListViewSet.list], in two parts.  First the statements that
    narrow [self.queryset], one stage after the other. *)
Definition filter_queryset (db : Database) (request : Request) : M ViewState unit :=
  let category := QueryDict_get "category" (query_params request) in
  let qty := QueryDict_get "qty" (query_params request) in
  let by_user := opt_str_eqb (QueryDict_get "by_user" (query_params request)) (Some "true") in
  let by_serverid := QueryDict_get "by_serverid" (query_params request) in
  let with_num_members :=
    opt_str_eqb (QueryDict_get "with_num_members" (query_params request)) (Some "true") in
  (if_truthy category (fun category =>
     update_queryset (QuerySet_filter (kw_category__name category))) ;;
   when by_user then
     match by_user && is_authenticated (user request), user request with
     | true, Some user_id => update_queryset (QuerySet_filter (kw_member user_id))
     | _, _ => raise AuthenticationFailed
     end ;;
   when with_num_members then
     update_queryset QuerySet_annotate_num_members ;;
   if_truthy qty (fun qty =>
     n <- lift (int_of_str qty) ;;
     update_queryset (getitem_slice n)) ;;
   if_truthy by_serverid (fun by_serverid =>
     try_except_ValueError
       (update_queryset (QuerySet_filter (kw_id by_serverid)) ;;
        v <- read_queryset ;;
        found <- lift (QuerySet_exists db v) ;;
        when (negb found) then
          raise (ValidationError (does_not_exist by_serverid)))
       (raise (ValidationError (does_not_exist by_serverid)))))%py.

(** The context that the view gives to the serializer. *)
Definition serializer_context (request : Request) : Context :=
  [("num_members",
    opt_str_eqb (QueryDict_get "with_num_members" (query_params request)) (Some "true"))].

(** Then the serializer, which iterates [self.queryset], and the
    response. *)
Definition list_ (db : Database) (request : Request) : M ViewState (list JObject) :=
  (filter_queryset db request ;;
   objs <- iterate_queryset db ;;
   ret (ServerSerializer_many db (serializer_context request) objs))%py.

(** The attribute [queryset] of the class is [Server.objects.all()];
    [c] is its cache, [None] until a request has iterated it. *)
Definition class_attribute (c : option (list ServerObj)) : QuerySet :=
  {| query := query Server_objects_all; result_cache := c |}.

(** One request: a new view instance, and the class attribute as the
    earlier requests of the process left it.  The result is the response
    (or the exception) and the class attribute afterwards. *)
Definition ServerListViewSet_list (cls : QuerySet) (db : Database) (request : Request)
  : result (list JObject) * QuerySet :=
  let (r, st) := list_ db request {| cls_queryset := cls; self_queryset := None |} in
  (r, cls_queryset st).

(** The response alone. *)
Definition response (cls : QuerySet) (db : Database) (request : Request)
  : result (list JObject) :=
  fst (ServerListViewSet_list cls db request).

(* ===================================================================== *)
(** * models.py *)
(* ===================================================================== *)

(** What a [save] acts on: the tables and the media storage. *)
Record World : Type := {
  w_db : Database;
  w_storage : Storage }.

(** The three model classes; each derives from [models.Model] only, so
    one is a subclass of another exactly when they are the same. *)
Inductive model_class : Type := Category_cls | Server_cls | Channel_cls.

Definition issubclass (a b : model_class) : bool :=
  match a, b with
  | Category_cls, Category_cls | Server_cls, Server_cls | Channel_cls, Channel_cls => true
  | _, _ => false
  end.

(** [super(cls, self)] for an instance of [self_cls]: Python raises
    [TypeError] ("obj must be an instance or subtype of type") unless
    [self] is an instance of [cls]. *)
Definition py_super (cls self_cls : model_class) : result unit :=
  if issubclass self_cls cls then Ok tt else Raise TypeError.

(** [storage.delete(name)] *)
Definition storage_delete (name : string) (st : Storage) : Storage :=
  filter (fun f => negb (String.eqb f name)) st.

(** [file.delete(save=False)]: nothing happens for an empty field. *)
Definition FieldFile_delete (f : FieldFile) : M World unit :=
  match f with
  | Some name =>
      if str_truthy name
      then modify (fun w => {| w_db := w_db w; w_storage := storage_delete name (w_storage w) |})
      else ret tt
  | None => ret tt
  end.

(** [a != b] on two file fields compares the names. *)
Definition FieldFile_ne (a b : FieldFile) : bool := negb (opt_str_eqb a b).

(** [get_object_or_404(Model, id=i)] on a table. *)
Definition get_object_or_404 {R} (pk : R -> option Z) (table : Database -> list R) (i : Z)
  : M World R :=
  fun w => match find (has_pk pk i) (table (w_db w)) with
           | Some r => (Ok r, w)
           | None => (Raise Http404, w)
           end.

(** ** Upload paths *)

(** [str(z)] for an [int]. *)
Definition str_of_int (z : Z) : string :=
  DecimalString.NilZero.string_of_int (Z.to_int z).

(** [f"{instance.id}"]: the key, or "None" before the first save. *)
Definition format_id (o : option Z) : string :=
  match o with
  | Some z => str_of_int z
  | None => "None"
  end.

(** [server_icon_upload_path] *)
Definition server_icon_upload_path (instance : Server) (filename : string) : string :=
  ("server/" ++ format_id (s_id instance) ++ "/server_icon/" ++ filename)%string.

(** [server_banner_upload_path] *)
Definition server_banner_upload_path (instance : Server) (filename : string) : string :=
  ("server/" ++ format_id (s_id instance) ++ "/server_banner/" ++ filename)%string.

(** [category_icon_upload_path] *)
Definition category_icon_upload_path (instance : Category) (filename : string) : string :=
  ("category/" ++ format_id (c_id instance) ++ "/category_icon/" ++ filename)%string.

(** ** [save] *)

(** The primary key that the data store gives to a new row: one more than
    the largest key that the table holds or has ever held. *)
Definition next_id (seq : Z) (ids : list (option Z)) : Z :=
  1 + fold_right (fun o m => match o with Some i => Z.max i m | None => m end) seq ids.

Section Table.
Variable R : Type.
Variable pk : R -> option Z.
Variable set_pk : Z -> R -> R.

(** [Model.save] on one table: an instance with a primary key updates
    its row, or is inserted when there is none; an instance without one
    is inserted under a new key.  The result is the instance and the
    table. *)
Definition table_save (r : R) (t : list R) (seq : Z) : R * list R :=
  match pk r with
  | Some i =>
      if existsb (has_pk pk i) t
      then (r, map (fun x => if has_pk pk i x then r else x) t)
      else (r, t ++ [r])
  | None =>
      let r' := set_pk (next_id seq (map pk t)) r in
      (r', t ++ [r'])
  end.

(** The sequence of the table after it: an insertion raises it to the
    key of the new row, if that is larger. *)
Definition table_seq (r : R) (t : list R) (seq : Z) : Z :=
  match pk r with
  | Some i => if existsb (has_pk pk i) t then seq else Z.max seq i
  | None => next_id seq (map pk t)
  end.

(** What the store refuses of a row that is saved: a key or a foreign key
    that is not a 64-bit integer (the driver's [OverflowError]), and a new
    row when the sequence of the table is exhausted (SQLite's "database or
    disk is full", an [OperationalError] for Django). *)
Definition refused (r : R) (foreign_keys : list Z) (t : list R) (seq : Z) : option exc :=
  if negb (forallb in_int64 (match pk r with Some i => [i] | None => [] end ++ foreign_keys))
  then Some OverflowError
  else match pk r with
       | None => if in_int64 (next_id seq (map pk t)) then None else Some OperationalError
       | Some _ => None
       end.
End Table.

Definition Category_set_id (i : Z) (c : Category) : Category :=
  {| c_id := Some i; c_name := c_name c; c_description := c_description c;
     c_icon := c_icon c; c_icon_committed := c_icon_committed c |}.

Definition Server_set_id (i : Z) (s : Server) : Server :=
  {| s_id := Some i; s_name := s_name s; s_owner := s_owner s;
     s_category := s_category s; s_description := s_description s;
     s_banner := s_banner s; s_icon := s_icon s |}.

Definition Channel_set_id (i : Z) (c : Channel) : Channel :=
  {| ch_id := Some i; ch_name := ch_name c; ch_owner := ch_owner c;
     ch_topic := ch_topic c; ch_server := ch_server c |}.

Definition Channel_set_name (n : text) (c : Channel) : Channel :=
  {| ch_id := ch_id c; ch_name := n; ch_owner := ch_owner c;
     ch_topic := ch_topic c; ch_server := ch_server c |}.

Definition Category_set_icon (f : FieldFile) (c : Category) : Category :=
  {| c_id := c_id c; c_name := c_name c; c_description := c_description c;
     c_icon := f; c_icon_committed := true |}.

Definition user_exists (db : Database) (u : Z) : bool :=
  existsb (Z.eqb u) (account_account db).

(** The tables of a model replaced, the rest of the store as it is. *)
Definition set_server_category (t : list Category) (seq : Z) (db : Database) : Database :=
  {| account_account := account_account db;
     server_category := t;
     server_server := server_server db;
     server_server_member := server_server_member db;
     server_channel := server_channel db;
     seq_category := seq;
     seq_server := seq_server db;
     seq_channel := seq_channel db;
     row_order := row_order db |}.

Definition set_server_server (t : list Server) (seq : Z) (db : Database) : Database :=
  {| account_account := account_account db;
     server_category := server_category db;
     server_server := t;
     server_server_member := server_server_member db;
     server_channel := server_channel db;
     seq_category := seq_category db;
     seq_server := seq;
     seq_channel := seq_channel db;
     row_order := row_order db |}.

Definition set_server_channel (t : list Channel) (seq : Z) (db : Database) : Database :=
  {| account_account := account_account db;
     server_category := server_category db;
     server_server := server_server db;
     server_server_member := server_server_member db;
     server_channel := t;
     seq_category := seq_category db;
     seq_server := seq_server db;
     seq_channel := seq;
     row_order := row_order db |}.

(** The media storage as [Model.save] uses it for a file that is not
    stored yet: [field.generate_filename], which cleans the name that
    [upload_to] proposes, then [storage.save], which adds a random suffix
    when a file of that name exists.  Given the names of the stored files
    and the proposed name, the result is the name under which the file is
    stored, or [None] when Django refuses the name (a
    [SuspiciousFileOperation]). *)
Definition FileSystemStorage : Type := Storage -> string -> option string.

(** [file and not file._committed]: the name of a file that the field
    holds and that is not stored yet. *)
Definition uncommitted (file : FieldFile) (committed : bool) : option string :=
  match file with
  | Some filename => if str_truthy filename && negb committed then Some filename else None
  | None => None
  end.

(** [FileField.pre_save] for the icon of a category: a file that is not
    committed is stored under the name that [upload_to] gives it at that
    moment, and the field then holds the name it was stored under. *)
Definition pre_save_icon (storage : FileSystemStorage)
  (upload_to : Category -> string -> string) (self : Category) : M World Category :=
  fun w =>
    match uncommitted (c_icon self) (c_icon_committed self) with
    | Some filename =>
        match storage (w_storage w) (upload_to self filename) with
        | Some name =>
            (Ok (Category_set_icon (Some name) self),
             {| w_db := w_db w; w_storage := w_storage w ++ [name] |})
        | None => (Raise SuspiciousFileOperation, w)
        end
    | None => (Ok self, w)
    end.

(** The value of a file field in a row: [str(file)], which is the name,
    or the empty string when the field holds no file. *)
Definition file_column (f : FieldFile) : FieldFile :=
  match f with
  | Some name => Some name
  | None => Some ""
  end.

Definition Category_row (self : Category) : Category :=
  Category_set_icon (file_column (c_icon self)) self.

(** The row of a category is written; the instance has its key then. *)
Definition Category_save_table (self : Category) : M World Category :=
  fun w =>
    let db := w_db w in
    match refused c_id self [] (server_category db) (seq_category db) with
    | Some e => (Raise e, w)
    | None =>
        let (row, t) :=
          table_save c_id Category_set_id (Category_row self)
            (server_category db) (seq_category db) in
        let seq := table_seq c_id (Category_row self) (server_category db)
                     (seq_category db) in
        (Ok {| c_id := c_id row; c_name := c_name self;
               c_description := c_description self;
               c_icon := c_icon self; c_icon_committed := c_icon_committed self |},
         {| w_db := set_server_category t seq db; w_storage := w_storage w |})
    end.

(** [models.Model.save] of a category: the icon is prepared, then the row
    is written. *)
Definition Model_save_Category (storage : FileSystemStorage) (self : Category)
  : M World Category :=
  (self <- pre_save_icon storage category_icon_upload_path self ;;
   Category_save_table self)%py.

(** [models.Model.save] of a server and of a channel.  The data store
    refuses a row whose foreign keys point nowhere (when the statement is
    committed).  The files of a server are not prepared here:
    [Server.save] raises before it gets to this call. *)
Definition Model_save_Server (self : Server) : M World Server :=
  fun w =>
    let db := w_db w in
    match refused s_id self [s_owner self; s_category self]
            (server_server db) (seq_server db) with
    | Some e => (Raise e, w)
    | None =>
        if user_exists db (s_owner self)
           && existsb (has_pk c_id (s_category self)) (server_category db)
        then
          let (self', t) :=
            table_save s_id Server_set_id self (server_server db) (seq_server db) in
          let seq := table_seq s_id self (server_server db) (seq_server db) in
          (Ok self', {| w_db := set_server_server t seq db; w_storage := w_storage w |})
        else (Raise IntegrityError, w)
    end.

Definition Model_save_Channel (self : Channel) : M World Channel :=
  fun w =>
    let db := w_db w in
    match refused ch_id self [ch_owner self; ch_server self]
            (server_channel db) (seq_channel db) with
    | Some e => (Raise e, w)
    | None =>
        if user_exists db (ch_owner self)
           && existsb (has_pk s_id (ch_server self)) (server_server db)
        then
          let (self', t) :=
            table_save ch_id Channel_set_id self (server_channel db) (seq_channel db) in
          let seq := table_seq ch_id self (server_channel db) (seq_channel db) in
          (Ok self', {| w_db := set_server_channel t seq db; w_storage := w_storage w |})
        else (Raise IntegrityError, w)
    end.

(** [if self.id:] with the key at hand in the branch. *)
Definition if_id {S} (o : option Z) (k : Z -> M S unit) : M S unit :=
  match o with
  | Some i => if int_truthy (Some i) then k i else ret tt
  | None => ret tt
  end.

(** [Category.save], with the media storage of the site. *)
Definition Category_save (storage : FileSystemStorage) (self : Category)
  : M World Category :=
  (if_id (c_id self) (fun id =>
     existing <- get_object_or_404 c_id server_category id ;;
     when (FieldFile_ne (c_icon existing) (c_icon self)) then
       FieldFile_delete (c_icon existing)) ;;
   lift (py_super Category_cls Category_cls) ;;
   Model_save_Category storage self)%py.

(** [Server.save]; its last line is [super(Category, self).save(...)]. *)
Definition Server_save (self : Server) : M World Server :=
  (if_id (s_id self) (fun id =>
     existing <- get_object_or_404 s_id server_server id ;;
     when (FieldFile_ne (s_icon existing) (s_icon self)) then
       FieldFile_delete (s_icon existing) ;;
     when (FieldFile_ne (s_banner existing) (s_banner self)) then
       FieldFile_delete (s_banner existing)) ;;
   lift (py_super Category_cls Server_cls) ;;
   Model_save_Server self)%py.

(** [Channel.save] *)
Definition Channel_save (self : Channel) : M World Channel :=
  (let self := Channel_set_name (text_lower (ch_name self)) self in
   lift (py_super Channel_cls Channel_cls) ;;
   Model_save_Channel self)%py.

(** [Channel.objects.get(id=i)], where it finds a row. *)
Definition Channel_get (db : Database) (i : Z) : option Channel :=
  find (has_pk ch_id i) (server_channel db).


(* ===================================================================== *)
(** * models.py: [__str__], signal receivers, deletion *)
(* ===================================================================== *)

(** [Category.__str__], [Server.__str__], [Channel.__str__] *)
Definition Category_str (self : Category) : string := c_name self.

Definition Server_str (self : Server) : string :=
  (s_name self ++ "-" ++ format_id (s_id self))%string.

Definition Channel_str (self : Channel) : text := ch_name self.

(** [for x in l: body(x)] *)
Fixpoint for_each {S A} (body : A -> M S unit) (l : list A) : M S unit :=
  match l with
  | [] => ret tt
  | a :: l' => (body a ;; for_each body l')%py
  end.

(** The names in [instance._meta.fields], in the order of declaration
    (the many-to-many [member] is not among them). *)
Definition Category_meta_fields : list string :=
  ["id"; "name"; "description"; "icon"].

Definition Server_meta_fields : list string :=
  ["id"; "name"; "owner"; "category"; "description"; "banner"; "icon"].

(** [getattr(instance, name)] where the receivers call it: on the file
    fields. *)
Definition Category_getattr_file (instance : Category) (name : string) : FieldFile :=
  if String.eqb name "icon" then c_icon instance else None.

Definition Server_getattr_file (instance : Server) (name : string) : FieldFile :=
  if String.eqb name "icon" then s_icon instance
  else if String.eqb name "banner" then s_banner instance
  else None.

(** The [pre_delete] receiver of [Category] ([category_delete_files] in
    the body of the class). *)
Definition Category_delete_files (instance : Category) : M World unit :=
  for_each (fun field =>
    when (String.eqb field "icon") then
      let file := Category_getattr_file instance field in
      when (truthy file) then FieldFile_delete file)%py
    Category_meta_fields.

(** The [pre_delete] receiver of [Server] (also called
    [category_delete_files], in the body of [Server]). *)
Definition Server_delete_files (instance : Server) : M World unit :=
  for_each (fun field =>
    when (String.eqb field "icon" || String.eqb field "banner") then
      let file := Server_getattr_file instance field in
      when (truthy file) then FieldFile_delete file)%py
    Server_meta_fields.

(** A key is one of those of a list of instances. *)
Definition key_in {R} (pk : R -> option Z) (rows : list R) (i : Z) : bool :=
  existsb (has_pk pk i) rows.

Definition set_tables (categories : list Category) (servers : list Server)
  (memberships : list (Z * Z)) (channels : list Channel) : M World unit :=
  modify (fun w =>
    {| w_db := {| account_account := account_account (w_db w);
                  server_category := categories;
                  server_server := servers;
                  server_server_member := memberships;
                  server_channel := channels;
                  seq_category := seq_category (w_db w);
                  seq_server := seq_server (w_db w);
                  seq_channel := seq_channel (w_db w);
                  row_order := row_order (w_db w) |};
       w_storage := w_storage w |}).

(** [instance.delete()] on a [Server].  Django refuses an instance
    without key with a [ValueError]; it sends [pre_delete] for the
    instance, and deletes what refers to it through a foreign key declared
    with [on_delete=CASCADE]: its channels and its memberships, then its
    row. *)
Definition Server_delete (self : Server) : M World unit :=
  match s_id self with
  | None => raise ValueError
  | Some pk =>
      (Server_delete_files self ;;
       w <- get_state ;;
       let db := w_db w in
       set_tables
         (server_category db)
         (filter (fun s => negb (has_pk s_id pk s)) (server_server db))
         (filter (fun r => negb (fst r =? pk)) (server_server_member db))
         (filter (fun c => negb (ch_server c =? pk)) (server_channel db)))%py
  end.

(** [instance.delete()] on a [Category]: the servers of the category are
    deleted with it ([on_delete=CASCADE] on [Server.category]), each with
    its own [pre_delete], its channels and its memberships. *)
Definition Category_delete (self : Category) : M World unit :=
  match c_id self with
  | None => raise ValueError
  | Some pk =>
      (w <- get_state ;;
       let db := w_db w in
       let servers := filter (fun s => s_category s =? pk) (server_server db) in
       Category_delete_files self ;;
       for_each Server_delete_files servers ;;
       set_tables
         (filter (fun c => negb (has_pk c_id pk c)) (server_category db))
         (filter (fun s => negb (s_category s =? pk)) (server_server db))
         (filter (fun r => negb (key_in s_id servers (fst r))) (server_server_member db))
         (filter (fun c => negb (key_in s_id servers (ch_server c))) (server_channel db)))%py
  end.

(* ===================================================================== *)
(** * validators.py *)
(* ===================================================================== *)

(** A validator returns, or raises Django's [ValidationError] with a
    message. *)
Inductive validation : Type :=
| Valid
| Invalid (message : string).

(** [split_last c s]: [s] cut before its last [c], when it has one. *)
Fixpoint split_last (c : ascii) (s : string) : option (string * string) :=
  match s with
  | EmptyString => None
  | String a s' =>
      match split_last c s' with
      | Some (x, y) => Some (String a x, y)
      | None => if Ascii.eqb a c then Some (EmptyString, s) else None
      end
  end.

(** The leading dots of a name, and the rest. *)
Fixpoint leading_dots (s : string) : string * string :=
  match s with
  | String a s' =>
      if Ascii.eqb a "." then let (d, r) := leading_dots s' in (String a d, r)
      else (EmptyString, s)
  | EmptyString => (EmptyString, EmptyString)
  end.

(** [os.path.splitext(p)] (POSIX): the extension starts at the last dot
    of the last component of the path, leading dots of that component not
    counted; without such a dot it is empty. *)
Definition splitext (p : string) : string * string :=
  let (dir, base) :=
    match split_last "/" p with
    | Some (x, String _ b) => ((x ++ "/")%string, b)
    | _ => (EmptyString, p)
    end in
  let (dots, rest) := leading_dots base in
  match split_last "." rest with
  | Some (stem, ext) => ((dir ++ dots ++ stem)%string, ext)
  | None => (p, EmptyString)
  end.

Definition valid_extensions : list string :=
  [".jpg"; ".svg"; ".png"; ".jpeg"; ".gif"].

(** [validate_image_file_extension], on the name of the file. *)
Definition validate_image_file_extension (name : string) : validation :=
  let ext := snd (splitext name) in
  if negb (existsb (String.eqb (str_lower ext)) valid_extensions)
  then Invalid "Unsupported file extension"
  else Valid.

(** [validate_icon_image_size], for a file that PIL opens with the size
    [(width, height)]. *)
Definition validate_icon_image_size (image : FieldFile) (size : Z * Z) : validation :=
  if truthy image then
    if (200 <? fst size) || (200 <? snd size)
    then Invalid "Image size too big, please upload 70x70"
    else Valid
  else Valid.

(* ===================================================================== *)
(** * Vocabulary of the statements *)
(* ===================================================================== *)

(** A request starts with a view instance that has no attribute of its
    own. *)
Definition initial (c : option (list ServerObj)) : ViewState :=
  {| cls_queryset := class_attribute c; self_queryset := None |}.

(** The server objects that the view hands to the serializer. *)
Definition objects (c : option (list ServerObj)) (db : Database) (request : Request)
  : result (list ServerObj) :=
  fst ((filter_queryset db request ;; iterate_queryset db)%py (initial c)).

(** [S] appears in the result. *)
Definition appears (S : Server) (r : result (list ServerObj)) : Prop :=
  exists objs, r = Ok objs /\ In S (map instance objs).

(** The category of [S] is called [v]. *)
Definition category_name_is (db : Database) (S : Server) (v : string) : Prop :=
  exists c, In c (server_category db) /\ c_id c = Some (s_category S) /\ c_name c = v.

(** User [u] is a member of [S]. *)
Definition is_member (db : Database) (u : Z) (S : Server) : Prop :=
  exists i, s_id S = Some i /\ In (i, u) (server_server_member db).

(** The members of [S], each once. *)
Definition members (db : Database) (S : Server) : list Z :=
  nodup Z.eq_dec (map snd (filter (membership_of S) (server_server_member db))).

(** [with_num_members] as the view reads it. *)
Definition with_num_members (request : Request) : bool :=
  opt_str_eqb (QueryDict_get "with_num_members" (query_params request)) (Some "true").

(** A stage that a parameter does not switch on. *)
Definition absent (key : string) (request : Request) : Prop :=
  truthy (QueryDict_get key (query_params request)) = false.

(** A string parameter as [if x:] sees it, and a flag as [== "true"]
    sees it. *)
Definition seen (o : option string) : option string :=
  if truthy o then o else None.

Definition flag (o : option string) : bool := opt_str_eqb o (Some "true").

(** [S] passes the category and by_user stages of a request. *)
Definition passes (db : Database) (request : Request) (S : Server) : Prop :=
  In S (server_server db) /\
  (forall v, seen (QueryDict_get "category" (query_params request)) = Some v ->
     category_name_is db S v) /\
  (flag (QueryDict_get "by_user" (query_params request)) = true ->
     exists uid, user request = Some uid /\ is_member db uid S).

(** The conditions that the category and by_user stages of a request
    put into the query. *)
Definition stage_lookups (request : Request) : list Lookup :=
  match seen (QueryDict_get "category" (query_params request)) with
  | Some v => [category__name v]
  | None => []
  end ++
  match flag (QueryDict_get "by_user" (query_params request)), user request with
  | true, Some uid => [member uid]
  | _, _ => []
  end.

(** The stored servers that satisfy them. *)
Definition matching (db : Database) (request : Request) : list Server :=
  filter (fun S => forallb (lookup_holds db S) (stage_lookups request)) (server_server db).

(** The files that are left once [Category.save] has compared the icon
    of the instance with the stored one. *)
Definition icons_compared (existing self : Category) (st : Storage) : Storage :=
  match c_icon existing with
  | Some name =>
      if FieldFile_ne (c_icon existing) (c_icon self) && str_truthy name
      then storage_delete name st
      else st
  | None => st
  end.

(** The keys of the stored servers are 64-bit integers, as the keys of
    every SQLite table are. *)
Definition keys_in_range (db : Database) : Prop :=
  forall S i, In S (server_server db) -> s_id S = Some i -> in_int64 i = true.

(** The query of a request once its first three stages have run. *)
Definition stage_query (request : Request) : Query :=
  {| where_ := stage_lookups request;
     num_members :=
       if flag (QueryDict_get "with_num_members" (query_params request))
       then Some (first_member (stage_lookups request))
       else None;
     high_mark := None |}.

(** A request that switches no stage on. *)
Definition plain (request : Request) : Prop :=
  seen (QueryDict_get "category" (query_params request)) = None /\
  seen (QueryDict_get "qty" (query_params request)) = None /\
  seen (QueryDict_get "by_serverid" (query_params request)) = None /\
  flag (QueryDict_get "by_user" (query_params request)) = false /\
  flag (QueryDict_get "with_num_members" (query_params request)) = false.

(** The by_user stage of a request does not fail. *)
Definition authorized (request : Request) : Prop :=
  flag (QueryDict_get "by_user" (query_params request)) = true -> user request <> None.

(** Every foreign key of a row is the key of a stored row. *)
Definition consistent (db : Database) : Prop :=
  (forall s, In s (server_server db) ->
     In (s_owner s) (account_account db) /\
     key_in c_id (server_category db) (s_category s) = true) /\
  (forall c, In c (server_channel db) ->
     In (ch_owner c) (account_account db) /\
     key_in s_id (server_server db) (ch_server c) = true) /\
  (forall r, In r (server_server_member db) ->
     key_in s_id (server_server db) (fst r) = true /\
     In (snd r) (account_account db)).

(** The first [n] entries of a result. *)
Definition truncated {A} (n : Z) (r : result (list A)) : result (list A) :=
  match r with
  | Ok l => Ok (first_n n l)
  | Raise e => Raise e
  end.

(** ** Example data: the servers A and B in the category "gaming", C in
    "music"; users 1 and 2 are members of A, user 1 of C.  The rows of
    every query come back in the order of their keys. *)
Definition gaming : Category :=
  {| c_id := Some 1; c_name := "gaming"; c_description := None; c_icon := None;
     c_icon_committed := true |}.
Definition music : Category :=
  {| c_id := Some 2; c_name := "music"; c_description := None; c_icon := None;
     c_icon_committed := true |}.
Definition server_A : Server :=
  {| s_id := Some 1; s_name := "A"; s_owner := 1; s_category := 1;
     s_description := None; s_banner := None; s_icon := Some "server/1/server_icon/a.png" |}.
Definition server_B : Server :=
  {| s_id := Some 2; s_name := "B"; s_owner := 1; s_category := 1;
     s_description := None; s_banner := None; s_icon := None |}.
Definition server_C : Server :=
  {| s_id := Some 3; s_name := "C"; s_owner := 2; s_category := 2;
     s_description := None; s_banner := None; s_icon := None |}.
Definition example_db : Database :=
  {| account_account := [1; 2];
     server_category := [gaming; music];
     server_server := [server_A; server_B; server_C];
     server_server_member := [(1, 1); (1, 2); (3, 1)];
     server_channel := [];
     seq_category := 2;
     seq_server := 3;
     seq_channel := 0;
     row_order := fun _ => by_key s_id |}.
Definition example_world : World :=
  {| w_db := example_db; w_storage := ["server/1/server_icon/a.png"] |}.
Definition GET (q : QueryDict) (u : option Z) : Request :=
  {| query_params := q; user := u |}.

(** The file that a file field holds, if it holds one. *)
Definition holds (file : FieldFile) (f : string) : Prop := file = Some f /\ f <> "".

(** The keys of a serialized server, in the serializer's order. *)
Definition server_keys (with_count : bool) : list string :=
  ["id"] ++ (if with_count then ["num_members"] else []) ++
  ["channel_server"; "name"; "description"; "banner"; "icon"; "owner"; "category"].

(** The example data with a channel of server B. *)
Definition general_channel : Channel :=
  {| ch_id := Some 1; ch_name := "general"; ch_owner := 1; ch_topic := "talk";
     ch_server := 2 |}.
Definition example_db_with_channel : Database :=
  set_server_channel [general_channel] 1 example_db.

(** The category "gaming" renamed, with an icon that has just been
    uploaded, and a new category with one. *)
Definition games_upload : Category :=
  {| c_id := Some 1; c_name := "games"; c_description := None; c_icon := Some "g.png";
     c_icon_committed := false |}.
Definition art_upload : Category :=
  {| c_id := None; c_name := "art"; c_description := None; c_icon := Some "a.png";
     c_icon_committed := false |}.

(** A store without rows. *)
Definition empty_db : Database :=
  {| account_account := []; server_category := []; server_server := [];
     server_server_member := []; server_channel := [];
     seq_category := 0; seq_server := 0; seq_channel := 0;
     row_order := fun _ => by_key s_id |}.

(** The media storage of the examples, which store no name twice: a
    proposed name that no file has is kept.  (For a name that a file has
    Django draws a random suffix; this storage gives no name then.) *)
Definition example_storage : FileSystemStorage :=
  fun stored name => if existsb (String.eqb name) stored then None else Some name.

(* ===================================================================== *)
(** * Properties *)
(* ===================================================================== *)

Unset Implicit Arguments.

Arguments does_not_exist : simpl never.
Arguments run_query : simpl never.
Arguments ServerSerializer_many : simpl never.
Arguments first_n : simpl never.
Arguments py_int : simpl never.
Arguments in_int64 : simpl never.
Arguments sort_by : simpl never.

(** ** Query strings *)

Lemma QueryDict_get_without_same (key : string) (q : QueryDict) :
  QueryDict_get key (QueryDict_without key q) = None.
Proof.
  induction q as [|[k v] q IH]; simpl; [reflexivity|].
  destruct (String.eqb k key) eqn:E; simpl; [exact IH|].
  rewrite IH, E. reflexivity.
Qed.

Lemma QueryDict_get_without_other (key key' : string) (q : QueryDict) :
  String.eqb key' key = false ->
  QueryDict_get key' (QueryDict_without key q) = QueryDict_get key' q.
Proof.
  intros Hne. induction q as [|[k v] q IH]; simpl; [reflexivity|].
  destruct (String.eqb k key) eqn:E; simpl.
  - rewrite IH. apply String.eqb_eq in E. subst k.
    rewrite String.eqb_sym, Hne.
    destruct (QueryDict_get key' q); reflexivity.
  - rewrite IH. reflexivity.
Qed.

Lemma if_truthy_seen {S} (o : option string) (k : string -> M S unit) :
  if_truthy o k = if_truthy (seen o) k.
Proof. destruct o as [[|c s]|]; reflexivity. Qed.

(** The view reads five parameters and the user; two requests that agree
    on what the view sees of them are answered alike. *)
Lemma list_congruence (db : Database) (r1 r2 : Request) :
  user r1 = user r2 ->
  (forall key, In key ["category"; "qty"; "by_serverid"] ->
     seen (QueryDict_get key (query_params r1)) = seen (QueryDict_get key (query_params r2))) ->
  (forall key, In key ["by_user"; "with_num_members"] ->
     flag (QueryDict_get key (query_params r1)) = flag (QueryDict_get key (query_params r2))) ->
  list_ db r1 = list_ db r2.
Proof.
  intros Hu Hs Hf.
  unfold list_, filter_queryset, serializer_context.
  fold (flag (QueryDict_get "by_user" (query_params r1))).
  fold (flag (QueryDict_get "by_user" (query_params r2))).
  fold (flag (QueryDict_get "with_num_members" (query_params r1))).
  fold (flag (QueryDict_get "with_num_members" (query_params r2))).
  rewrite (if_truthy_seen (QueryDict_get "category" (query_params r1))).
  rewrite (if_truthy_seen (QueryDict_get "qty" (query_params r1))).
  rewrite (if_truthy_seen (QueryDict_get "by_serverid" (query_params r1))).
  rewrite (if_truthy_seen (QueryDict_get "category" (query_params r2))).
  rewrite (if_truthy_seen (QueryDict_get "qty" (query_params r2))).
  rewrite (if_truthy_seen (QueryDict_get "by_serverid" (query_params r2))).
  rewrite Hu.
  rewrite (Hs "category"), (Hs "qty"), (Hs "by_serverid") by (simpl; tauto).
  rewrite (Hf "by_user"), (Hf "with_num_members") by (simpl; tauto).
  reflexivity.
Qed.

(** A parameter that the view sees as "not given" can be removed. *)
Lemma list_without (db : Database) (q : QueryDict) (u : option Z) (key : string) :
  (In key ["category"; "qty"; "by_serverid"] /\ seen (QueryDict_get key q) = None) \/
  (In key ["by_user"; "with_num_members"] /\ flag (QueryDict_get key q) = false) ->
  list_ db (GET q u) = list_ db (GET (QueryDict_without key q) u).
Proof.
  intros H. apply list_congruence; [reflexivity| |]; intros k Hk; cbn [GET query_params];
    (destruct (String.eqb k key) eqn:E;
     [ apply String.eqb_eq in E; subst k; rewrite QueryDict_get_without_same
     | rewrite (QueryDict_get_without_other _ _ _ E); reflexivity ]).
  - destruct H as [[_ H]|[H _]]; [rewrite H; reflexivity|].
    exfalso. simpl in Hk, H.
    repeat (destruct Hk as [<-|Hk]; [intuition discriminate|]). exact Hk.
  - destruct H as [[H _]|[_ H]]; [|rewrite H; reflexivity].
    exfalso. simpl in Hk, H.
    repeat (destruct Hk as [<-|Hk]; [intuition discriminate|]). exact Hk.
Qed.

(** ** The rows of a query *)

Lemma In_first_n {A} (n : Z) (x : A) (l : list A) : In x (first_n n l) -> In x l.
Proof.
  unfold first_n. generalize (Z.to_nat n) as k.
  induction l as [|a l IH]; intros [|k]; simpl; try tauto.
  intros [H|H]; [left; exact H | right; exact (IH k H)].
Qed.

Lemma In_insert_by {A} (rank : A -> Z) (x y : A) (l : list A) :
  In y (insert_by rank x l) <-> y = x \/ In y l.
Proof.
  induction l as [|a l IH]; cbn; [intuition congruence|].
  destruct (rank x <=? rank a); cbn; [intuition congruence|].
  rewrite IH. intuition congruence.
Qed.

Lemma In_sort_by {A} (rank : A -> Z) (y : A) (l : list A) :
  In y (sort_by rank l) <-> In y l.
Proof.
  unfold sort_by. induction l as [|a l IH]; cbn; [tauto|].
  rewrite In_insert_by, IH. intuition congruence.
Qed.

Lemma length_insert_by {A} (rank : A -> Z) (x : A) (l : list A) :
  List.length (insert_by rank x l) = S (List.length l).
Proof.
  induction l as [|a l IH]; cbn; [reflexivity|].
  destruct (rank x <=? rank a); cbn; [reflexivity | now rewrite IH].
Qed.

Lemma length_sort_by {A} (rank : A -> Z) (l : list A) :
  List.length (sort_by rank l) = List.length l.
Proof.
  unfold sort_by. induction l as [|a l IH]; cbn; [reflexivity|].
  now rewrite length_insert_by, IH.
Qed.

Lemma Permutation_insert_by {A} (rank : A -> Z) (x : A) (l : list A) :
  Permutation (insert_by rank x l) (x :: l).
Proof.
  induction l as [|a l IH]; cbn; [reflexivity|].
  destruct (rank x <=? rank a); [reflexivity|].
  rewrite IH. apply perm_swap.
Qed.

(** The rows of a table in the store's order are the rows of the table. *)
Lemma Permutation_sort_by {A} (rank : A -> Z) (l : list A) :
  Permutation (sort_by rank l) l.
Proof.
  unfold sort_by. induction l as [|a l IH]; cbn; [reflexivity|].
  rewrite Permutation_insert_by. now constructor.
Qed.

Lemma run_query_In (db : Database) (q : Query) (o : ServerObj) :
  In o (run_query db q) ->
  In (instance o) (server_server db) /\
  forallb (lookup_holds db (instance o)) (where_ q) = true /\
  attr_num_members o = option_map (fun r => count_member db r (instance o)) (num_members q).
Proof.
  unfold run_query. intros H.
  assert (G : In o (map (fun s => {| instance := s;
                attr_num_members := option_map (fun r => count_member db r s) (num_members q) |})
              (sort_by (row_order db (unlimited q))
                 (filter (fun s => forallb (lookup_holds db s) (where_ q))
                    (server_server db))))).
  { destruct (high_mark q); [eapply In_first_n; eassumption | assumption]. }
  apply in_map_iff in G. destruct G as [s [<- G]].
  apply In_sort_by, filter_In in G. destruct G as [G1 G2]. simpl. auto.
Qed.

(** The servers of a query without limit: the stored servers that satisfy
    its conditions, in the order that the store gives them. *)
Lemma run_query_instances (db : Database) (w : list Lookup) (a : option (option Z)) :
  map instance (run_query db {| where_ := w; num_members := a; high_mark := None |}) =
  sort_by (row_order db {| where_ := w; num_members := a; high_mark := None |})
    (filter (fun s => forallb (lookup_holds db s) w) (server_server db)).
Proof.
  unfold run_query, unlimited. cbn [where_ num_members high_mark].
  rewrite map_map. cbn [instance]. apply map_id.
Qed.

Lemma In_run_query (db : Database) (w : list Lookup) (a : option (option Z)) (S : Server) :
  In S (map instance (run_query db {| where_ := w; num_members := a; high_mark := None |}))
  <-> In S (server_server db) /\ forallb (lookup_holds db S) w = true.
Proof. now rewrite run_query_instances, In_sort_by, filter_In. Qed.

(** Each of them once. *)
Lemma length_run_query (db : Database) (w : list Lookup) (a : option (option Z)) :
  List.length (run_query db {| where_ := w; num_members := a; high_mark := None |}) =
  List.length (filter (fun s => forallb (lookup_holds db s) w) (server_server db)).
Proof.
  rewrite <- (length_map instance), run_query_instances. apply length_sort_by.
Qed.

Lemma run_query_high_mark (db : Database) (w : list Lookup) (a : option (option Z)) (n : Z) :
  run_query db {| where_ := w; num_members := a; high_mark := Some n |} =
  first_n n (run_query db {| where_ := w; num_members := a; high_mark := None |}).
Proof. reflexivity. Qed.

Lemma first_n_0 {A} (l : list A) : first_n 0 l = [].
Proof. reflexivity. Qed.

Lemma category_name_is_iff (db : Database) (S : Server) (v : string) :
  lookup_holds db S (category__name v) = true <-> category_name_is db S v.
Proof.
  unfold category_name_is. cbn [lookup_holds]. rewrite existsb_exists.
  split; intros [c [H1 H2]]; exists c.
  - unfold category_matches, has_pk in H2. apply andb_true_iff in H2.
    destruct H2 as [H2 H3]. apply String.eqb_eq in H3.
    destruct (c_id c) as [i|] eqn:E; [|discriminate]. cbn in H2.
    apply Z.eqb_eq in H2. subst. auto.
  - destruct H2 as [H2 H3]. split; [assumption|].
    unfold category_matches, has_pk. rewrite H2, H3. cbn.
    rewrite Z.eqb_refl, String.eqb_refl. reflexivity.
Qed.

Lemma is_member_iff (db : Database) (u : Z) (S : Server) :
  lookup_holds db S (member u) = true <-> is_member db u S.
Proof.
  unfold is_member. cbn [lookup_holds]. rewrite existsb_exists. split.
  - intros [[i v] [H1 H2]]. apply andb_true_iff in H2. destruct H2 as [H2 H3].
    unfold membership_of, has_pk in H2. cbn in H2, H3.
    destruct (s_id S) as [j|] eqn:E; [|discriminate]. cbn in H2.
    apply Z.eqb_eq in H2, H3. subst. exists i. auto.
  - intros [i [H1 H2]]. exists (i, u). split; [assumption|].
    unfold membership_of, has_pk. rewrite H1. cbn. rewrite !Z.eqb_refl. reflexivity.
Qed.

(** ** Running the view *)

Ltac run :=
  cbv [bind ret raise lift modify get_state try_except_ValueError
       if_truthy str_truthy update_queryset read_queryset assign_queryset
       iterate_queryset QuerySet_filter QuerySet_annotate_num_members
       getitem_slice QuerySet_exists fetch_all execute no_rows bound unlimited
       rows_of is_sliced
       get_prep_lookup int_of_str is_authenticated andb negb forallb fst snd
       cls_queryset self_queryset query result_cache where_ num_members high_mark
       first_member find app Server_objects_all].

(** Opens the view on the request [GET q u] and names what it reads. *)
Ltac params q :=
  unfold response, ServerListViewSet_list, list_, objects, filter_queryset,
    serializer_context, initial, class_attribute, absent, with_num_members in *;
  cbn [GET query_params user] in *;
  repeat match goal with
  | |- context [opt_str_eqb (QueryDict_get ?k q) (Some "true")] =>
      change (opt_str_eqb (QueryDict_get k q) (Some "true")) with (flag (QueryDict_get k q))
  end.

Ltac by_cases :=
  repeat match goal with
  | |- context [py_int ?s] => destruct (py_int s) as [?n|]; run
  | |- context [?n <? 0] => destruct (Z.ltb_spec n 0); run
  | |- context [?n =? 0] => destruct (Z.eqb_spec n 0); run
  | |- context [in_int64 ?n] => destruct (in_int64 n) eqn:?; run
  | |- context [Nat.eqb (List.length ?l) 0] =>
      destruct (Nat.eqb (List.length l) 0) eqn:?; run
  end.

(** The response is the serialization of [objects]. *)
Lemma response_objects (c : option (list ServerObj)) (db : Database) (request : Request) :
  response (class_attribute c) db request =
  match objects c db request with
  | Ok objs => Ok (ServerSerializer_many db (serializer_context request) objs)
  | Raise e => Raise e
  end.
Proof.
  unfold response, ServerListViewSet_list, list_, objects, initial.
  cbv [bind ret].
  destruct (filter_queryset db request _) as [[[]|e] st]; [|reflexivity].
  destruct (iterate_queryset db st) as [[objs|e] st']; reflexivity.
Qed.

Ltac in_rows HS :=
  apply in_map_iff in HS; destruct HS as [?o [<- HS]];
  first
  [ solve [destruct HS]
  | try (match type of HS with In _ (first_n _ _) => apply In_first_n in HS end);
    apply run_query_In in HS; destruct HS as (?H & HS & _);
    cbn [where_ forallb] in HS; rewrite ?andb_true_r in HS;
    repeat (let H := fresh "H" in apply andb_true_iff in HS; destruct HS as [H HS]) ].

Ltac in_query HS :=
  apply run_query_In in HS; destruct HS as (?H & HS & _);
  cbn [where_ forallb] in HS; rewrite ?andb_true_r in HS;
  repeat (let H := fresh "H" in apply andb_true_iff in HS; destruct HS as [H HS]).

Lemma has_pk_iff {R} (pk : R -> option Z) (i : Z) (r : R) :
  has_pk pk i r = true <-> pk r = Some i.
Proof.
  unfold has_pk. destruct (pk r) as [j|]; cbn; [|split; discriminate].
  rewrite Z.eqb_eq. split; congruence.
Qed.

Lemma first_n_map {A B} (f : A -> B) (n : Z) (l : list A) :
  first_n n (map f l) = map f (first_n n l).
Proof. unfold first_n. apply firstn_map. Qed.

Lemma length_first_n {A} (n : Z) (l : list A) :
  0 <= n -> Z.of_nat (List.length (first_n n l)) = Z.min n (Z.of_nat (List.length l)).
Proof. intros Hn. unfold first_n. rewrite length_firstn. lia. Qed.

(** ** [int()] and [lower()] on examples *)

Example py_int_decimal : py_int "10" = Some 10.
Proof. reflexivity. Qed.

Example py_int_sign_space_underscore : py_int " -0_7 " = Some (-7).
Proof. reflexivity. Qed.

Example py_int_letters : py_int "abc" = None.
Proof. reflexivity. Qed.

Example py_int_double_underscore : py_int "1__0" = None.
Proof. reflexivity. Qed.

Example py_int_fraction : py_int "1.5" = None.
Proof. reflexivity. Qed.

Lemma py_int_nonempty (s : string) (n : Z) : py_int s = Some n -> s <> "".
Proof. intros H ->. discriminate H. Qed.

(** ** What the class attribute does to a process

    A request that narrows nothing iterates the queryset of the class,
    which keeps its rows; later requests of that kind are answered from
    them, whatever the tables hold by then. *)

Lemma unfiltered_request_evaluates_the_class_attribute (db : Database) (u : option Z) :
  ServerListViewSet_list (class_attribute None) db (GET [] u) =
  (Ok (ServerSerializer_many db [("num_members", false)]
         (run_query db (query Server_objects_all))),
   class_attribute (Some (run_query db (query Server_objects_all)))).
Proof. reflexivity. Qed.

Lemma evaluated_class_attribute_answers
  (rows : list ServerObj) (db : Database) (u : option Z) :
  ServerListViewSet_list (class_attribute (Some rows)) db (GET [] u) =
  (Ok (ServerSerializer_many db [("num_members", false)] rows),
   class_attribute (Some rows)).
Proof. reflexivity. Qed.

(** X8: [schema.py] documents a parameter [by_server_id]; the view reads
    [by_serverid], and a parameter of the documented name changes
    nothing. *)
Lemma by_server_id_is_not_read (db : Database) (q : QueryDict) (u : option Z) :
  list_ db (GET q u) = list_ db (GET (QueryDict_without "by_server_id" q) u).
Proof.
  apply list_congruence; [reflexivity| |]; intros k Hk; cbn [GET query_params];
    rewrite QueryDict_get_without_other; try reflexivity;
    simpl in Hk; repeat (destruct Hk as [<-|Hk]; [reflexivity|]); destruct Hk.
Qed.

(** ** The stages of the view *)

(** Unfolds the stage vocabulary and the view. *)
Ltac stage q :=
  unfold stage_query, stage_lookups, authorized, plain in *; params q;
  repeat match goal with
  | |- context [opt_str_eqb (QueryDict_get ?k q) (Some "true")] =>
      change (opt_str_eqb (QueryDict_get k q) (Some "true")) with (flag (QueryDict_get k q))
  end.

(** A server passes the first stages of a request exactly when it is
    stored and satisfies the lookups that these stages put into the
    query. *)
Lemma passes_lookups (db : Database) (q : QueryDict) (u : option Z) (S : Server) :
  authorized (GET q u) ->
  (passes db (GET q u) S <->
   In S (server_server db) /\ forallb (lookup_holds db S) (stage_lookups (GET q u)) = true).
Proof.
  unfold authorized, passes, stage_lookups. cbn [GET query_params user]. intros Hu.
  destruct (seen (QueryDict_get "category" q)) as [v|],
           (flag (QueryDict_get "by_user" q)), u as [uid|];
    try (now destruct (Hu eq_refl)); cbn [app forallb];
    rewrite ?andb_true_r, ?andb_true_iff, ?category_name_is_iff, ?is_member_iff.
  - split.
    + intros (H1 & H2 & H3). destruct (H3 eq_refl) as [x [[= <-] Hm]]. auto.
    + intros (H1 & H2 & H3). repeat split; auto.
      * now intros v' [= <-].
      * intros _. eauto.
  - split.
    + intros (H1 & H2 & H3). auto.
    + intros (H1 & H2). repeat split; auto; [now intros v' [= <-] | discriminate].
  - split.
    + intros (H1 & H2 & H3). auto.
    + intros (H1 & H2). repeat split; auto; [now intros v' [= <-] | discriminate].
  - split.
    + intros (H1 & H2 & H3). destruct (H3 eq_refl) as [x [[= <-] Hm]]. auto.
    + intros (H1 & H2). repeat split; auto; [discriminate | eauto].
  - split; [tauto|]. intros (H1 & _). repeat split; auto; discriminate.
  - split; [tauto|]. intros (H1 & _). repeat split; auto; discriminate.
Qed.

Lemma In_matching (db : Database) (q : QueryDict) (u : option Z) (S : Server) :
  authorized (GET q u) ->
  (In S (matching db (GET q u)) <-> passes db (GET q u) S).
Proof.
  intros Hu. unfold matching. rewrite filter_In. symmetry. now apply passes_lookups.
Qed.

(** The objects of a request without [qty] and [by_serverid]. *)
Lemma objects_unsliced
  (c : option (list ServerObj)) (db : Database) (q : QueryDict) (u : option Z) :
  authorized (GET q u) -> absent "qty" (GET q u) -> absent "by_serverid" (GET q u) ->
  objects c db (GET q u) =
  Ok match c with
     | Some rows =>
         match seen (QueryDict_get "category" q),
               flag (QueryDict_get "by_user" q),
               flag (QueryDict_get "with_num_members" q) with
         | None, false, false => rows
         | _, _, _ => run_query db (stage_query (GET q u))
         end
     | None => run_query db (stage_query (GET q u))
     end.
Proof.
  stage q.
  destruct (QueryDict_get "category" q) as [[|? ?]|],
           (flag (QueryDict_get "by_user" q)), u,
           (QueryDict_get "qty" q) as [[|? ?]|],
           (QueryDict_get "by_serverid" q) as [[|? ?]|],
           (flag (QueryDict_get "with_num_members" q)), c;
    intros Hu Hq Hs; try discriminate; try (now destruct (Hu eq_refl)); reflexivity.
Qed.

(** The objects of a request with an integer [by_serverid] and no [qty]. *)
Lemma objects_by_serverid
  (c : option (list ServerObj)) (db : Database) (q : QueryDict) (u : option Z)
  (s : string) (i : Z) :
  QueryDict_get "by_serverid" q = Some s -> py_int s = Some i ->
  authorized (GET q u) -> absent "qty" (GET q u) ->
  let Q := {| where_ := stage_lookups (GET q u) ++ [id_exact i];
              num_members := num_members (stage_query (GET q u));
              high_mark := None |} in
  objects c db (GET q u) =
  if in_int64 i
  then if Nat.eqb (List.length (run_query db Q)) 0
       then Raise (ValidationError (does_not_exist s))
       else Ok (run_query db Q)
  else Raise OverflowError.
Proof.
  intros Hs Hi. pose proof (py_int_nonempty _ _ Hi) as Hne.
  destruct s as [|a s]; [now destruct Hne|]. clear Hne.
  stage q. rewrite Hs.
  destruct (QueryDict_get "category" q) as [[|? ?]|],
           (flag (QueryDict_get "by_user" q)), u,
           (QueryDict_get "qty" q) as [[|? ?]|],
           (flag (QueryDict_get "with_num_members" q)), c;
    intros Hu Hq; try discriminate; try (now destruct (Hu eq_refl));
    run; rewrite Hi; run; cbn [seen truthy str_truthy app];
    (destruct (in_int64 i) eqn:Hr; run; [|reflexivity]);
    match goal with
    | |- context [Nat.eqb (List.length ?l) 0] => destruct (Nat.eqb (List.length l) 0)
    end; run; rewrite ?Hr; reflexivity.
Qed.

(** The rows of a request with an integer [by_serverid] and no [qty],
    when one is found. *)
Lemma by_serverid_rows
  (c : option (list ServerObj)) (db : Database) (q : QueryDict) (u : option Z)
  (s : string) (i : Z) :
  QueryDict_get "by_serverid" q = Some s -> py_int s = Some i -> in_int64 i = true ->
  authorized (GET q u) -> absent "qty" (GET q u) ->
  (exists S, passes db (GET q u) S /\ s_id S = Some i) ->
  exists objs, objects c db (GET q u) = Ok objs /\
    forall S, In S (map instance objs) <-> passes db (GET q u) S /\ s_id S = Some i.
Proof.
  intros Hs Hi Hr Hu Hq [S0 [H0 Hid0]].
  rewrite (objects_by_serverid c db q u s i Hs Hi Hu Hq), Hr. cbv zeta.
  assert (R : forall S, In S (map instance (run_query db
                {| where_ := stage_lookups (GET q u) ++ [id_exact i];
                   num_members := num_members (stage_query (GET q u));
                   high_mark := None |})) <->
              passes db (GET q u) S /\ s_id S = Some i).
  { intros S. rewrite In_run_query, forallb_app, andb_true_iff.
    cbn [forallb lookup_holds]. rewrite andb_true_r, has_pk_iff.
    rewrite (passes_lookups db q u S Hu). tauto. }
  destruct (run_query db _) as [|o rest] eqn:E.
  - exfalso. apply (proj2 (R S0)). auto.
  - cbn [List.length Nat.eqb]. eexists. split; [reflexivity|]. exact R.
Qed.

(** Under unique keys at most one selected row has a given key. *)
Lemma filter_unique_key {R} (pk : R -> option Z) (p : R -> bool) (t : list R) (k : Z) :
  NoDup (map pk t) -> (forall x, In x (filter p t) -> pk x = Some k) ->
  (List.length (filter p t) <= 1)%nat.
Proof.
  induction t as [|a t IH]; cbn [map filter]; intros Hn Hk; [cbn; lia|].
  inversion Hn as [|? ? Hnot Hn']; subst.
  destruct (p a) eqn:Ea.
  - cbn [List.length].
    destruct (filter p t) as [|b r] eqn:F; [cbn; lia|]. exfalso.
    assert (Hb : In b (filter p t)) by (rewrite F; now left).
    apply Hnot. rewrite (Hk a (or_introl eq_refl)), <- (Hk b (or_intror (or_introl eq_refl))).
    apply in_map. apply filter_In in Hb. tauto.
  - apply IH; [exact Hn' | exact Hk].
Qed.
(** ** Empty and unrecognised parameter values *)

(** C10: a [category], [qty] or [by_serverid] parameter whose value is
    the empty string is treated as absent: the view answers the request
    exactly as it answers the same request without that parameter (same
    response or same exception, same state of the class attribute), so
    no filter, no truncation and no error comes from it. *)
Theorem empty_parameter_is_absent
  (cls : QuerySet) (db : Database) (q : QueryDict) (u : option Z) (key : string) :
  In key ["category"; "qty"; "by_serverid"] ->
  QueryDict_get key q = Some "" ->
  ServerListViewSet_list cls db (GET q u) =
  ServerListViewSet_list cls db (GET (QueryDict_without key q) u).
Proof.
  intros Hk Hq. unfold ServerListViewSet_list.
  rewrite (list_without db q u key); [reflexivity|].
  left. split; [exact Hk|]. rewrite Hq. reflexivity.
Qed.

Lemma empty_parameter_is_absent_witness :
  ServerListViewSet_list (class_attribute None) example_db (GET [("qty", "")] None) =
  ServerListViewSet_list (class_attribute None) example_db (GET [] None).
Proof.
  apply (empty_parameter_is_absent (class_attribute None) example_db [("qty", "")] None "qty").
  - simpl. tauto.
  - reflexivity.
Defined.

(** C2, as stated, fails: [qty=abc] is not a valid integer string, and
    the request ends in the [ValueError] of [int(qty)]. *)
Lemma malformed_qty_counterexample :
  QueryDict_get "qty" [("qty", "abc")] = Some "abc" /\
  py_int "abc" = None /\
  response (class_attribute None) example_db (GET [("qty", "abc")] None) = Raise ValueError.
Proof. repeat split. Qed.

(** More generally: once the by_user stage is passed, a non-empty [qty]
    that [int()] refuses ends the request in its [ValueError]. *)
Lemma malformed_qty_raises
  (c : option (list ServerObj)) (db : Database) (q : QueryDict) (u : option Z) (s : string) :
  QueryDict_get "qty" q = Some s -> s <> "" -> py_int s = None ->
  (flag (QueryDict_get "by_user" q) = true -> u <> None) ->
  response (class_attribute c) db (GET q u) = Raise ValueError.
Proof.
  intros Hq Hne Hs. destruct s as [|a s]; [now destruct Hne|].
  params q. rewrite Hq.
  destruct (QueryDict_get "category" q) as [[|? ?]|],
           (flag (QueryDict_get "by_user" q)), u,
           (QueryDict_get "by_serverid" q) as [[|? ?]|],
           (flag (QueryDict_get "with_num_members" q)), c;
    intros Hu; try (now destruct Hu); run; rewrite Hs; reflexivity.
Qed.

(** C2, amended: a [with_num_members] value other than the exact string
    "true" is treated as absent and causes no failure, and a [qty] is
    treated as absent when it is the empty string; in both cases the
    view answers as it answers the request without the parameter. *)
Theorem permissive_parameters
  (cls : QuerySet) (db : Database) (q : QueryDict) (u : option Z) (key v : string) :
  (key = "with_num_members" /\ v <> "true") \/ (key = "qty" /\ v = "") ->
  QueryDict_get key q = Some v ->
  ServerListViewSet_list cls db (GET q u) =
  ServerListViewSet_list cls db (GET (QueryDict_without key q) u).
Proof.
  intros H Hq. unfold ServerListViewSet_list.
  rewrite (list_without db q u key); [reflexivity|].
  destruct H as [[-> Hv]|[-> ->]].
  - right. split; [simpl; tauto|]. rewrite Hq. unfold flag. cbn.
    now apply String.eqb_neq.
  - left. split; [simpl; tauto|]. rewrite Hq. reflexivity.
Qed.

Lemma permissive_parameters_witness :
  ServerListViewSet_list (class_attribute None) example_db
    (GET [("with_num_members", "True")] None) =
  ServerListViewSet_list (class_attribute None) example_db (GET [] None).
Proof.
  apply (permissive_parameters (class_attribute None) example_db
           [("with_num_members", "True")] None "with_num_members" "True");
    [left; split; [reflexivity | discriminate] | reflexivity].
Defined.

(** ** The category stage *)

(** C7, as stated, fails.  With [category=] (present, empty) no filter
    is applied, and server A, whose category is "gaming", is in the
    result although its category is not called "".  With
    [category=gaming&by_user=true] asked by user 1, server B, whose
    category is called "gaming", is not in the result: user 1 is not a
    member of it. *)
Lemma category_filter_counterexample :
  ~ (appears server_A (objects None example_db (GET [("category", "")] None)) <->
     category_name_is example_db server_A "") /\
  ~ (appears server_B
       (objects None example_db (GET [("category", "gaming"); ("by_user", "true")] (Some 1)))
     <-> category_name_is example_db server_B "gaming").
Proof.
  split.
  - intros [H _].
    assert (A : appears server_A (objects None example_db (GET [("category", "")] None))).
    { eexists. split; [reflexivity|]. vm_compute. tauto. }
    destruct (H A) as [c [Hc [_ Hn]]].
    simpl in Hc. destruct Hc as [<-|[<-|[]]]; discriminate Hn.
  - intros [_ H].
    assert (B : category_name_is example_db server_B "gaming").
    { exists gaming. repeat split. simpl. tauto. }
    destruct (H B) as [objs [E HB]]. vm_compute in E. injection E as <-.
    simpl in HB. destruct HB as [HB|[]]. discriminate HB.
Qed.

(** The comparison is an equality of strings: "Gaming" is not "gaming". *)
Example category_filter_is_case_sensitive :
  objects None example_db (GET [("category", "Gaming")] None) = Ok [].
Proof. reflexivity. Qed.

(** C7, amended: for a request whose [category] parameter is present and
    not empty, every server in the result is a stored server whose
    category has exactly that name; and when no other stage narrows the
    result ([by_user] is not "true", [qty] and [by_serverid] are absent or
    empty), a server is in the result if and only if it is a stored
    server whose category has exactly that name. *)
Theorem category_filter_exact
  (c : option (list ServerObj)) (db : Database) (q : QueryDict) (u : option Z) (v : string) :
  QueryDict_get "category" q = Some v ->
  v <> "" ->
  (forall objs S, objects c db (GET q u) = Ok objs -> In S (map instance objs) ->
     In S (server_server db) /\ category_name_is db S v) /\
  (flag (QueryDict_get "by_user" q) = false ->
   absent "qty" (GET q u) -> absent "by_serverid" (GET q u) ->
   exists objs, objects c db (GET q u) = Ok objs /\
     forall S, In S (map instance objs) <->
       In S (server_server db) /\ category_name_is db S v).
Proof.
  intros Hc Hv. destruct v as [|a v]; [now destruct Hv|]. clear Hv. split.
  - params q. rewrite Hc.
    destruct (flag (QueryDict_get "by_user" q)), u,
             (QueryDict_get "qty" q) as [[|? ?]|],
             (QueryDict_get "by_serverid" q) as [[|? ?]|],
             (flag (QueryDict_get "with_num_members" q)), c;
      run; by_cases; try discriminate.
    all: intros objs S [= <-] HS; in_rows HS;
      (split; [assumption|]; apply category_name_is_iff; assumption).
  - params q. rewrite Hc. intros Hb Hq Hs. rewrite Hb.
    destruct (QueryDict_get "qty" q) as [[|? ?]|],
             (QueryDict_get "by_serverid" q) as [[|? ?]|],
             (flag (QueryDict_get "with_num_members" q)), c;
      try discriminate; run.
    all: eexists; split; [reflexivity|]; intros S;
      rewrite In_run_query; cbn [forallb];
      rewrite andb_true_r, category_name_is_iff; reflexivity.
Qed.

Lemma category_filter_exact_witness :
  exists objs, objects None example_db (GET [("category", "gaming")] None) = Ok objs /\
    forall S, In S (map instance objs) <->
      In S (server_server example_db) /\ category_name_is example_db S "gaming".
Proof.
  apply (category_filter_exact None example_db [("category", "gaming")] None "gaming");
    [reflexivity | discriminate | reflexivity | reflexivity | reflexivity].
Defined.

(** ** The by_user stage *)

(** Once the by_user stage has run for user [uid], every object that
    the view returns is a stored server of which [uid] is a member. *)
Lemma objects_are_of_the_caller
  (c : option (list ServerObj)) (db : Database) (q : QueryDict) (uid : Z)
  (objs : list ServerObj) (S : Server) :
  flag (QueryDict_get "by_user" q) = true ->
  objects c db (GET q (Some uid)) = Ok objs -> In S (map instance objs) ->
  In S (server_server db) /\ is_member db uid S.
Proof.
  intros Hf. params q. rewrite Hf.
  destruct (QueryDict_get "category" q) as [[|? ?]|],
           (QueryDict_get "qty" q) as [[|? ?]|],
           (QueryDict_get "by_serverid" q) as [[|? ?]|],
           (flag (QueryDict_get "with_num_members" q)), c;
    run; by_cases; try discriminate.
  all: intros [= <-] HS; in_rows HS;
    (split; [assumption|]; apply is_member_iff; assumption).
Qed.

(** C5, as stated, fails for an authenticated caller.  User 1 is a member
    of the servers A and C.  With [by_user=true&qty=1] the result holds
    one server, and with [category=gaming&by_user=true] it holds the
    servers of that category only: in both C, of which the caller is a
    member, is missing. *)
Lemma by_user_counterexample :
  In server_C (server_server example_db) /\ is_member example_db 1 server_C /\
  ~ appears server_C
      (objects None example_db (GET [("by_user", "true"); ("qty", "1")] (Some 1))) /\
  ~ appears server_C
      (objects None example_db
         (GET [("category", "gaming"); ("by_user", "true")] (Some 1))).
Proof.
  split; [simpl; tauto|]. split; [exists 3; split; [reflexivity | simpl; tauto]|].
  split; intros [objs [E H]]; vm_compute in E; injection E as <-;
    simpl in H; destruct H as [H|[]]; discriminate H.
Qed.

(** C5, amended: for a request with [by_user=true], an anonymous caller
    gets [AuthenticationFailed] and no result (and the class attribute is
    left as it was); for an authenticated caller every server in a result
    has the caller among its members, and when no later stage narrows
    ([qty] and [by_serverid] absent or empty) the result holds exactly
    the servers, of those that pass the category stage, that have the
    caller among their members. *)
Theorem by_user_requires_authentication
  (c : option (list ServerObj)) (db : Database) (q : QueryDict) (u : option Z) :
  QueryDict_get "by_user" q = Some "true" ->
  match u with
  | None =>
      ServerListViewSet_list (class_attribute c) db (GET q u) =
      (Raise AuthenticationFailed, class_attribute c)
  | Some uid =>
      (forall objs S, objects c db (GET q u) = Ok objs -> In S (map instance objs) ->
         In S (server_server db) /\ is_member db uid S) /\
      (absent "qty" (GET q u) -> absent "by_serverid" (GET q u) ->
       exists objs, objects c db (GET q u) = Ok objs /\
         forall S, In S (map instance objs) <->
           In S (server_server db) /\ is_member db uid S /\
           forall v, seen (QueryDict_get "category" q) = Some v -> category_name_is db S v)
  end.
Proof.
  intros Hb. assert (Hf : flag (QueryDict_get "by_user" q) = true) by (rewrite Hb; reflexivity).
  clear Hb. destruct u as [uid|].
  - split.
    + intros objs S. now apply objects_are_of_the_caller.
    + params q. rewrite Hf. intros Hq Hs.
      destruct (QueryDict_get "category" q) as [[|? ?]|],
               (QueryDict_get "qty" q) as [[|? ?]|],
               (QueryDict_get "by_serverid" q) as [[|? ?]|],
               (flag (QueryDict_get "with_num_members" q)), c;
        try discriminate; run; by_cases.
      all: eexists; split; [reflexivity|]; intros S;
        rewrite In_run_query; cbn [forallb]; rewrite ?andb_true_r,
          ?andb_true_iff, ?category_name_is_iff, ?is_member_iff; cbn [seen truthy str_truthy].
      all: intuition (try discriminate; auto).
      all: try (match goal with
                | H : forall v, Some _ = Some v -> _ |- _ => apply H; reflexivity
                end); try congruence.
  - params q. rewrite Hf.
    destruct (QueryDict_get "category" q) as [[|? ?]|]; run; reflexivity.
Qed.

Lemma by_user_requires_authentication_witness :
  ServerListViewSet_list (class_attribute None) example_db (GET [("by_user", "true")] None) =
  (Raise AuthenticationFailed, class_attribute None).
Proof.
  apply (by_user_requires_authentication None example_db [("by_user", "true")] None).
  reflexivity.
Defined.

(** The servers of user 1 in the example: A and C. *)
Example by_user_example :
  option_map (map instance)
    (match objects None example_db (GET [("by_user", "true")] (Some 1)) with
     | Ok objs => Some objs | Raise _ => None end) = Some [server_A; server_C].
Proof. reflexivity. Qed.

(** ** The qty stage *)

(** With both [qty] and [by_serverid] given, no result is returned. *)
Lemma filter_after_slice
  (c : option (list ServerObj)) (db : Database) (q : QueryDict) (u : option Z)
  (s t : string) (N : Z) :
  QueryDict_get "qty" q = Some s -> py_int s = Some N ->
  QueryDict_get "by_serverid" q = Some t -> t <> "" ->
  objects c db (GET q u) = Raise AuthenticationFailed \/
  objects c db (GET q u) = Raise ValueError \/
  objects c db (GET q u) = Raise TypeError \/
  objects c db (GET q u) = Raise AttributeError.
Proof.
  intros Hq HN Ht Hne. pose proof (py_int_nonempty _ _ HN) as Hs.
  destruct s as [|a s]; [now destruct Hs|]. destruct t as [|b t]; [now destruct Hne|].
  params q. rewrite Hq, Ht.
  destruct (QueryDict_get "category" q) as [[|? ?]|],
           (flag (QueryDict_get "by_user" q)), u,
           (flag (QueryDict_get "with_num_members" q)), c;
    run; rewrite ?HN; run; by_cases; tauto.
Qed.

(** Without [by_serverid], the objects of a request with [qty=N], [N]
    within the range of the store, are the first [N] objects of the
    request without [qty]. *)
Lemma objects_qty
  (c : option (list ServerObj)) (db : Database) (q : QueryDict) (u : option Z)
  (s : string) (N : Z) :
  QueryDict_get "qty" q = Some s -> py_int s = Some N -> 0 <= N -> in_int64 N = true ->
  absent "by_serverid" (GET q u) ->
  objects c db (GET q u) = truncated N (objects c db (GET (QueryDict_without "qty" q) u)).
Proof.
  intros Hq HN Hpos Hin Hs. pose proof (py_int_nonempty _ _ HN) as Hne.
  destruct s as [|a s]; [now destruct Hne|].
  params q.
  rewrite (QueryDict_get_without_same "qty" q).
  rewrite !(QueryDict_get_without_other "qty" _ q) by reflexivity.
  rewrite Hq. params q.
  destruct (QueryDict_get "category" q) as [[|? ?]|],
           (flag (QueryDict_get "by_user" q)), u,
           (QueryDict_get "by_serverid" q) as [[|? ?]|],
           (flag (QueryDict_get "with_num_members" q)), c;
    try discriminate; run; rewrite ?HN; run; by_cases; try lia; try congruence;
    try (subst N; reflexivity); reflexivity.
Qed.

Lemma in_int64_iff (z : Z) : in_int64 z = true <-> - 2 ^ 63 <= z < 2 ^ 63.
Proof. unfold in_int64. rewrite andb_true_iff, Z.leb_le, Z.ltb_lt. tauto. Qed.

(** What a request without [qty] reads is what the request reads. *)
Lemma without_qty (q : QueryDict) (u : option Z) :
  stage_lookups (GET (QueryDict_without "qty" q) u) = stage_lookups (GET q u) /\
  stage_query (GET (QueryDict_without "qty" q) u) = stage_query (GET q u) /\
  serializer_context (GET (QueryDict_without "qty" q) u) = serializer_context (GET q u) /\
  (authorized (GET q u) -> authorized (GET (QueryDict_without "qty" q) u)) /\
  (absent "by_serverid" (GET q u) -> absent "by_serverid" (GET (QueryDict_without "qty" q) u)) /\
  absent "qty" (GET (QueryDict_without "qty" q) u).
Proof.
  unfold stage_query, stage_lookups, serializer_context, authorized, absent.
  cbn [GET query_params user].
  rewrite (QueryDict_get_without_same "qty" q).
  rewrite !(QueryDict_get_without_other "qty" _ q) by reflexivity.
  repeat split; auto.
Qed.

(** C8, as stated, fails for a positive integer that the store does not
    take as a limit.  Three servers are stored and the request has no
    [by_serverid]; with [qty=9223372036854775808] (2^63) the list should
    hold the three of them, and the request ends in the [IntegrityError]
    of the store instead. *)
Lemma qty_counterexample :
  py_int "9223372036854775808" = Some (2 ^ 63) /\ 0 < 2 ^ 63 /\
  absent "by_serverid" (GET [("qty", "9223372036854775808")] None) /\
  Z.min (2 ^ 63)
    (Z.of_nat (List.length
       (matching example_db (GET [("qty", "9223372036854775808")] None)))) = 3 /\
  response (class_attribute None) example_db (GET [("qty", "9223372036854775808")] None)
    = Raise IntegrityError /\
  ~ exists l,
      response (class_attribute None) example_db
        (GET [("qty", "9223372036854775808")] None) = Ok l.
Proof.
  repeat split. intros [l H]. vm_compute in H. discriminate H.
Qed.

(** C8, amended: for a request with [qty=N], [N] a positive integer
    below 2^63, a returned list never has more than [N] entries;
    and when [by_serverid] is absent (or empty) the response is the
    response to the same request without [qty], cut to its first [N]
    entries.  Measured on the store: unless the request draws from rows
    that the class attribute has kept (no stage before [qty] is on and
    the class attribute has been evaluated), the list holds stored
    servers that pass the category and by_user stages, [min N matched] of
    them, where [matched] is the number of stored servers that pass. *)
Theorem qty_truncates
  (c : option (list ServerObj)) (db : Database) (q : QueryDict) (u : option Z)
  (s : string) (N : Z) :
  QueryDict_get "qty" q = Some s -> py_int s = Some N -> 0 < N -> N < 2 ^ 63 ->
  (forall l, response (class_attribute c) db (GET q u) = Ok l ->
     Z.of_nat (List.length l) <= N) /\
  (absent "by_serverid" (GET q u) ->
     response (class_attribute c) db (GET q u) =
       truncated N (response (class_attribute c) db (GET (QueryDict_without "qty" q) u)) /\
     (authorized (GET q u) ->
      c = None \/ ~ plain (GET (QueryDict_without "qty" q) u) ->
      exists objs,
        response (class_attribute c) db (GET q u) =
          Ok (ServerSerializer_many db (serializer_context (GET q u)) objs) /\
        (forall S, In S (map instance objs) -> passes db (GET q u) S) /\
        Z.of_nat (List.length objs) =
          Z.min N (Z.of_nat (List.length (matching db (GET q u)))))).
Proof.
  intros Hq HN Hpos Hmax.
  assert (Hin : in_int64 N = true) by (apply in_int64_iff; lia).
  destruct (without_qty q u) as (Wl & Wq & Wc & Wu & Ws & Wn).
  assert (E : absent "by_serverid" (GET q u) ->
     response (class_attribute c) db (GET q u) =
       truncated N (response (class_attribute c) db (GET (QueryDict_without "qty" q) u))).
  { intros Hs. rewrite !response_objects.
    rewrite (objects_qty c db q u s N Hq HN) by (assumption || lia).
    rewrite Wc.
    destruct (objects c db (GET (QueryDict_without "qty" q) u)) as [objs|e]; [|reflexivity].
    cbn [truncated]. unfold ServerSerializer_many. rewrite first_n_map. reflexivity. }
  split.
  - intros l Hl.
    destruct (truthy (QueryDict_get "by_serverid" q)) eqn:Ht.
    + exfalso. destruct (QueryDict_get "by_serverid" q) as [t|] eqn:Hsid; [|discriminate].
      assert (Hne : t <> "") by (intros ->; discriminate).
      rewrite response_objects in Hl.
      destruct (filter_after_slice c db q u s t N Hq HN Hsid Hne) as [H|[H|[H|H]]];
        rewrite H in Hl; discriminate.
    + rewrite (E Ht) in Hl.
      destruct (response (class_attribute c) db (GET (QueryDict_without "qty" q) u)) as [l'|e];
        [|discriminate].
      injection Hl as <-. rewrite length_first_n by lia. lia.
  - intros Hs. split; [exact (E Hs)|]. intros Hu Hc.
    exists (first_n N (run_query db (stage_query (GET q u)))).
    assert (O : objects c db (GET (QueryDict_without "qty" q) u) =
                Ok (run_query db (stage_query (GET q u)))).
    { rewrite (objects_unsliced c db _ u (Wu Hu) Wn (Ws Hs)), Wq.
      destruct Hc as [->|Hc]; [reflexivity|]. destruct c as [rows|]; [|reflexivity].
      destruct (seen (QueryDict_get "category" (QueryDict_without "qty" q))) eqn:E1,
               (flag (QueryDict_get "by_user" (QueryDict_without "qty" q))) eqn:E2,
               (flag (QueryDict_get "with_num_members" (QueryDict_without "qty" q))) eqn:E3;
        try reflexivity.
      exfalso. apply Hc. unfold plain, absent in *. cbn [GET query_params] in *.
      repeat split; try assumption.
      - unfold seen. now rewrite Wn.
      - unfold seen. now rewrite (Ws Hs). }
    split; [|split].
    + rewrite response_objects, (objects_qty c db q u s N Hq HN) by (assumption || lia).
      rewrite O. reflexivity.
    + intros S HS. rewrite <- first_n_map in HS. apply In_first_n in HS.
      unfold stage_query in HS. apply In_run_query in HS. now apply passes_lookups.
    + rewrite length_first_n by lia. unfold stage_query, matching.
      now rewrite length_run_query.
Qed.

Lemma qty_truncates_witness :
  exists objs,
    response (class_attribute None) example_db (GET [("qty", "2")] None) =
      Ok (ServerSerializer_many example_db
            (serializer_context (GET [("qty", "2")] None)) objs) /\
    (forall S, In S (map instance objs) -> passes example_db (GET [("qty", "2")] None) S) /\
    Z.of_nat (List.length objs) =
      Z.min 2 (Z.of_nat (List.length (matching example_db (GET [("qty", "2")] None)))).
Proof.
  apply (qty_truncates None example_db [("qty", "2")] None "2" 2);
    [reflexivity | reflexivity | lia | lia | reflexivity | discriminate | left; reflexivity].
Defined.

(** Three servers are stored; [qty=2] returns two objects, [qty=5]
    three; and a [qty] that the store cannot take as a limit ends the
    request in the [IntegrityError] of the store. *)
Example qty_example :
  option_map (@List.length JObject)
    (match response (class_attribute None) example_db (GET [("qty", "2")] None) with
     | Ok l => Some l | Raise _ => None end) = Some 2%nat /\
  option_map (@List.length JObject)
    (match response (class_attribute None) example_db (GET [("qty", "5")] None) with
     | Ok l => Some l | Raise _ => None end) = Some 3%nat /\
  response (class_attribute None) example_db (GET [("qty", "9223372036854775808")] None)
    = Raise IntegrityError.
Proof. repeat split. Qed.

(** ** The by_serverid stage *)

(** X4: when [qty] has sliced the queryset, [filter(id=...)] is refused:
    with a [TypeError] by a queryset, with an [AttributeError] by the
    list that the slice of an evaluated queryset is.  Neither is caught
    by [except ValueError], so no [ValidationError] comes out. *)
Lemma filter_on_slice
  (c : option (list ServerObj)) (db : Database) (q : QueryDict) (u : option Z)
  (s t : string) (N : Z) :
  QueryDict_get "qty" q = Some s -> py_int s = Some N -> 0 <= N ->
  QueryDict_get "by_serverid" q = Some t -> t <> "" ->
  (flag (QueryDict_get "by_user" q) = true -> u <> None) ->
  response (class_attribute c) db (GET q u) = Raise TypeError \/
  response (class_attribute c) db (GET q u) = Raise AttributeError.
Proof.
  intros Hq HN Hpos Ht Hne. pose proof (py_int_nonempty _ _ HN) as Hs.
  destruct s as [|a s]; [now destruct Hs|]. destruct t as [|b t]; [now destruct Hne|].
  params q. rewrite Hq, Ht.
  destruct (QueryDict_get "category" q) as [[|? ?]|],
           (flag (QueryDict_get "by_user" q)), u,
           (flag (QueryDict_get "with_num_members" q)), c;
    intros Hu; try (now destruct Hu); run; rewrite ?HN; run; by_cases; try lia; tauto.
Qed.

(** C1: the code at [qty=1&by_serverid=2].  Server B has id 2 and is
    stored, but is not among the first 1; the request ends in a
    [TypeError], not in the validation error of the claim.  The same
    happens for id 1, which is among the first 1.  Without [qty] the
    stage finds server B. *)
Theorem qty_with_by_serverid_raises_TypeError :
  In server_B (server_server example_db) /\ s_id server_B = Some 2 /\
  response (class_attribute None) example_db (GET [("qty", "1"); ("by_serverid", "2")] None)
    = Raise TypeError /\
  response (class_attribute None) example_db (GET [("qty", "1"); ("by_serverid", "1")] None)
    = Raise TypeError /\
  response (class_attribute None) example_db (GET [("by_serverid", "2")] None)
    = Ok (ServerSerializer_many example_db [("num_members", false)]
            [{| instance := server_B; attr_num_members := None |}]).
Proof. repeat split. simpl. tauto. Qed.

(** C4, as stated, fails.  [by_serverid=] is present and is not a valid
    integer, and the request raises nothing.  With
    [by_user=true&by_serverid=99] asked by an anonymous caller, 99 being
    the id of no server, the request fails with [AuthenticationFailed],
    raised by the earlier stage.  And [by_serverid=9223372036854775808]
    (2^63), the id of no server, ends in the [OverflowError] of the
    database driver, which [except ValueError] does not catch. *)
Lemma by_serverid_counterexample :
  (QueryDict_get "by_serverid" [("by_serverid", "")] = Some "" /\
   py_int "" = None /\
   forall e, response (class_attribute None) example_db (GET [("by_serverid", "")] None)
             <> Raise e) /\
  (QueryDict_get "by_serverid" [("by_user", "true"); ("by_serverid", "99")] = Some "99" /\
   (forall S, In S (server_server example_db) -> s_id S <> Some 99) /\
   response (class_attribute None) example_db
     (GET [("by_user", "true"); ("by_serverid", "99")] None) = Raise AuthenticationFailed) /\
  (py_int "9223372036854775808" = Some (2 ^ 63) /\
   (forall S, In S (server_server example_db) -> s_id S <> Some (2 ^ 63)) /\
   response (class_attribute None) example_db
     (GET [("by_serverid", "9223372036854775808")] None) = Raise OverflowError).
Proof.
  split; [|split]; repeat split.
  - intros e. vm_compute. discriminate.
  - intros S HS. simpl in HS. destruct HS as [<-|[<-|[<-|[]]]]; discriminate.
  - intros S HS. simpl in HS. destruct HS as [<-|[<-|[<-|[]]]]; discriminate.
Qed.

(** C4, amended: for a request whose [by_serverid] is present and not
    empty, that has no [qty] (or an empty one) and whose by_user stage
    does not fail: if the value is not a valid integer, or is an integer
    within the 64-bit range of the store that is the id of no server
    passing the category and by_user stages, the request fails with a
    [ValidationError] whose detail is
    "Server with ID <value> does not exist". *)
Theorem by_serverid_validation
  (c : option (list ServerObj)) (db : Database) (q : QueryDict) (u : option Z) (s : string) :
  QueryDict_get "by_serverid" q = Some s -> s <> "" ->
  absent "qty" (GET q u) ->
  (flag (QueryDict_get "by_user" q) = true -> u <> None) ->
  (py_int s = None \/
   exists i, py_int s = Some i /\ - 2 ^ 63 <= i < 2 ^ 63 /\
             forall S, passes db (GET q u) S -> s_id S <> Some i) ->
  response (class_attribute c) db (GET q u) =
  Raise (ValidationError ("Server with ID " ++ s ++ " does not exist")).
Proof.
  intros Hs Hne Hq Hu Hi.
  change ("Server with ID " ++ s ++ " does not exist")%string with (does_not_exist s).
  destruct Hi as [Hi | [i (Hi & Hr & Hnone)]].
  - destruct s as [|a s]; [now destruct Hne|]. clear Hne.
    revert Hu. params q. rewrite Hs.
    destruct (QueryDict_get "category" q) as [[|? ?]|],
             (flag (QueryDict_get "by_user" q)), u,
             (QueryDict_get "qty" q) as [[|? ?]|],
             (flag (QueryDict_get "with_num_members" q)), c;
      try discriminate; intros Hu; try (now destruct Hu); run; rewrite Hi; reflexivity.
  - rewrite response_objects, (objects_by_serverid c db q u s i Hs Hi Hu Hq).
    rewrite (proj2 (in_int64_iff i) Hr). cbv zeta.
    destruct (run_query db _) as [|o rest] eqn:E; [reflexivity|]. exfalso.
    assert (HS : In (instance o) (map instance (o :: rest))) by (left; reflexivity).
    rewrite <- E in HS. apply In_run_query in HS. destruct HS as [H1 H2].
    rewrite forallb_app, andb_true_iff in H2. destruct H2 as [H2 H3].
    cbn [forallb lookup_holds] in H3. rewrite andb_true_r, has_pk_iff in H3.
    apply (Hnone (instance o)); [|exact H3].
    apply (passes_lookups db q u (instance o) Hu). auto.
Qed.

Lemma by_serverid_validation_witness :
  response (class_attribute None) example_db (GET [("by_serverid", "9")] None) =
  Raise (ValidationError "Server with ID 9 does not exist").
Proof.
  apply (by_serverid_validation None example_db [("by_serverid", "9")] None "9");
    [reflexivity | discriminate | reflexivity | discriminate |].
  right. exists 9. split; [reflexivity|]. split; [lia|].
  intros S (HS & _). simpl in HS. destruct HS as [<-|[<-|[<-|[]]]]; discriminate.
Defined.

(** A value that is no integer. *)
Example by_serverid_not_an_integer :
  response (class_attribute None) example_db (GET [("by_serverid", "x7")] None) =
  Raise (ValidationError "Server with ID x7 does not exist").
Proof. reflexivity. Qed.

Example by_serverid_unknown_id :
  response (class_attribute None) example_db (GET [("by_serverid", "9")] None) =
  Raise (ValidationError "Server with ID 9 does not exist").
Proof. reflexivity. Qed.

(** ** The member count *)

(** The field is in every object of the response, or in none, as
    [with_num_members] is "true" or not. *)
Lemma num_members_key
  (c : option (list ServerObj)) (db : Database) (request : Request)
  (l : list JObject) (o : JObject) :
  response (class_attribute c) db request = Ok l -> In o l ->
  has_key "num_members" o = with_num_members request.
Proof.
  rewrite response_objects. destruct (objects c db request) as [objs|e]; [|discriminate].
  intros [= <-] Ho. unfold ServerSerializer_many in Ho. apply in_map_iff in Ho.
  destruct Ho as [obj [<- _]].
  unfold to_representation, serializer_context, with_num_members.
  destruct (opt_str_eqb _ _); reflexivity.
Qed.

(** With [with_num_members=true] every object carries the count, taken
    over the memberships of the caller alone when the by_user stage ran,
    over all memberships otherwise. *)
Lemma num_members_annotation
  (c : option (list ServerObj)) (db : Database) (q : QueryDict) (u : option Z)
  (objs : list ServerObj) (obj : ServerObj) :
  flag (QueryDict_get "with_num_members" q) = true ->
  objects c db (GET q u) = Ok objs -> In obj objs ->
  attr_num_members obj =
    Some (count_member db (if flag (QueryDict_get "by_user" q) then u else None)
            (instance obj)).
Proof.
  intros Hw. params q. rewrite Hw.
  destruct (QueryDict_get "category" q) as [[|? ?]|],
           (flag (QueryDict_get "by_user" q)), u,
           (QueryDict_get "qty" q) as [[|? ?]|],
           (QueryDict_get "by_serverid" q) as [[|? ?]|], c;
    run; by_cases; try discriminate.
  all: intros [= <-] Ho;
    first
    [ solve [destruct Ho]
    | try (match type of Ho with In _ (first_n _ _) => apply In_first_n in Ho end);
      apply run_query_In in Ho; destruct Ho as (_ & _ & Ho); exact Ho ].
Qed.

Lemma length_filter_once {A} (f : A -> bool) (p : A) (l : list A) :
  NoDup l -> (forall x, f x = true -> x = p) -> In p l -> f p = true ->
  List.length (filter f l) = 1%nat.
Proof.
  intros Hn Hf. induction Hn as [|a l Ha Hn IH]; cbn; intros Hp Hfp; [destruct Hp|].
  destruct (f a) eqn:E.
  - apply Hf in E. subst a. cbn. f_equal.
    destruct (filter f l) as [|y r] eqn:F; [reflexivity|].
    assert (Hy : In y (filter f l)) by (rewrite F; left; reflexivity).
    apply filter_In in Hy. destruct Hy as [Hy1 Hy2]. apply Hf in Hy2. subst y.
    contradiction.
  - destruct Hp as [->|Hp]; [congruence|]. now apply IH.
Qed.

(** The intermediary table holds a membership once.  Counted over all
    memberships, a server has as many as it has members. *)
Lemma count_member_all (db : Database) (S : Server) :
  NoDup (server_server_member db) ->
  count_member db None S = Z.of_nat (List.length (members db S)).
Proof.
  intros Hn. unfold count_member, members. f_equal.
  rewrite nodup_fixed_point.
  - rewrite length_map. f_equal. apply filter_ext. intros r. apply andb_true_r.
  - apply NoDup_map_NoDup_ForallPairs; [|now apply NoDup_filter].
    intros [i1 u1] [i2 u2] H1 H2 E. cbn in E. subst u2.
    apply filter_In in H1, H2. destruct H1 as [_ H1], H2 as [_ H2].
    unfold membership_of in *. apply has_pk_iff in H1, H2. cbn in *. congruence.
Qed.

(** Counted over the memberships of one member, it has one. *)
Lemma count_member_caller (db : Database) (uid : Z) (S : Server) :
  NoDup (server_server_member db) -> is_member db uid S ->
  count_member db (Some uid) S = 1.
Proof.
  intros Hn [i [Hi Hm]]. unfold count_member.
  rewrite (length_filter_once _ (i, uid)); auto.
  - intros [j v] H. apply andb_true_iff in H. destruct H as [H1 H2].
    unfold membership_of in H1. apply has_pk_iff in H1. cbn in H1, H2.
    apply Z.eqb_eq in H2. congruence.
  - unfold membership_of. cbn. rewrite (proj2 (has_pk_iff s_id i S) Hi).
    now rewrite Z.eqb_refl.
Qed.

(** X12: so with [by_user=true&with_num_members=true] every object
    carries the count 1, however many members its server has. *)
Lemma num_members_after_by_user
  (c : option (list ServerObj)) (db : Database) (q : QueryDict) (uid : Z)
  (objs : list ServerObj) (obj : ServerObj) :
  NoDup (server_server_member db) ->
  flag (QueryDict_get "by_user" q) = true ->
  flag (QueryDict_get "with_num_members" q) = true ->
  objects c db (GET q (Some uid)) = Ok objs -> In obj objs ->
  attr_num_members obj = Some 1.
Proof.
  intros Hn Hb Hw Ho Hin.
  rewrite (num_members_annotation c db q (Some uid) objs obj Hw Ho Hin), Hb.
  f_equal. apply count_member_caller; [exact Hn|].
  apply (objects_are_of_the_caller c db q uid objs (instance obj) Hb Ho).
  now apply in_map.
Qed.

(** X11: without [by_user] it carries the number of members of its
    server. *)
Lemma num_members_without_by_user
  (c : option (list ServerObj)) (db : Database) (q : QueryDict) (u : option Z)
  (objs : list ServerObj) (obj : ServerObj) :
  NoDup (server_server_member db) ->
  flag (QueryDict_get "by_user" q) = false ->
  flag (QueryDict_get "with_num_members" q) = true ->
  objects c db (GET q u) = Ok objs -> In obj objs ->
  attr_num_members obj = Some (Z.of_nat (List.length (members db (instance obj)))).
Proof.
  intros Hn Hb Hw Ho Hin.
  rewrite (num_members_annotation c db q u objs obj Hw Ho Hin), Hb.
  f_equal. now apply count_member_all.
Qed.

(** C6: the code at [by_user=true&with_num_members=true], asked by user
    1.  Server A has the two members 1 and 2; the object returned for it
    carries the member count 1. *)
Theorem num_members_after_by_user_counts_the_caller_only :
  members example_db server_A = [1; 2] /\
  exists o rest,
    response (class_attribute None) example_db
      (GET [("by_user", "true"); ("with_num_members", "true")] (Some 1)) = Ok (o :: rest) /\
    dict_get "id" o = Some (opt_int (s_id server_A)) /\
    dict_get "num_members" o = Some (JInt 1).
Proof. split; [reflexivity|]. do 2 eexists. repeat split. Qed.

(** Without [by_user] the count of A is 2, of B 0 and of C 1. *)
Example num_members_example :
  option_map (map (dict_get "num_members"))
    (match response (class_attribute None) example_db
             (GET [("with_num_members", "true")] None) with
     | Ok l => Some l | Raise _ => None end) =
  Some [Some (JInt 2); Some (JInt 0); Some (JInt 1)].
Proof. reflexivity. Qed.

(** ** [Server.save] *)

(** X13: [Server.save] never saves: whatever the instance and the stored
    data, it raises, and the tables are as before. *)
Lemma Server_save_never_saves (self : Server) (w : World) :
  exists e w', Server_save self w = (Raise e, w') /\ w_db w' = w_db w.
Proof.
  unfold Server_save, if_id, get_object_or_404, FieldFile_delete.
  cbv [bind ret lift modify py_super issubclass].
  destruct (s_id self) as [i|]; [|eauto].
  destruct (int_truthy (Some i)); [|eauto].
  destruct (find (has_pk s_id i) (server_server (w_db w))) as [existing|]; [|eauto].
  destruct (FieldFile_ne (s_icon existing) (s_icon self)),
           (FieldFile_ne (s_banner existing) (s_banner self)),
           (s_icon existing) as [[|? ?]|], (s_banner existing) as [[|? ?]|];
    cbn; eauto.
Qed.

(** C3: the code on an update of the stored server A that changes its
    icon.  The stored icon file is deleted from the storage, then
    [super(Category, self)] raises [TypeError]; the row of A is not
    written. *)
Theorem Server_save_deletes_the_file_and_raises :
  let self := {| s_id := Some 1; s_name := "A"; s_owner := 1; s_category := 1;
                 s_description := None; s_banner := None;
                 s_icon := Some "server/1/server_icon/b.png" |} in
  In server_A (server_server example_db) /\
  s_id server_A = s_id self /\
  s_icon server_A <> s_icon self /\
  Server_save self example_world =
    (Raise TypeError, {| w_db := example_db; w_storage := [] |}).
Proof. cbv zeta. repeat split; [simpl; tauto | discriminate]. Qed.

(** [Category.save], which ends in [super(Category, self)] too, does
    save; the row holds the empty string for a field without file. *)
Example Category_save_example :
  let self := {| c_id := Some 1; c_name := "games"; c_description := None; c_icon := None;
                 c_icon_committed := true |} in
  exists w', Category_save example_storage self example_world = (Ok self, w') /\
             server_category (w_db w') = [Category_row self; music] /\
             c_icon (Category_row self) = Some "".
Proof. cbv zeta. eexists. repeat split. Qed.

(** ** [lower()] *)

Lemma lower_table_fixed : forallb (fun p => fixedb (snd p)) lower_table = true.
Proof. vm_compute. reflexivity. Qed.

Lemma fixedb_spec (c : N) :
  fixedb c = true -> to_lower_full c = [c] /\ (c =? 931)%N = false.
Proof.
  unfold fixedb, to_lower_full, to_lower. intros H.
  apply andb_true_iff in H. destruct H as [H H3].
  apply andb_true_iff in H. destruct H as [H1 H2].
  apply negb_true_iff in H1, H2. rewrite H1.
  destruct (find _ lower_table); [discriminate|]. auto.
Qed.

Lemma to_lower_full_fixed (c : N) :
  (c =? 931)%N = false -> Forall (fun y => fixedb y = true) (to_lower_full c).
Proof.
  intros Hs. unfold to_lower_full, to_lower.
  destruct (c =? 304)%N eqn:Hi; [repeat constructor|].
  destruct (find (fun p => (fst p =? c)%N) lower_table) as [p|] eqn:F; constructor; auto.
  - apply find_some in F. destruct F as [F _].
    exact (proj1 (forallb_forall _ _) lower_table_fixed p F).
  - unfold fixedb. now rewrite Hi, Hs, F.
Qed.

Lemma lower_from_fixed (before : list N) (s : text) :
  Forall (fun y => fixedb y = true) (lower_from before s).
Proof.
  revert before. induction s as [|c s IH]; intros before; cbn [lower_from]; [constructor|].
  apply Forall_app. split; [|apply IH].
  destruct (c =? 931)%N eqn:Hs; [|now apply to_lower_full_fixed].
  destruct (final_sigma before s); repeat constructor.
Qed.

Lemma lower_from_id (before : list N) (s : text) :
  Forall (fun y => fixedb y = true) s -> lower_from before s = s.
Proof.
  intros H. revert before. induction H as [|c s Hc _ IH]; intros before; [reflexivity|].
  cbn [lower_from]. destruct (fixedb_spec c Hc) as [-> ->]. cbn [app]. now rewrite IH.
Qed.

(** Lower-casing what has been lower-cased changes nothing, for every
    string. *)
Lemma text_lower_idempotent (s : text) : text_lower (text_lower s) = text_lower s.
Proof. unfold text_lower. apply lower_from_id, lower_from_fixed. Qed.




(** On a [string], [lower()] is [str_lower]. *)
Lemma ascii_lower (a : ascii) :
  (code a =? 931)%N = false /\ to_lower_full (code a) = [code (char_lower a)].
Proof. destruct a as [[] [] [] [] [] [] [] []]; vm_compute; split; reflexivity. Qed.

Lemma text_lower_string (s : string) :
  text_lower (text_of_string s) = text_of_string (str_lower s).
Proof.
  unfold text_lower, text_of_string. generalize (@nil N) as before.
  induction s as [|a s IH]; intros before; [reflexivity|].
  cbn [list_ascii_of_string map lower_from str_lower].
  destruct (ascii_lower a) as [-> ->]. cbn [app]. now rewrite IH.
Qed.

Example text_lower_General : text_lower "General" = "general".
Proof. reflexivity. Qed.

(** U+2102, the double-struck capital C, is an upper-case character
    without lower-case form. *)
Example text_lower_U2102 :
  text_lower [8450%N] = [8450%N] /\ is_uppercase 8450 = true.
Proof. split; reflexivity. Qed.

(** ** [Model.save] on a table *)

Lemma next_id_above (seq : Z) (ids : list (option Z)) (j : Z) :
  In (Some j) ids -> j < next_id seq ids.
Proof.
  unfold next_id. induction ids as [|[k|] ids IH]; cbn [fold_right In]; intros H.
  - destruct H.
  - destruct H as [[= ->]|H]; [lia|]. specialize (IH H). lia.
  - destruct H as [H|H]; [discriminate|]. exact (IH H).
Qed.

(** A new key is above the sequence of the table: the key of a row that
    was deleted is not given out again. *)
Lemma next_id_above_seq (seq : Z) (ids : list (option Z)) : seq < next_id seq ids.
Proof.
  unfold next_id. induction ids as [|[k|] ids IH]; cbn [fold_right]; lia.
Qed.

Section TableSave.
Variable R : Type.
Variable pk : R -> option Z.
Variable set_pk : Z -> R -> R.
Hypothesis pk_set_pk : forall i r, pk (set_pk i r) = Some i.

(** A saved instance has a primary key. *)
Lemma table_save_pk (r : R) (t : list R) (seq : Z) :
  exists i, pk (fst (table_save pk set_pk r t seq)) = Some i.
Proof.
  unfold table_save. destruct (pk r) as [i|] eqn:E.
  - exists i. destruct (existsb _ t); exact E.
  - eexists. apply pk_set_pk.
Qed.

(** The table holds old rows and the saved instance. *)
Lemma table_save_In (r x : R) (t : list R) (seq : Z) :
  In x (snd (table_save pk set_pk r t seq)) ->
  In x t \/ x = fst (table_save pk set_pk r t seq).
Proof.
  unfold table_save. destruct (pk r) as [i|].
  - destruct (existsb (has_pk pk i) t); cbn.
    + intros H. apply in_map_iff in H. destruct H as [y [<- H]].
      destruct (has_pk pk i y); auto.
    + intros H. apply in_app_iff in H. destruct H as [H|[<-|[]]]; auto.
  - cbn. intros H. apply in_app_iff in H. destruct H as [H|[<-|[]]]; auto.
Qed.

Lemma find_app_none (f : R -> bool) (t : list R) (r : R) :
  (forall x, In x t -> f x = false) -> f r = true -> find f (t ++ [r]) = Some r.
Proof.
  intros H Hr. induction t as [|a t IH]; cbn; [now rewrite Hr|].
  rewrite (H a) by (left; reflexivity). apply IH. intros x Hx. apply H. now right.
Qed.

(** Reading the key of the saved instance gives the saved instance. *)
Lemma table_save_find (r : R) (t : list R) (seq : Z) (i : Z) :
  pk (fst (table_save pk set_pk r t seq)) = Some i ->
  find (has_pk pk i) (snd (table_save pk set_pk r t seq)) =
  Some (fst (table_save pk set_pk r t seq)).
Proof.
  unfold table_save. destruct (pk r) as [j|] eqn:E.
  - destruct (existsb (has_pk pk j) t) eqn:Ex; cbn; intros Hi;
      rewrite E in Hi; injection Hi as ->.
    + induction t as [|a t IH]; [discriminate|]. cbn in *.
      destruct (has_pk pk i a) eqn:Ha.
      * rewrite (proj2 (has_pk_iff pk i r) E). reflexivity.
      * rewrite Ha. apply IH. exact Ex.
    + apply find_app_none; [|now apply has_pk_iff].
      intros x Hx. destruct (has_pk pk i x) eqn:Hp; [|reflexivity].
      assert (existsb (has_pk pk i) t = true) by (apply existsb_exists; eauto).
      congruence.
  - cbn [fst snd]. rewrite pk_set_pk. intros [= <-].
    apply find_app_none; [|apply has_pk_iff, pk_set_pk].
    intros x Hx. destruct (has_pk pk (next_id seq (map pk t)) x) eqn:Hp; [|reflexivity].
    apply has_pk_iff in Hp.
    assert (In (Some (next_id seq (map pk t))) (map pk t)) by (rewrite <- Hp; now apply in_map).
    apply (next_id_above seq) in H. lia.
Qed.

(** What the store accepts of a row. *)
Lemma refused_None (r : R) (fks : list Z) (t : list R) (seq : Z) :
  refused pk r fks t seq = None <->
  forallb in_int64 fks = true /\
  match pk r with
  | Some i => in_int64 i = true
  | None => in_int64 (next_id seq (map pk t)) = true
  end.
Proof.
  unfold refused. destruct (pk r) as [i|]; cbn [app forallb].
  - destruct (in_int64 i); cbn [andb negb]; [|intuition discriminate].
    destruct (forallb in_int64 fks); cbn [negb]; intuition discriminate.
  - destruct (forallb in_int64 fks); cbn [negb]; [|intuition discriminate].
    destruct (in_int64 (next_id seq (map pk t))); intuition discriminate.
Qed.
End TableSave.

(** A save that raises leaves everything as it was. *)
Lemma Channel_save_failure (w : World) (self : Channel) (e : exc) (w' : World) :
  Channel_save self w = (Raise e, w') -> w' = w.
Proof.
  unfold Channel_save, Model_save_Channel. cbv [bind ret lift py_super issubclass].
  destruct (refused _ _ _ _ _); [now intros [= _ <-]|].
  destruct (user_exists _ _ && existsb _ _).
  - destruct (table_save _ _ _ _ _). discriminate.
  - now intros [= _ <-].
Qed.




(** The write of the witness: "General" is stored as "general" under key
    2, next to the channel of key 1, and both names are without
    upper-case character. *)
Example Channel_save_example :
  let w := {| w_db := example_db_with_channel; w_storage := [] |} in
  exists saved w',
    Channel_save {| ch_id := None; ch_name := "General"; ch_owner := 1;
                    ch_topic := "talk"; ch_server := 2 |} w = (Ok saved, w') /\
    ch_name saved = "general" /\ ch_id saved = Some 2 /\
    map ch_id (server_channel (w_db w')) = [Some 1; Some 2] /\
    forallb (fun c => forallb (fun x => negb (is_uppercase x)) (ch_name c))
      (server_channel (w_db w')) = true.
Proof. cbv zeta. eexists. eexists. repeat split. Qed.
(* ===================================================================== *)
(** * Further properties *)
(* ===================================================================== *)

(** X2: [by_serverid], without [qty], with an integer value that is the
    id of a server passing the earlier stages (the keys of the store being
    64-bit integers): the request succeeds, the objects are exactly the
    servers passing the earlier stages that have this id, and under unique
    ids the answer is a list of one object. *)
Theorem by_serverid_finds
  (c : option (list ServerObj)) (db : Database) (q : QueryDict) (u : option Z)
  (s : string) (i : Z) :
  keys_in_range db ->
  QueryDict_get "by_serverid" q = Some s -> py_int s = Some i ->
  authorized (GET q u) -> absent "qty" (GET q u) ->
  (exists S, passes db (GET q u) S /\ s_id S = Some i) ->
  exists objs, objects c db (GET q u) = Ok objs /\
    (forall S, In S (map instance objs) <-> passes db (GET q u) S /\ s_id S = Some i) /\
    (NoDup (map s_id (server_server db)) -> List.length objs = 1%nat).
Proof.
  intros Hk Hs Hi Hu Hq Hex.
  assert (Hr : in_int64 i = true).
  { destruct Hex as (S0 & HS0 & Hid). apply (Hk S0 i); [|exact Hid].
    now apply (passes_lookups db q u S0 Hu) in HS0. }
  destruct (by_serverid_rows c db q u s i Hs Hi Hr Hu Hq Hex) as (objs & Ho & R).
  exists objs. split; [exact Ho|]. split; [exact R|]. intros Hn.
  assert (L : (List.length objs <= 1)%nat).
  { pose proof (objects_by_serverid c db q u s i Hs Hi Hu Hq) as Hc.
    cbv zeta in Hc. rewrite Ho, Hr in Hc.
    destruct (Nat.eqb _ 0) in Hc; [discriminate|]. injection Hc as Hc.
    rewrite Hc, length_run_query. apply (filter_unique_key s_id _ _ i Hn).
    intros x Hx. apply filter_In in Hx. apply (R x). rewrite Hc. now apply In_run_query. }
  destruct Hex as (S0 & HS0). apply R in HS0.
  destruct objs as [|o objs]; [destruct HS0|]. cbn [List.length] in *. lia.
Qed.

Lemma by_serverid_finds_witness :
  exists objs, objects None example_db (GET [("by_serverid", "2")] None) = Ok objs /\
    (forall S, In S (map instance objs) <->
       passes example_db (GET [("by_serverid", "2")] None) S /\ s_id S = Some 2) /\
    (NoDup (map s_id (server_server example_db)) -> List.length objs = 1%nat).
Proof.
  apply (by_serverid_finds None example_db [("by_serverid", "2")] None "2" 2);
    [ | reflexivity | reflexivity | discriminate | reflexivity |].
  - intros S i [<-|[<-|[<-|[]]]] [= <-]; reflexivity.
  - exists server_B. repeat split; [simpl; tauto | discriminate | discriminate].
Defined.

(** X3: a non-empty [qty] that [int()] refuses, or a negative one, ends
    the request in a [ValueError] (nothing in the view catches it at this
    stage), whatever the other parameters are, as long as the [by_user]
    stage has not raised before; the class attribute is as before. *)
Theorem invalid_qty_raises
  (c : option (list ServerObj)) (db : Database) (q : QueryDict) (u : option Z) (s : string) :
  QueryDict_get "qty" q = Some s -> s <> "" ->
  (py_int s = None \/ exists n, py_int s = Some n /\ n < 0) ->
  (flag (QueryDict_get "by_user" q) = true -> u <> None) ->
  ServerListViewSet_list (class_attribute c) db (GET q u) =
  (Raise ValueError, class_attribute c).
Proof.
  intros Hq Hne Hs. destruct s as [|a s]; [now destruct Hne|].
  params q. rewrite Hq.
  destruct (QueryDict_get "category" q) as [[|? ?]|],
           (flag (QueryDict_get "by_user" q)), u,
           (QueryDict_get "by_serverid" q) as [[|? ?]|],
           (flag (QueryDict_get "with_num_members" q)), c;
    intros Hu; try (now destruct Hu); run;
    (destruct Hs as [Hs|[n [Hs Hn]]]; rewrite Hs; run; [reflexivity|]);
    (destruct (Z.ltb_spec n 0); [reflexivity | lia]).
Qed.

Lemma invalid_qty_raises_witness :
  ServerListViewSet_list (class_attribute None) example_db (GET [("qty", "-1")] None) =
  (Raise ValueError, class_attribute None).
Proof.
  apply (invalid_qty_raises None example_db [("qty", "-1")] None "-1");
    [reflexivity | discriminate | right; exists (-1); split; [reflexivity | lia]
    | discriminate].
Defined.

Lemma not_in_int64 (z : Z) : in_int64 z = false -> ~ (- 2 ^ 63 <= z < 2 ^ 63).
Proof.
  intros H R. apply in_int64_iff in R. congruence.
Qed.

(** X5: the exceptions of the view.  A request that raises does so in one
    of six ways: [AuthenticationFailed], for [by_user=true] from an
    anonymous caller; [ValueError], for a [qty] that is no integer or is
    negative; the [ValidationError] naming the [by_serverid] value, and
    then [qty] is absent or empty; [TypeError] or [AttributeError], and
    then [qty] and [by_serverid] are both in use; [IntegrityError], for a
    [qty] of 2^63 or more, which the store refuses as a limit, and then
    [by_serverid] is absent or empty; [OverflowError], for an integer
    [by_serverid] that is not a 64-bit integer, which cannot be given to
    the store, and then [qty] is absent or empty. *)
Theorem exceptions_of_the_view
  (c : option (list ServerObj)) (db : Database) (q : QueryDict) (u : option Z) (e : exc) :
  response (class_attribute c) db (GET q u) = Raise e ->
  (e = AuthenticationFailed /\ flag (QueryDict_get "by_user" q) = true /\ u = None) \/
  (e = ValueError /\
   exists s, seen (QueryDict_get "qty" q) = Some s /\
     (py_int s = None \/ exists n, py_int s = Some n /\ n < 0)) \/
  (exists s, e = ValidationError (does_not_exist s) /\
     seen (QueryDict_get "by_serverid" q) = Some s /\
     seen (QueryDict_get "qty" q) = None) \/
  ((e = TypeError \/ e = AttributeError) /\
   seen (QueryDict_get "qty" q) <> None /\ seen (QueryDict_get "by_serverid" q) <> None) \/
  (e = IntegrityError /\
   (exists s n, seen (QueryDict_get "qty" q) = Some s /\ py_int s = Some n /\ 2 ^ 63 <= n) /\
   seen (QueryDict_get "by_serverid" q) = None) \/
  (e = OverflowError /\
   (exists s i, seen (QueryDict_get "by_serverid" q) = Some s /\ py_int s = Some i /\
      ~ (- 2 ^ 63 <= i < 2 ^ 63)) /\
   seen (QueryDict_get "qty" q) = None).
Proof.
  params q.
  destruct (QueryDict_get "category" q) as [[|? ?]|],
           (flag (QueryDict_get "by_user" q)), u,
           (QueryDict_get "qty" q) as [[|c1 s1]|],
           (QueryDict_get "by_serverid" q) as [[|c2 s2]|],
           (flag (QueryDict_get "with_num_members" q)), c;
    run;
    repeat match goal with
    | |- context [py_int ?s] => destruct (py_int s) as [?n|] eqn:?; run
    | |- context [?n <? 0] => destruct (Z.ltb_spec n 0); run
    | |- context [?n =? 0] => destruct (Z.eqb_spec n 0); run
    | |- context [in_int64 ?n] => destruct (in_int64 n) eqn:?; run
    | |- context [Nat.eqb (List.length ?l) 0] =>
        destruct (Nat.eqb (List.length l) 0); run
    end;
    intros Hr; try discriminate Hr; injection Hr as <-;
    cbn [seen truthy str_truthy];
    repeat match goal with
    | H : in_int64 _ = false |- _ => apply not_in_int64 in H
    end.
  all: first
    [ left; repeat split; reflexivity
    | right; left; split; [reflexivity|]; eexists; split; [reflexivity|];
      first [ left; assumption | right; eexists; split; [eassumption | lia] ]
    | right; right; left; eexists; repeat split; reflexivity
    | right; right; right; left; split; [tauto|]; split; discriminate
    | right; right; right; right; left; split; [reflexivity|]; split; [|reflexivity];
      eexists; eexists; split; [reflexivity|]; split; [eassumption | lia]
    | right; right; right; right; right; split; [reflexivity|]; split; [|reflexivity];
      eexists; eexists; split; [reflexivity|]; split; eassumption ].
Qed.

Lemma exceptions_of_the_view_witness :
  (IntegrityError = AuthenticationFailed /\
     flag (QueryDict_get "by_user" [("qty", "9223372036854775808")]) = true /\
     @None Z = None) \/
  (IntegrityError = ValueError /\
   exists s, seen (QueryDict_get "qty" [("qty", "9223372036854775808")]) = Some s /\
     (py_int s = None \/ exists n, py_int s = Some n /\ n < 0)) \/
  (exists s, IntegrityError = ValidationError (does_not_exist s) /\
     seen (QueryDict_get "by_serverid" [("qty", "9223372036854775808")]) = Some s /\
     seen (QueryDict_get "qty" [("qty", "9223372036854775808")]) = None) \/
  ((IntegrityError = TypeError \/ IntegrityError = AttributeError) /\
   seen (QueryDict_get "qty" [("qty", "9223372036854775808")]) <> None /\
   seen (QueryDict_get "by_serverid" [("qty", "9223372036854775808")]) <> None) \/
  (IntegrityError = IntegrityError /\
   (exists s n, seen (QueryDict_get "qty" [("qty", "9223372036854775808")]) = Some s /\
      py_int s = Some n /\ 2 ^ 63 <= n) /\
   seen (QueryDict_get "by_serverid" [("qty", "9223372036854775808")]) = None) \/
  (IntegrityError = OverflowError /\
   (exists s i, seen (QueryDict_get "by_serverid" [("qty", "9223372036854775808")]) = Some s /\
      py_int s = Some i /\ ~ (- 2 ^ 63 <= i < 2 ^ 63)) /\
   seen (QueryDict_get "qty" [("qty", "9223372036854775808")]) = None).
Proof.
  apply (exceptions_of_the_view None example_db [("qty", "9223372036854775808")] None
           IntegrityError).
  reflexivity.
Defined.

(** Each of the six is raised: by these requests to the example store. *)
Example exceptions_are_raised :
  response (class_attribute None) example_db (GET [("by_user", "true")] None) =
    Raise AuthenticationFailed /\
  response (class_attribute None) example_db (GET [("qty", "-1")] None) = Raise ValueError /\
  response (class_attribute None) example_db (GET [("by_serverid", "9")] None) =
    Raise (ValidationError (does_not_exist "9")) /\
  response (class_attribute None) example_db (GET [("qty", "1"); ("by_serverid", "1")] None) =
    Raise TypeError /\
  response (class_attribute None) example_db (GET [("qty", "9223372036854775808")] None) =
    Raise IntegrityError /\
  response (class_attribute None) example_db
    (GET [("by_serverid", "9223372036854775808")] None) = Raise OverflowError.
Proof. repeat split. Qed.

(** X6: the same request, sent again to the class as the first run left
    it and over the same tables, has the same outcome and leaves the
    class as the first run left it. *)
Theorem repeated_request
  (c : option (list ServerObj)) (db : Database) (q : QueryDict) (u : option Z) :
  ServerListViewSet_list (snd (ServerListViewSet_list (class_attribute c) db (GET q u)))
    db (GET q u) =
  ServerListViewSet_list (class_attribute c) db (GET q u).
Proof.
  params q.
  destruct (QueryDict_get "category" q) as [[|? ?]|],
           (flag (QueryDict_get "by_user" q)), u,
           (QueryDict_get "qty" q) as [[|c1 s1]|],
           (QueryDict_get "by_serverid" q) as [[|c2 s2]|],
           (flag (QueryDict_get "with_num_members" q)), c;
    run; by_cases; first [reflexivity | congruence].
Qed.

(** A request that switches no stage on runs as the request without
    parameters. *)
Lemma plain_request (db : Database) (q : QueryDict) (u : option Z) :
  plain (GET q u) -> list_ db (GET q u) = list_ db (GET [] u).
Proof.
  intros (H1 & H2 & H3 & H4 & H5). cbn [GET query_params] in *.
  apply list_congruence; [reflexivity| |]; intros k Hk; cbn [GET query_params];
    simpl in Hk; repeat (destruct Hk as [<-|Hk]; [assumption|]); destruct Hk.
Qed.

(** X7: the class attribute [queryset] is shared by all requests.  Once
    a request that switches no stage on has been answered over the tables
    [db1], the next such request is answered with the rows read from
    [db1], whatever the tables [db2] hold by then; only the channels are
    read from [db2]. *)
Theorem class_attribute_goes_stale
  (db1 db2 : Database) (q1 q2 : QueryDict) (u1 u2 : option Z) :
  plain (GET q1 u1) -> plain (GET q2 u2) ->
  let cls := snd (ServerListViewSet_list (class_attribute None) db1 (GET q1 u1)) in
  response cls db2 (GET q2 u2) =
  Ok (ServerSerializer_many db2 [("num_members", false)]
        (run_query db1 (query Server_objects_all))).
Proof.
  intros P1 P2. cbv zeta. unfold response, ServerListViewSet_list.
  rewrite (plain_request db1 q1 u1 P1), (plain_request db2 q2 u2 P2). reflexivity.
Qed.

Lemma class_attribute_goes_stale_witness :
  response (snd (ServerListViewSet_list (class_attribute None) example_db (GET [] None)))
    empty_db (GET [] None) =
  Ok (ServerSerializer_many empty_db [("num_members", false)]
        (run_query example_db (query Server_objects_all))).
Proof.
  apply (class_attribute_goes_stale example_db empty_db [] [] None None);
    repeat split.
Defined.

(** X1: without [qty] and [by_serverid], the objects of a request are the
    stored servers that satisfy the lookups of the [category] and
    [by_user] stages, each of them once, in the order in which the store
    gives the rows: they are exactly the servers that pass these stages.
    (A request that switches no stage on is answered from the class
    attribute, when that has been evaluated: see X7.) *)
Theorem stages_narrow_in_turn
  (c : option (list ServerObj)) (db : Database) (q : QueryDict) (u : option Z) :
  authorized (GET q u) -> absent "qty" (GET q u) -> absent "by_serverid" (GET q u) ->
  c = None \/ ~ plain (GET q u) ->
  exists objs,
    objects c db (GET q u) = Ok objs /\
    Permutation (map instance objs) (matching db (GET q u)) /\
    forall S, In S (map instance objs) <-> passes db (GET q u) S.
Proof.
  intros Hu Hq Hs Hc.
  exists (run_query db (stage_query (GET q u))). split; [|split].
  - rewrite (objects_unsliced c db q u Hu Hq Hs).
    destruct Hc as [->|Hc]; [reflexivity|]. destruct c as [rows|]; [|reflexivity].
    destruct (seen (QueryDict_get "category" q)) eqn:E1,
             (flag (QueryDict_get "by_user" q)) eqn:E2,
             (flag (QueryDict_get "with_num_members" q)) eqn:E3; try reflexivity.
    exfalso. apply Hc. unfold plain, absent in *. cbn [GET query_params] in *.
    repeat split; try assumption.
    + unfold seen. now rewrite Hq.
    + unfold seen. now rewrite Hs.
  - unfold stage_query. rewrite run_query_instances. apply Permutation_sort_by.
  - intros S. unfold stage_query. rewrite In_run_query.
    symmetry. now apply passes_lookups.
Qed.

Lemma stages_narrow_in_turn_witness :
  exists objs,
    objects None example_db (GET [("category", "gaming"); ("by_user", "true")] (Some 1))
      = Ok objs /\
    Permutation (map instance objs)
      (matching example_db (GET [("category", "gaming"); ("by_user", "true")] (Some 1))) /\
    forall S, In S (map instance objs) <->
      passes example_db (GET [("category", "gaming"); ("by_user", "true")] (Some 1)) S.
Proof.
  apply (stages_narrow_in_turn None example_db
           [("category", "gaming"); ("by_user", "true")] (Some 1));
    [discriminate | reflexivity | reflexivity | left; reflexivity].
Defined.

(** The order of the rows is the store's: for the members of user 1 a
    store that gives the rows of a query on [member] in the order of the
    membership table answers with server C before server A. *)
Example by_user_order :
  let db := {| account_account := account_account example_db;
               server_category := server_category example_db;
               server_server := server_server example_db;
               server_server_member := server_server_member example_db;
               server_channel := [];
               seq_category := 2; seq_server := 3; seq_channel := 0;
               row_order := fun Q S =>
                 match first_member (where_ Q), s_id S with
                 | Some _, Some 3 => 0
                 | _, _ => by_key s_id S
                 end |} in
  option_map (map (fun o => s_name (instance o)))
    (match objects None db (GET [("by_user", "true")] (Some 1)) with
     | Ok objs => Some objs
     | Raise _ => None
     end) = Some ["C"; "A"] /\
  option_map (map (fun o => s_name (instance o)))
    (match objects None db (GET [] (Some 1)) with
     | Ok objs => Some objs
     | Raise _ => None
     end) = Some ["A"; "B"; "C"].
Proof. split; reflexivity. Qed.

(** X9: every object of a response has the same keys in the same order:
    the model's fields without [member], which the serializer excludes,
    with [channel_server], and with [num_members] exactly when the request
    has [with_num_members=true]. *)
Theorem response_keys
  (c : option (list ServerObj)) (db : Database) (request : Request)
  (l : list JObject) (o : JObject) :
  response (class_attribute c) db request = Ok l -> In o l ->
  map fst o = server_keys (with_num_members request) /\ has_key "member" o = false.
Proof.
  rewrite response_objects. destruct (objects c db request) as [objs|e]; [|discriminate].
  intros [= <-] Ho. unfold ServerSerializer_many in Ho. apply in_map_iff in Ho.
  destruct Ho as [obj [<- _]].
  unfold to_representation, serializer_context, with_num_members.
  destruct (opt_str_eqb _ _); split; reflexivity.
Qed.

Lemma response_keys_witness :
  map fst (to_representation example_db [("num_members", true)]
             {| instance := server_B; attr_num_members := Some 0 |}) =
    server_keys (with_num_members (GET [("with_num_members", "true"); ("category", "gaming")] None)) /\
  has_key "member" (to_representation example_db [("num_members", true)]
                      {| instance := server_B; attr_num_members := Some 0 |}) = false.
Proof.
  apply (response_keys None example_db
           (GET [("with_num_members", "true"); ("category", "gaming")] None)
           (ServerSerializer_many example_db [("num_members", true)]
              [{| instance := server_A; attr_num_members := Some 2 |};
               {| instance := server_B; attr_num_members := Some 0 |}]));
    [reflexivity | right; left; reflexivity].
Defined.

(** The representation of one object, field by field. *)
Lemma to_representation_fields (db : Database) (ctx : Context) (obj : ServerObj) :
  let o := to_representation db ctx obj in
  dict_get "id" o = Some (opt_int (s_id (instance obj))) /\
  dict_get "name" o = Some (JStr (s_name (instance obj))) /\
  dict_get "owner" o = Some (JInt (s_owner (instance obj))) /\
  dict_get "category" o = Some (JInt (s_category (instance obj))) /\
  dict_get "channel_server" o =
    Some (JList (map ChannelSerializer_to_representation
                   (channel_server db (instance obj)))).
Proof.
  unfold to_representation. destruct (negb _); repeat split.
Qed.

(** The channels under the related name [channel_server]. *)
Lemma In_channel_server (db : Database) (S : Server) (ch : Channel) :
  In ch (channel_server db S) <->
  In ch (server_channel db) /\ s_id S = Some (ch_server ch).
Proof. unfold channel_server. rewrite In_sort_by, filter_In, has_pk_iff. tauto. Qed.

(** X10: the entry [channel_server] of an object of a response lists the
    stored channels whose server is the object's server, each with the
    object's id as its [server]. *)
Theorem channels_are_listed_under_their_server
  (c : option (list ServerObj)) (db : Database) (request : Request)
  (l : list JObject) (o : JObject) :
  response (class_attribute c) db request = Ok l -> In o l ->
  exists S chans,
    dict_get "id" o = Some (opt_int (s_id S)) /\
    dict_get "channel_server" o =
      Some (JList (map ChannelSerializer_to_representation chans)) /\
    (forall ch, In ch chans <-> In ch (server_channel db) /\ s_id S = Some (ch_server ch)) /\
    (forall ch, In ch chans ->
       dict_get "server" (ChannelSerializer_to_representation ch) = dict_get "id" o).
Proof.
  rewrite response_objects. destruct (objects c db request) as [objs|e]; [|discriminate].
  intros [= <-] Ho. unfold ServerSerializer_many in Ho. apply in_map_iff in Ho.
  destruct Ho as [obj [<- _]].
  destruct (to_representation_fields db (serializer_context request) obj)
    as (Fid & _ & _ & _ & Fch).
  exists (instance obj), (channel_server db (instance obj)).
  split; [exact Fid|]. split; [exact Fch|]. split; [apply In_channel_server|].
  intros ch Hch. apply In_channel_server in Hch. destruct Hch as [_ Hk].
  rewrite Fid, Hk. reflexivity.
Qed.

Lemma channels_are_listed_under_their_server_witness :
  let o := to_representation example_db_with_channel [("num_members", false)]
             {| instance := server_B; attr_num_members := None |} in
  exists S chans,
    dict_get "id" o = Some (opt_int (s_id S)) /\
    dict_get "channel_server" o =
      Some (JList (map ChannelSerializer_to_representation chans)) /\
    (forall ch, In ch chans <->
       In ch (server_channel example_db_with_channel) /\ s_id S = Some (ch_server ch)) /\
    (forall ch, In ch chans ->
       dict_get "server" (ChannelSerializer_to_representation ch) = dict_get "id" o).
Proof.
  cbv zeta.
  apply (channels_are_listed_under_their_server None example_db_with_channel
           (GET [("by_serverid", "2")] None)
           [to_representation example_db_with_channel [("num_members", false)]
              {| instance := server_B; attr_num_members := None |}]);
    [reflexivity | left; reflexivity].
Defined.

(** Instances of three lemmas stated above. *)
Lemma filter_on_slice_witness :
  response (class_attribute None) example_db
    (GET [("qty", "2"); ("by_serverid", "1")] None) = Raise TypeError \/
  response (class_attribute None) example_db
    (GET [("qty", "2"); ("by_serverid", "1")] None) = Raise AttributeError.
Proof.
  apply (filter_on_slice None example_db [("qty", "2"); ("by_serverid", "1")] None "2" "1" 2);
    [reflexivity | reflexivity | lia | reflexivity | discriminate | discriminate].
Defined.

Lemma example_members_NoDup : NoDup (server_server_member example_db).
Proof.
  repeat constructor; simpl; intros H;
    repeat (destruct H as [H|H]; [discriminate H|]); exact H.
Qed.

Lemma num_members_without_by_user_witness :
  attr_num_members {| instance := server_A; attr_num_members := Some 2 |} =
  Some (Z.of_nat (List.length (members example_db
          (instance {| instance := server_A; attr_num_members := Some 2 |})))).
Proof.
  apply (num_members_without_by_user None example_db [("with_num_members", "true")] None
           [{| instance := server_A; attr_num_members := Some 2 |};
            {| instance := server_B; attr_num_members := Some 0 |};
            {| instance := server_C; attr_num_members := Some 1 |}]
           {| instance := server_A; attr_num_members := Some 2 |});
    [exact example_members_NoDup | reflexivity | reflexivity | reflexivity
    | left; reflexivity].
Defined.

Lemma num_members_after_by_user_witness :
  attr_num_members {| instance := server_A; attr_num_members := Some 1 |} = Some 1.
Proof.
  apply (num_members_after_by_user None example_db
           [("by_user", "true"); ("with_num_members", "true")] 1
           [{| instance := server_A; attr_num_members := Some 1 |};
            {| instance := server_C; attr_num_members := Some 1 |}]
           {| instance := server_A; attr_num_members := Some 1 |});
    [exact example_members_NoDup | reflexivity | reflexivity | reflexivity
    | left; reflexivity].
Defined.

(** ** [save] and [delete] of the models *)

Lemma In_storage_delete (name f : string) (st : Storage) :
  In f (storage_delete name st) <-> In f st /\ f <> name.
Proof.
  unfold storage_delete. rewrite filter_In, negb_true_iff, String.eqb_neq. tauto.
Qed.

Lemma opt_str_eqb_eq (a b : option string) : opt_str_eqb a b = true <-> a = b.
Proof.
  destruct a as [x|], b as [y|]; cbn; try (split; congruence).
  rewrite String.eqb_eq. split; congruence.
Qed.

Lemma FieldFile_ne_iff (a b : FieldFile) : FieldFile_ne a b = true <-> a <> b.
Proof.
  unfold FieldFile_ne. rewrite negb_true_iff, <- not_true_iff_false, opt_str_eqb_eq. tauto.
Qed.

Lemma int_truthy_Some (i : Z) : i <> 0 -> int_truthy (Some i) = true.
Proof. intros H. cbn. now apply negb_true_iff, Z.eqb_neq. Qed.

(** More on [table_save]. *)
Section TableSaveMore.
Variable R : Type.
Variable pk : R -> option Z.
Variable set_pk : Z -> R -> R.
Hypothesis pk_set_pk : forall i r, pk (set_pk i r) = Some i.

Lemma table_save_saved_In (r : R) (t : list R) (seq : Z) :
  In (fst (table_save pk set_pk r t seq)) (snd (table_save pk set_pk r t seq)).
Proof.
  unfold table_save. destruct (pk r) as [i|] eqn:E.
  - destruct (existsb (has_pk pk i) t) eqn:Ex; cbn.
    + apply existsb_exists in Ex. destruct Ex as [x [Hx Hp]].
      apply in_map_iff. exists x. now rewrite Hp.
    + apply in_app_iff. right. now left.
  - cbn. apply in_app_iff. right. now left.
Qed.

Lemma table_save_keys (r : R) (t : list R) (seq : Z) (k : Z) :
  existsb (has_pk pk k) t = true ->
  existsb (has_pk pk k) (snd (table_save pk set_pk r t seq)) = true.
Proof.
  intros H. apply existsb_exists in H. destruct H as [x [Hx Hp]].
  apply existsb_exists. unfold table_save. destruct (pk r) as [i|] eqn:E.
  - destruct (existsb (has_pk pk i) t); cbn.
    + destruct (has_pk pk i x) eqn:Hi.
      * exists r. split; [apply in_map_iff; exists x; now rewrite Hi|].
        apply has_pk_iff in Hi, Hp. apply has_pk_iff. congruence.
      * exists x. split; [apply in_map_iff; exists x; now rewrite Hi | exact Hp].
    + exists x. split; [apply in_app_iff; now left | exact Hp].
  - cbn. exists x. split; [apply in_app_iff; now left | exact Hp].
Qed.

Lemma find_app_skip (f : R -> bool) (t : list R) (r : R) :
  f r = false -> find f (t ++ [r]) = find f t.
Proof.
  intros Hr. induction t as [|a t IH]; cbn; [now rewrite Hr|].
  destruct (f a); [reflexivity | exact IH].
Qed.

(** Other keys read as before. *)
Lemma table_save_other (r : R) (t : list R) (seq : Z) (j : Z) :
  pk (fst (table_save pk set_pk r t seq)) <> Some j ->
  find (has_pk pk j) (snd (table_save pk set_pk r t seq)) = find (has_pk pk j) t.
Proof.
  unfold table_save. destruct (pk r) as [i|] eqn:E.
  - destruct (existsb (has_pk pk i) t); cbn; intros Hj.
    + induction t as [|a t IH]; [reflexivity|]. cbn.
      destruct (has_pk pk i a) eqn:Ha.
      * assert (has_pk pk j r = false) as ->.
        { apply not_true_iff_false. rewrite has_pk_iff. exact Hj. }
        assert (has_pk pk j a = false) as ->.
        { apply not_true_iff_false. rewrite has_pk_iff. apply has_pk_iff in Ha. congruence. }
        exact IH.
      * destruct (has_pk pk j a); [reflexivity | exact IH].
    + apply find_app_skip. apply not_true_iff_false. now rewrite has_pk_iff.
  - cbn [fst snd]. intros Hj. apply find_app_skip.
    apply not_true_iff_false. now rewrite has_pk_iff.
Qed.

(** The rows under the key of the saved instance are the saved instance. *)
Lemma table_save_rows (r : R) (t : list R) (seq : Z) (x : R) :
  In x (snd (table_save pk set_pk r t seq)) ->
  pk x = pk (fst (table_save pk set_pk r t seq)) ->
  x = fst (table_save pk set_pk r t seq).
Proof.
  unfold table_save. destruct (pk r) as [i|] eqn:E.
  - destruct (existsb (has_pk pk i) t) eqn:Ex; cbn; intros Hx Hp.
    + apply in_map_iff in Hx. destruct Hx as [y [<- Hy]].
      destruct (has_pk pk i y) eqn:Hi; [reflexivity|].
      rewrite E in Hp. apply has_pk_iff in Hp. congruence.
    + apply in_app_iff in Hx. destruct Hx as [Hx|[<-|[]]]; [|reflexivity].
      exfalso. rewrite E in Hp. apply has_pk_iff in Hp.
      assert (existsb (has_pk pk i) t = true) by (apply existsb_exists; eauto). congruence.
  - cbn [fst snd]. intros Hx Hp. apply in_app_iff in Hx.
    destruct Hx as [Hx|[<-|[]]]; [|reflexivity].
    exfalso. rewrite pk_set_pk in Hp.
    assert (In (Some (next_id seq (map pk t))) (map pk t)) by (rewrite <- Hp; now apply in_map).
    apply (next_id_above seq) in H. lia.
Qed.

(** Saving the saved instance again changes nothing, whatever the
    sequence of the table is by then. *)
Lemma table_save_again (r : R) (t : list R) (seq seq' : Z) :
  let (r', t') := table_save pk set_pk r t seq in
  table_save pk set_pk r' t' seq' = (r', t') /\ table_seq pk r' t' seq' = seq'.
Proof.
  pose proof (table_save_pk R pk set_pk pk_set_pk r t seq) as [i Hi].
  pose proof (table_save_saved_In r t seq) as Hin.
  pose proof (fun x => table_save_rows r t seq x) as Hrows.
  destruct (table_save pk set_pk r t seq) as [r' t']. cbn [fst snd] in *.
  unfold table_save, table_seq. rewrite Hi.
  assert (existsb (has_pk pk i) t' = true) as ->.
  { apply existsb_exists. exists r'. split; [exact Hin | now apply has_pk_iff]. }
  split; [|reflexivity].
  f_equal. rewrite <- (map_id t') at 2. apply map_ext_in. intros x Hx.
  destruct (has_pk pk i x) eqn:Hp; [|reflexivity].
  apply has_pk_iff in Hp. symmetry. apply Hrows; congruence.
Qed.

(** The sequence of a table does not go down, and is not below the key
    of a row that has been written. *)
Lemma table_seq_grows (r : R) (t : list R) (seq : Z) :
  seq <= table_seq pk r t seq.
Proof.
  unfold table_seq. destruct (pk r) as [i|].
  - destruct (existsb (has_pk pk i) t); lia.
  - pose proof (next_id_above_seq seq (map pk t)). lia.
Qed.
End TableSaveMore.

(** X14: [Server.save] on a stored server whose icon differs from the
    stored one deletes the stored icon file and raises; the row is as it
    was, so it refers to a file that the storage no longer has. *)
Theorem Server_save_leaves_dangling_file
  (self existing : Server) (w : World) (i : Z) (name : string) :
  s_id self = Some i -> i <> 0 ->
  find (has_pk s_id i) (server_server (w_db w)) = Some existing ->
  s_icon existing = Some name -> name <> "" -> s_icon self <> Some name ->
  exists w', Server_save self w = (Raise TypeError, w') /\
    find (has_pk s_id i) (server_server (w_db w')) = Some existing /\
    s_icon existing = Some name /\
    (forall f, In f (w_storage w') -> In f (w_storage w) /\ f <> name).
Proof.
  intros Hid Hi Hf Hic Hne Hch.
  unfold Server_save, if_id, get_object_or_404, FieldFile_delete.
  cbv [bind ret lift modify py_super issubclass].
  rewrite Hid, (int_truthy_Some i Hi), Hf, Hic.
  assert (FieldFile_ne (Some name) (s_icon self) = true) as ->
    by (apply FieldFile_ne_iff; congruence).
  destruct name as [|a name]; [now destruct Hne|]. cbn [str_truthy].
  destruct (FieldFile_ne (s_banner existing) (s_banner self)),
           (s_banner existing) as [[|? ?]|]; cbn;
    eexists; (split; [reflexivity|]); cbn; (split; [exact Hf|]);
    (split; [reflexivity|]); intros f Hin;
    repeat (apply In_storage_delete in Hin; destruct Hin as [Hin ?]); auto.
Qed.

Lemma Server_save_leaves_dangling_file_witness :
  exists w',
    Server_save {| s_id := Some 1; s_name := "A"; s_owner := 1; s_category := 1;
                   s_description := None; s_banner := None; s_icon := None |}
      example_world = (Raise TypeError, w') /\
    find (has_pk s_id 1) (server_server (w_db w')) = Some server_A /\
    s_icon server_A = Some "server/1/server_icon/a.png" /\
    (forall f, In f (w_storage w') ->
       In f (w_storage example_world) /\ f <> "server/1/server_icon/a.png").
Proof.
  apply (Server_save_leaves_dangling_file
           {| s_id := Some 1; s_name := "A"; s_owner := 1; s_category := 1;
              s_description := None; s_banner := None; s_icon := None |}
           server_A example_world 1 "server/1/server_icon/a.png");
    [reflexivity | lia | reflexivity | reflexivity | discriminate | discriminate].
Defined.

Lemma Category_set_id_pk (i : Z) (r : Category) : c_id (Category_set_id i r) = Some i.
Proof. reflexivity. Qed.

Lemma Channel_set_id_pk (i : Z) (r : Channel) : ch_id (Channel_set_id i r) = Some i.
Proof. reflexivity. Qed.




Lemma Category_row_id (self : Category) : c_id (Category_row self) = c_id self.
Proof. reflexivity. Qed.

Lemma find_key_in {R} (pk : R -> option Z) (t : list R) (i : Z) (r : R) :
  find (has_pk pk i) t = Some r -> existsb (has_pk pk i) t = true.
Proof.
  intros H. apply find_some in H. apply existsb_exists. now exists r.
Qed.

(** The files that are left when the icons have been compared. *)
Lemma In_icons_compared (existing self : Category) (st : Storage) (f : string) :
  In f (icons_compared existing self st) <->
  In f st /\ (f = "" \/ c_icon existing <> Some f \/ c_icon self = Some f).
Proof.
  unfold icons_compared.
  destruct (c_icon existing) as [name|] eqn:Hic;
    [|split; [intros H; split; [exact H|]; right; left; discriminate | tauto]].
  destruct (FieldFile_ne (Some name) (c_icon self)) eqn:Hne; cbn [andb].
  - destruct name as [|a name]; cbn [str_truthy].
    + split; [intros H; split; [exact H|] | tauto].
      destruct (string_dec f ""); [now left | right; left; congruence].
    + rewrite In_storage_delete. apply FieldFile_ne_iff in Hne. split.
      * intros [H1 H2]. split; [exact H1|]. right. left. congruence.
      * intros [H1 [H2|[H2|H2]]]; split; try exact H1.
        -- subst f. discriminate.
        -- congruence.
        -- intros ->. apply Hne. now rewrite H2.
  - split; [intros H; split; [exact H|] | tauto].
    apply not_true_iff_false in Hne. rewrite FieldFile_ne_iff in Hne.
    destruct (string_dec name f) as [->|Hgf]; [|right; left; congruence].
    right. right. destruct (c_icon self) as [h|] eqn:Hs.
    + destruct (string_dec f h) as [->|]; [reflexivity|].
      exfalso. apply Hne. congruence.
    + exfalso. apply Hne. discriminate.
Qed.

(** The comparison of [Category.save], run. *)
Lemma icons_compared_run (existing self : Category) (db : Database) (st : Storage) :
  (when (FieldFile_ne (c_icon existing) (c_icon self)) then
     FieldFile_delete (c_icon existing))%py {| w_db := db; w_storage := st |} =
  (Ok tt, {| w_db := db; w_storage := icons_compared existing self st |}).
Proof.
  unfold icons_compared, FieldFile_delete. cbv [ret modify].
  destruct (FieldFile_ne (c_icon existing) (c_icon self));
    destruct (c_icon existing) as [[|a name]|]; reflexivity.
Qed.

(** Writing the row of an instance that carries a stored key. *)
Lemma Category_save_table_update (self existing : Category) (w : World) (i : Z) :
  c_id self = Some i -> in_int64 i = true ->
  find (has_pk c_id i) (server_category (w_db w)) = Some existing ->
  exists w',
    Category_save_table self w = (Ok self, w') /\
    find (has_pk c_id i) (server_category (w_db w')) = Some (Category_row self) /\
    (forall j, j <> i ->
       find (has_pk c_id j) (server_category (w_db w')) =
       find (has_pk c_id j) (server_category (w_db w))) /\
    server_server (w_db w') = server_server (w_db w) /\
    server_channel (w_db w') = server_channel (w_db w) /\
    server_server_member (w_db w') = server_server_member (w_db w) /\
    seq_category (w_db w') = seq_category (w_db w) /\
    w_storage w' = w_storage w.
Proof.
  intros Hid Hr Hf.
  pose proof (table_save_find Category c_id Category_set_id Category_set_id_pk
                (Category_row self) (server_category (w_db w)) (seq_category (w_db w)) i)
    as Hfind.
  pose proof (table_save_other Category c_id Category_set_id (Category_row self)
                (server_category (w_db w)) (seq_category (w_db w))) as Hother.
  assert (Hfst : fst (table_save c_id Category_set_id (Category_row self)
                        (server_category (w_db w)) (seq_category (w_db w)))
                 = Category_row self).
  { unfold table_save. rewrite Category_row_id, Hid. destruct (existsb _ _); reflexivity. }
  unfold Category_save_table.
  assert (refused c_id self [] (server_category (w_db w)) (seq_category (w_db w)) = None)
    as -> by (apply refused_None; rewrite Hid; auto).
  assert (table_seq c_id (Category_row self) (server_category (w_db w))
            (seq_category (w_db w)) = seq_category (w_db w)) as ->.
  { unfold table_seq. rewrite Category_row_id, Hid. now rewrite (find_key_in _ _ _ _ Hf). }
  destruct (table_save c_id Category_set_id (Category_row self) (server_category (w_db w))
              (seq_category (w_db w))) as [r t].
  cbn [fst snd] in *. subst r. rewrite Category_row_id.
  eexists. split; [destruct self; reflexivity|].
  cbn [w_db w_storage set_server_category server_category server_server server_channel
    server_server_member seq_category].
  split; [apply Hfind; now rewrite Category_row_id|].
  split; [intros j Hj; apply Hother; rewrite Category_row_id, Hid; congruence|].
  repeat split.
Qed.

(** X16: [Category.save] of an instance that carries the id of a stored
    category.  The stored icon file is deleted when the icon of the
    instance has another name.  A file of the instance that is not stored
    yet is stored, under the name that the storage makes of
    [category/<id>/category_icon/<filename>], and the instance holds that
    name.  The row of the id is replaced by the row of the instance, with
    the empty string for an icon without file; the other rows and tables
    are as before. *)
Theorem Category_save_update
  (storage : FileSystemStorage) (self existing : Category) (w : World) (i : Z) :
  c_id self = Some i -> i <> 0 -> in_int64 i = true ->
  find (has_pk c_id i) (server_category (w_db w)) = Some existing ->
  let kept := icons_compared existing self (w_storage w) in
  (forall f, uncommitted (c_icon self) (c_icon_committed self) = Some f ->
     storage kept (category_icon_upload_path self f) <> None) ->
  exists saved w',
    Category_save storage self w = (Ok saved, w') /\
    find (has_pk c_id i) (server_category (w_db w')) = Some (Category_row saved) /\
    (forall j, j <> i ->
       find (has_pk c_id j) (server_category (w_db w')) =
       find (has_pk c_id j) (server_category (w_db w))) /\
    server_server (w_db w') = server_server (w_db w) /\
    server_channel (w_db w') = server_channel (w_db w) /\
    server_server_member (w_db w') = server_server_member (w_db w) /\
    (forall f, In f kept <->
       In f (w_storage w) /\
       (f = "" \/ c_icon existing <> Some f \/ c_icon self = Some f)) /\
    match uncommitted (c_icon self) (c_icon_committed self) with
    | None => saved = self /\ w_storage w' = kept
    | Some f =>
        exists name,
          storage kept ("category/" ++ str_of_int i ++ "/category_icon/" ++ f)%string
            = Some name /\
          saved = Category_set_icon (Some name) self /\
          w_storage w' = kept ++ [name]
    end.
Proof.
  intros Hid Hi Hr Hf kept Hst.
  unfold Category_save, if_id, get_object_or_404, Model_save_Category, pre_save_icon.
  destruct w as [db st]. cbn [w_db w_storage] in *.
  cbv [bind lift py_super issubclass]. cbn [w_db].
  rewrite Hid, (int_truthy_Some i Hi). cbn [w_db]. rewrite Hf.
  rewrite icons_compared_run. fold kept. cbn [w_storage w_db].
  assert (Hpath : forall f, category_icon_upload_path self f =
                    ("category/" ++ str_of_int i ++ "/category_icon/" ++ f)%string)
    by (intros f; unfold category_icon_upload_path; now rewrite Hid).
  destruct (uncommitted (c_icon self) (c_icon_committed self)) as [f|] eqn:Hun.
  - specialize (Hst f eq_refl). rewrite Hpath in *.
    destruct (storage kept _) as [name|] eqn:Hname; [|now destruct Hst].
    destruct (Category_save_table_update (Category_set_icon (Some name) self) existing
                {| w_db := db; w_storage := kept ++ [name] |} i Hid Hr Hf)
      as (w' & E & F1 & F2 & F3 & F4 & F5 & _ & F7).
    rewrite E. eexists. exists w'. split; [reflexivity|].
    repeat (split; [assumption|]).
    split; [intros g; apply In_icons_compared|].
    exists name. repeat split. exact F7.
  - destruct (Category_save_table_update self existing
                {| w_db := db; w_storage := kept |} i Hid Hr Hf)
      as (w' & E & F1 & F2 & F3 & F4 & F5 & _ & F7).
    cbv [ret]. rewrite E. exists self, w'. split; [reflexivity|].
    repeat (split; [assumption|]).
    split; [intros g; apply In_icons_compared|].
    split; [reflexivity | exact F7].
Qed.

Lemma Category_save_update_witness :
  exists saved w',
    Category_save example_storage games_upload example_world = (Ok saved, w') /\
    find (has_pk c_id 1) (server_category (w_db w')) = Some (Category_row saved) /\
    (forall j, j <> 1 ->
       find (has_pk c_id j) (server_category (w_db w')) =
       find (has_pk c_id j) (server_category (w_db example_world))) /\
    server_server (w_db w') = server_server (w_db example_world) /\
    server_channel (w_db w') = server_channel (w_db example_world) /\
    server_server_member (w_db w') = server_server_member (w_db example_world) /\
    (forall f, In f (icons_compared gaming games_upload (w_storage example_world)) <->
       In f (w_storage example_world) /\
       (f = "" \/ c_icon gaming <> Some f \/ c_icon games_upload = Some f)) /\
    exists name,
      example_storage (icons_compared gaming games_upload (w_storage example_world))
        "category/1/category_icon/g.png" = Some name /\
      saved = Category_set_icon (Some name) games_upload /\
      w_storage w' =
        icons_compared gaming games_upload (w_storage example_world) ++ [name].
Proof.
  apply (Category_save_update example_storage games_upload gaming example_world 1);
    [reflexivity | lia | reflexivity | reflexivity |].
  intros f [= <-]. discriminate.
Defined.

(** The update of the witness: the uploaded "g.png" is stored under the
    directory of the category, and the row and the instance hold that
    name.  An update that brings another upload then deletes that file and
    stores the new one. *)
Example Category_save_update_example :
  exists w' w'',
    Category_save example_storage games_upload example_world =
      (Ok (Category_set_icon (Some "category/1/category_icon/g.png") games_upload), w') /\
    w_storage w' = ["server/1/server_icon/a.png"; "category/1/category_icon/g.png"] /\
    option_map c_icon (find (has_pk c_id 1) (server_category (w_db w'))) =
      Some (Some "category/1/category_icon/g.png") /\
    Category_save example_storage
      {| c_id := Some 1; c_name := "games"; c_description := None; c_icon := Some "h.png";
         c_icon_committed := false |} w' =
      (Ok {| c_id := Some 1; c_name := "games"; c_description := None;
             c_icon := Some "category/1/category_icon/h.png";
             c_icon_committed := true |}, w'') /\
    w_storage w'' = ["server/1/server_icon/a.png"; "category/1/category_icon/h.png"].
Proof. eexists. eexists. repeat split. Qed.

Lemma next_id_fresh {R} (pk : R -> option Z) (t : list R) (seq : Z) :
  key_in pk t (next_id seq (map pk t)) = false.
Proof.
  unfold key_in. apply not_true_iff_false. intros H.
  apply existsb_exists in H. destruct H as [x [Hx Hp]]. apply has_pk_iff in Hp.
  assert (In (Some (next_id seq (map pk t))) (map pk t)) by (rewrite <- Hp; now apply in_map).
  apply (next_id_above seq) in H. lia.
Qed.

(** Writing the row of an instance without key. *)
Lemma Category_save_table_insert (self : Category) (w : World) :
  c_id self = None ->
  let i := next_id (seq_category (w_db w)) (map c_id (server_category (w_db w))) in
  in_int64 i = true ->
  exists w',
    Category_save_table self w = (Ok (Category_set_id i self), w') /\
    server_category (w_db w') =
      server_category (w_db w) ++ [Category_row (Category_set_id i self)] /\
    seq_category (w_db w') = i /\
    server_server (w_db w') = server_server (w_db w) /\
    server_channel (w_db w') = server_channel (w_db w) /\
    server_server_member (w_db w') = server_server_member (w_db w) /\
    w_storage w' = w_storage w.
Proof.
  intros Hid i Hr. unfold Category_save_table.
  assert (refused c_id self [] (server_category (w_db w)) (seq_category (w_db w)) = None)
    as -> by (apply refused_None; rewrite Hid; auto).
  unfold table_save, table_seq. rewrite Category_row_id, Hid. fold i.
  eexists. split; [destruct self; cbn in *; subst; reflexivity|].
  cbn [w_db w_storage set_server_category server_category server_server server_channel
    server_server_member seq_category].
  repeat split.
Qed.

(** X17: [Category.save] of an instance without id.  A file of the
    instance that is not stored yet is stored, under the name that the
    storage makes of [category/None/category_icon/<filename>] (the
    instance has no id when the name is made).  The row of the instance is
    appended, with the empty string for an icon without file, under the
    key that follows the largest key that the table holds or has held: a
    key that no stored category has and that is above the sequence of the
    table, which it becomes. *)
Theorem Category_save_insert (storage : FileSystemStorage) (self : Category) (w : World) :
  c_id self = None ->
  let i := next_id (seq_category (w_db w)) (map c_id (server_category (w_db w))) in
  in_int64 i = true ->
  (forall f, uncommitted (c_icon self) (c_icon_committed self) = Some f ->
     storage (w_storage w) (category_icon_upload_path self f) <> None) ->
  exists saved w',
    Category_save storage self w = (Ok (Category_set_id i saved), w') /\
    key_in c_id (server_category (w_db w)) i = false /\
    seq_category (w_db w) < i /\
    server_category (w_db w') =
      server_category (w_db w) ++ [Category_row (Category_set_id i saved)] /\
    seq_category (w_db w') = i /\
    server_server (w_db w') = server_server (w_db w) /\
    server_channel (w_db w') = server_channel (w_db w) /\
    server_server_member (w_db w') = server_server_member (w_db w) /\
    match uncommitted (c_icon self) (c_icon_committed self) with
    | None => saved = self /\ w_storage w' = w_storage w
    | Some f =>
        exists name,
          storage (w_storage w) ("category/None/category_icon/" ++ f)%string = Some name /\
          saved = Category_set_icon (Some name) self /\
          w_storage w' = w_storage w ++ [name]
    end.
Proof.
  intros Hid i Hr Hst.
  unfold Category_save, if_id, Model_save_Category, pre_save_icon.
  cbv [bind ret lift py_super issubclass]. rewrite Hid.
  assert (Hpath : forall f, category_icon_upload_path self f =
                    ("category/None/category_icon/" ++ f)%string)
    by (intros f; unfold category_icon_upload_path; now rewrite Hid).
  destruct (uncommitted (c_icon self) (c_icon_committed self)) as [f|] eqn:Hun.
  - specialize (Hst f eq_refl). rewrite Hpath in *.
    destruct (storage (w_storage w) _) as [name|] eqn:Hname; [|now destruct Hst].
    destruct (Category_save_table_insert (Category_set_icon (Some name) self)
                {| w_db := w_db w; w_storage := w_storage w ++ [name] |} Hid Hr)
      as (w' & E & F1 & F2 & F3 & F4 & F5 & F6).
    cbn [w_db] in E. fold i in E. rewrite E.
    exists (Category_set_icon (Some name) self), w'. split; [reflexivity|].
    split; [apply next_id_fresh|]. split; [apply next_id_above_seq|].
    repeat (split; [assumption|]).
    exists name. repeat split. exact F6.
  - destruct (Category_save_table_insert self w Hid Hr)
      as (w' & E & F1 & F2 & F3 & F4 & F5 & F6).
    fold i in E. rewrite E. exists self, w'. split; [reflexivity|].
    split; [apply next_id_fresh|]. split; [apply next_id_above_seq|].
    repeat (split; [assumption|]). split; [reflexivity | exact F6].
Qed.

Lemma Category_save_insert_witness :
  exists saved w',
    Category_save example_storage art_upload example_world =
      (Ok (Category_set_id 3 saved), w') /\
    key_in c_id (server_category (w_db example_world)) 3 = false /\
    seq_category (w_db example_world) < 3 /\
    server_category (w_db w') =
      server_category (w_db example_world) ++ [Category_row (Category_set_id 3 saved)] /\
    seq_category (w_db w') = 3 /\
    server_server (w_db w') = server_server (w_db example_world) /\
    server_channel (w_db w') = server_channel (w_db example_world) /\
    server_server_member (w_db w') = server_server_member (w_db example_world) /\
    exists name,
      example_storage (w_storage example_world) "category/None/category_icon/a.png"
        = Some name /\
      saved = Category_set_icon (Some name) art_upload /\
      w_storage w' = w_storage example_world ++ [name].
Proof.
  apply (Category_save_insert example_storage art_upload example_world);
    [reflexivity | reflexivity |].
  intros f [= <-]. discriminate.
Defined.

(** The key of a deleted row is not given out again: when "music", the
    category of the largest key, has been deleted, a new category gets
    the key 3, not 2.  A category without icon is stored with the empty
    string for it. *)
Example Category_save_insert_example :
  let art := {| c_id := None; c_name := "art"; c_description := None; c_icon := None;
                c_icon_committed := true |} in
  let w1 := snd (Category_delete music example_world) in
  let w2 := snd (Category_save example_storage art w1) in
  Category_delete music example_world = (Ok tt, w1) /\
  map c_id (server_category (w_db w1)) = [Some 1] /\
  Category_save example_storage art w1 = (Ok (Category_set_id 3 art), w2) /\
  map c_id (server_category (w_db w2)) = [Some 1; Some 3] /\
  map c_icon (server_category (w_db w2)) = [None; Some ""] /\
  c_icon (Category_set_id 3 art) = None.
Proof. vm_compute. repeat split. Qed.

(** What a successful [Channel.save] has done. *)
Lemma Channel_save_inversion (self saved : Channel) (w w' : World) :
  Channel_save self w = (Ok saved, w') ->
  let self' := Channel_set_name (text_lower (ch_name self)) self in
  let t := server_channel (w_db w) in
  let seq := seq_channel (w_db w) in
  refused ch_id self' [ch_owner self; ch_server self] t seq = None /\
  user_exists (w_db w) (ch_owner self) = true /\
  key_in s_id (server_server (w_db w)) (ch_server self) = true /\
  saved = fst (table_save ch_id Channel_set_id self' t seq) /\
  w' = {| w_db := set_server_channel (snd (table_save ch_id Channel_set_id self' t seq))
                    (table_seq ch_id self' t seq) (w_db w);
          w_storage := w_storage w |}.
Proof.
  unfold Channel_save, Model_save_Channel, key_in. cbv [bind ret lift py_super issubclass].
  cbv zeta.
  change (ch_owner (Channel_set_name (text_lower (ch_name self)) self)) with (ch_owner self).
  change (ch_server (Channel_set_name (text_lower (ch_name self)) self)) with (ch_server self).
  destruct (refused _ _ _ _ _); [discriminate|].
  destruct (user_exists (w_db w) (ch_owner self)); [|discriminate].
  destruct (existsb (has_pk s_id (ch_server self)) (server_server (w_db w))); [|discriminate].
  cbn [andb].
  destruct (table_save ch_id Channel_set_id _ (server_channel (w_db w)) _) as [r t].
  intros [= <- <-]. auto.
Qed.

Lemma table_save_fields (self : Channel) (t : list Channel) (seq : Z) :
  let r := fst (table_save ch_id Channel_set_id self t seq) in
  ch_name r = ch_name self /\ ch_owner r = ch_owner self /\
  ch_topic r = ch_topic self /\ ch_server r = ch_server self.
Proof.
  unfold table_save. destruct (ch_id self) as [j|];
    [destruct (existsb (has_pk ch_id j) t)|]; cbn; auto.
Qed.

(** The key of a saved instance is one that the store accepts. *)
Lemma table_save_in_range (self : Channel) (fks : list Z) (t : list Channel) (seq i : Z) :
  refused ch_id self fks t seq = None ->
  ch_id (fst (table_save ch_id Channel_set_id self t seq)) = Some i ->
  in_int64 i = true.
Proof.
  intros H. apply refused_None in H. destruct H as [_ H]. unfold table_save.
  destruct (ch_id self) as [j|] eqn:E.
  - destruct (existsb (has_pk ch_id j) t); cbn [fst]; rewrite E; now intros [= <-].
  - cbn [fst Channel_set_id ch_id]. now intros [= <-].
Qed.

(** X18: saving the instance that [Channel.save] has written once more
    changes neither the instance nor the store. *)
Theorem Channel_save_twice (self saved : Channel) (w w' : World) :
  Channel_save self w = (Ok saved, w') ->
  Channel_save saved w' = (Ok saved, w').
Proof.
  intros H. apply Channel_save_inversion in H. cbv zeta in H.
  destruct H as (Hr & Hu & Hs & Hsaved & Hw).
  set (self' := Channel_set_name (text_lower (ch_name self)) self) in *.
  set (t0 := server_channel (w_db w)) in *. set (seq0 := seq_channel (w_db w)) in *.
  pose proof (table_save_fields self' t0 seq0) as (Fn & Fo & Ft & Fs).
  cbv zeta in *. rewrite <- Hsaved in Fn, Fo, Ft, Fs.
  pose proof (table_save_pk Channel ch_id Channel_set_id Channel_set_id_pk self' t0 seq0)
    as [i Hi].
  pose proof (table_save_in_range self' _ t0 seq0 i Hr) as Hin.
  rewrite <- Hsaved in Hi, Hin. specialize (Hin Hi).
  pose proof (table_save_again Channel ch_id Channel_set_id Channel_set_id_pk self'
                t0 seq0 (table_seq ch_id self' t0 seq0)) as Hagain.
  destruct (table_save ch_id Channel_set_id self' t0 seq0) as [r t] eqn:E.
  cbn [fst snd] in *. subst r. destruct Hagain as [Hagain Hseq].
  assert (Hself : Channel_set_name (text_lower (ch_name saved)) saved = saved).
  { assert (Hl : text_lower (ch_name saved) = ch_name saved).
    { rewrite Fn. unfold self'. cbn [ch_name Channel_set_name].
      apply text_lower_idempotent. }
    unfold Channel_set_name. rewrite Hl. destruct saved; reflexivity. }
  apply refused_None in Hr. destruct Hr as [Hfk _].
  unfold Channel_save, Model_save_Channel. cbv [bind ret lift py_super issubclass].
  rewrite Hself, Hw. unfold user_exists in *.
  cbn [w_db w_storage account_account server_server server_channel seq_channel
    server_category server_server_member set_server_channel].
  assert (refused ch_id saved [ch_owner saved; ch_server saved] t
            (table_seq ch_id self' t0 seq0) = None) as ->.
  { apply refused_None. rewrite Fo, Fs, Hi. unfold self'.
    cbn [ch_owner ch_server Channel_set_name]. auto. }
  rewrite Fo, Fs. unfold self'. cbn [ch_owner ch_server Channel_set_name].
  unfold key_in in Hs. rewrite Hu, Hs. cbn [andb]. fold self'.
  rewrite Hagain, Hseq. reflexivity.
Qed.

Lemma Channel_save_twice_witness :
  Channel_save general_channel
    {| w_db := example_db_with_channel; w_storage := w_storage example_world |} =
  (Ok general_channel,
   {| w_db := example_db_with_channel; w_storage := w_storage example_world |}).
Proof.
  apply (Channel_save_twice
           {| ch_id := None; ch_name := "General"; ch_owner := 1;
              ch_topic := "talk"; ch_server := 2 |} general_channel example_world).
  reflexivity.
Defined.

(** X19: a successful [Channel.save] changes the name only: owner, topic
    and server of the written instance are the supplied ones; files,
    users, categories, servers and memberships are as before; and so are
    the channels under the other ids. *)
Theorem Channel_save_frame (self saved : Channel) (w w' : World) :
  Channel_save self w = (Ok saved, w') ->
  w_storage w' = w_storage w /\
  account_account (w_db w') = account_account (w_db w) /\
  server_category (w_db w') = server_category (w_db w) /\
  server_server (w_db w') = server_server (w_db w) /\
  server_server_member (w_db w') = server_server_member (w_db w) /\
  ch_owner saved = ch_owner self /\ ch_topic saved = ch_topic self /\
  ch_server saved = ch_server self /\
  (forall j, ch_id saved <> Some j -> Channel_get (w_db w') j = Channel_get (w_db w) j).
Proof.
  intros H. apply Channel_save_inversion in H. cbv zeta in H.
  destruct H as (_ & Hu & Hs & Hsaved & ->).
  pose proof (table_save_fields (Channel_set_name (text_lower (ch_name self)) self)
                (server_channel (w_db w)) (seq_channel (w_db w))) as (Fn & Fo & Ft & Fs).
  cbv zeta in *. rewrite <- Hsaved in Fn, Fo, Ft, Fs.
  cbn [w_db w_storage account_account server_server server_channel
    server_category server_server_member set_server_channel].
  repeat (split; [reflexivity || assumption|]).
  intros j Hj. unfold Channel_get. cbn [server_channel set_server_channel].
  apply table_save_other. now rewrite <- Hsaved.
Qed.

Lemma Channel_save_frame_witness :
  w_storage {| w_db := example_db_with_channel; w_storage := w_storage example_world |}
    = w_storage example_world /\
  account_account example_db_with_channel = account_account (w_db example_world) /\
  server_category example_db_with_channel = server_category (w_db example_world) /\
  server_server example_db_with_channel = server_server (w_db example_world) /\
  server_server_member example_db_with_channel =
    server_server_member (w_db example_world) /\
  ch_owner general_channel = 1 /\ ch_topic general_channel = "talk" /\
  ch_server general_channel = 2 /\
  (forall j, ch_id general_channel <> Some j ->
     Channel_get example_db_with_channel j = Channel_get (w_db example_world) j).
Proof.
  apply (Channel_save_frame
           {| ch_id := None; ch_name := "General"; ch_owner := 1;
              ch_topic := "talk"; ch_server := 2 |} general_channel example_world
           {| w_db := example_db_with_channel; w_storage := w_storage example_world |}).
  reflexivity.
Defined.

(** [if file: file.delete(save=False)] removes the file that the field
    holds. *)
Lemma FieldFile_delete_run (file : FieldFile) (w : World) :
  exists w', (when (truthy file) then FieldFile_delete file)%py w = (Ok tt, w') /\
    w_db w' = w_db w /\
    forall f, In f (w_storage w') <-> In f (w_storage w) /\ ~ holds file f.
Proof.
  unfold holds. destruct file as [[|a name]|]; cbn; eexists; (split; [reflexivity|]);
    (split; [reflexivity|]); intros f; cbn.
  - split; [intros H; split; [exact H|]; intros [[= <-] H2]; now apply H2 | tauto].
  - rewrite In_storage_delete. split.
    + intros [H1 H2]. split; [exact H1|]. intros [[= <-] _]. now apply H2.
    + intros [H1 H2]. split; [exact H1|]. intros ->. apply H2. split; [reflexivity|discriminate].
  - split; [intros H; split; [exact H|]; intros [[=] _] | tauto].
Qed.

Lemma Server_delete_files_run (instance : Server) (w : World) :
  exists w', Server_delete_files instance w = (Ok tt, w') /\
    w_db w' = w_db w /\
    forall f, In f (w_storage w') <->
      In f (w_storage w) /\ ~ holds (s_icon instance) f /\ ~ holds (s_banner instance) f.
Proof.
  unfold Server_delete_files, Server_meta_fields.
  cbn [for_each String.eqb Ascii.eqb Bool.eqb orb Server_getattr_file].
  cbv [bind ret].
  destruct (FieldFile_delete_run (s_banner instance) w) as (w1 & E1 & D1 & S1).
  destruct (FieldFile_delete_run (s_icon instance) w1) as (w2 & E2 & D2 & S2).
  cbv [bind ret] in E1, E2. rewrite E1, E2.
  exists w2. split; [reflexivity|]. split; [congruence|].
  intros f. rewrite S2, S1. tauto.
Qed.

Lemma Category_delete_files_run (instance : Category) (w : World) :
  exists w', Category_delete_files instance w = (Ok tt, w') /\
    w_db w' = w_db w /\
    forall f, In f (w_storage w') <-> In f (w_storage w) /\ ~ holds (c_icon instance) f.
Proof.
  unfold Category_delete_files, Category_meta_fields.
  cbn [for_each String.eqb Ascii.eqb Bool.eqb orb Category_getattr_file].
  cbv [bind ret].
  destruct (FieldFile_delete_run (c_icon instance) w) as (w1 & E1 & D1 & S1).
  cbv [bind ret] in E1. rewrite E1.
  exists w1. split; [reflexivity|]. split; [congruence|]. exact S1.
Qed.

Lemma for_each_Server_delete_files (servers : list Server) (w : World) :
  exists w', for_each Server_delete_files servers w = (Ok tt, w') /\
    w_db w' = w_db w /\
    forall f, In f (w_storage w') <->
      In f (w_storage w) /\
      forall s, In s servers -> ~ holds (s_icon s) f /\ ~ holds (s_banner s) f.
Proof.
  revert w. induction servers as [|s servers IH]; intros w; cbn [for_each].
  - exists w. split; [reflexivity|]. split; [reflexivity|]. intros f.
    split; [intros H; split; [exact H | intros s []] | tauto].
  - destruct (Server_delete_files_run s w) as (w1 & E1 & D1 & S1).
    destruct (IH w1) as (w2 & E2 & D2 & S2).
    cbv [bind]. rewrite E1, E2. exists w2. split; [reflexivity|]. split; [congruence|].
    intros f. rewrite S2, S1. split.
    + intros [[H1 H2] H3]. split; [exact H1|]. intros x [<-|Hx]; auto.
    + intros [H1 H2].
      split; [split; [exact H1 | apply (H2 s); now left] | intros x Hx; apply H2; now right].
Qed.

Lemma key_in_iff {R} (pk : R -> option Z) (t : list R) (i : Z) :
  key_in pk t i = true <-> exists r, In r t /\ pk r = Some i.
Proof.
  unfold key_in. rewrite existsb_exists.
  split; intros [r [H1 H2]]; exists r; (split; [exact H1|]); now apply has_pk_iff.
Qed.

Lemma user_exists_iff (db : Database) (u : Z) :
  user_exists db u = true <-> In u (account_account db).
Proof.
  unfold user_exists. rewrite existsb_exists. split.
  - intros [x [H1 H2]]. apply Z.eqb_eq in H2. now subst.
  - intros H. exists u. split; [exact H | apply Z.eqb_refl].
Qed.

(** X21: deleting a stored server runs its [pre_delete] receiver, which
    deletes the icon and the banner file, and removes the server, its
    channels ([on_delete=CASCADE]) and its membership rows; categories are
    as before, and a store in which every foreign key had a row still is
    one. *)
Theorem Server_delete_cascades (self : Server) (w : World) (pk : Z) :
  s_id self = Some pk ->
  exists w', Server_delete self w = (Ok tt, w') /\
    (forall s, In s (server_server (w_db w')) <->
       In s (server_server (w_db w)) /\ s_id s <> Some pk) /\
    (forall c, In c (server_channel (w_db w')) <->
       In c (server_channel (w_db w)) /\ ch_server c <> pk) /\
    (forall r, In r (server_server_member (w_db w')) <->
       In r (server_server_member (w_db w)) /\ fst r <> pk) /\
    server_category (w_db w') = server_category (w_db w) /\
    (forall f, In f (w_storage w') <->
       In f (w_storage w) /\ ~ holds (s_icon self) f /\ ~ holds (s_banner self) f) /\
    (consistent (w_db w) -> consistent (w_db w')).
Proof.
  intros Hid. unfold Server_delete. rewrite Hid.
  destruct (Server_delete_files_run self w) as (w1 & E1 & D1 & S1).
  cbv [bind get_state set_tables modify]. rewrite E1.
  eexists. split; [reflexivity|].
  cbn [w_db w_storage server_server server_channel server_server_member server_category
       account_account]. rewrite D1.
  assert (A : forall s, In s (filter (fun s => negb (has_pk s_id pk s)) (server_server (w_db w)))
                <-> In s (server_server (w_db w)) /\ s_id s <> Some pk).
  { intros s. rewrite filter_In, negb_true_iff, <- not_true_iff_false, has_pk_iff. tauto. }
  assert (B : forall c, In c (filter (fun c => negb (ch_server c =? pk)) (server_channel (w_db w)))
                <-> In c (server_channel (w_db w)) /\ ch_server c <> pk).
  { intros c. rewrite filter_In, negb_true_iff, Z.eqb_neq. tauto. }
  assert (C : forall r, In r (filter (fun r => negb (fst r =? pk)) (server_server_member (w_db w)))
                <-> In r (server_server_member (w_db w)) /\ fst r <> pk).
  { intros r. rewrite filter_In, negb_true_iff, Z.eqb_neq. tauto. }
  repeat (split; [assumption || reflexivity|]).
  intros (K1 & K2 & K3). unfold consistent.
  cbn [server_server server_channel server_server_member server_category account_account].
  repeat split.
  - apply K1. now apply A.
  - apply K1. now apply A.
  - apply K2. now apply B.
  - apply B in H. destruct H as [H Hne]. destruct (K2 c H) as [_ Hk].
    apply key_in_iff in Hk. destruct Hk as [s [Hs Hp]].
    apply key_in_iff. exists s. split; [|exact Hp]. apply A. split; [exact Hs|]. congruence.
  - apply C in H. destruct H as [H Hne]. destruct (K3 r H) as [Hk _].
    apply key_in_iff in Hk. destruct Hk as [s [Hs Hp]].
    apply key_in_iff. exists s. split; [|exact Hp]. apply A. split; [exact Hs|]. congruence.
  - apply K3. now apply C.
Qed.

Lemma Server_delete_cascades_witness :
  exists w', Server_delete server_A example_world = (Ok tt, w') /\
    (forall s, In s (server_server (w_db w')) <->
       In s (server_server (w_db example_world)) /\ s_id s <> Some 1) /\
    (forall c, In c (server_channel (w_db w')) <->
       In c (server_channel (w_db example_world)) /\ ch_server c <> 1) /\
    (forall r, In r (server_server_member (w_db w')) <->
       In r (server_server_member (w_db example_world)) /\ fst r <> 1) /\
    server_category (w_db w') = server_category (w_db example_world) /\
    (forall f, In f (w_storage w') <->
       In f (w_storage example_world) /\
       ~ holds (s_icon server_A) f /\ ~ holds (s_banner server_A) f) /\
    (consistent (w_db example_world) -> consistent (w_db w')).
Proof.
  apply (Server_delete_cascades server_A example_world 1). reflexivity.
Defined.

(** X22: deleting a stored category removes it, its servers
    ([on_delete=CASCADE]), their channels and their membership rows; the
    files deleted are the category's icon and, through the receiver of
    [Server], the icons and banners of the servers removed; and a store in
    which every foreign key had a row still is one. *)
Theorem Category_delete_cascades (self : Category) (w : World) (pk : Z) :
  c_id self = Some pk ->
  exists w', Category_delete self w = (Ok tt, w') /\
    (forall c, In c (server_category (w_db w')) <->
       In c (server_category (w_db w)) /\ c_id c <> Some pk) /\
    (forall s, In s (server_server (w_db w')) <->
       In s (server_server (w_db w)) /\ s_category s <> pk) /\
    (forall c, In c (server_channel (w_db w')) <->
       In c (server_channel (w_db w)) /\
       forall s, In s (server_server (w_db w)) -> s_id s = Some (ch_server c) ->
                 s_category s <> pk) /\
    (forall r, In r (server_server_member (w_db w')) <->
       In r (server_server_member (w_db w)) /\
       forall s, In s (server_server (w_db w)) -> s_id s = Some (fst r) ->
                 s_category s <> pk) /\
    (forall f, In f (w_storage w') <->
       In f (w_storage w) /\ ~ holds (c_icon self) f /\
       forall s, In s (server_server (w_db w)) -> s_category s = pk ->
                 ~ holds (s_icon s) f /\ ~ holds (s_banner s) f) /\
    (consistent (w_db w) -> consistent (w_db w')).
Proof.
  intros Hid. unfold Category_delete. rewrite Hid.
  set (gone := filter (fun s => s_category s =? pk) (server_server (w_db w))).
  assert (G : forall s, In s gone <-> In s (server_server (w_db w)) /\ s_category s = pk).
  { intros s. unfold gone. rewrite filter_In, Z.eqb_eq. tauto. }
  assert (GK : forall k, key_in s_id gone k = false <->
             forall s, In s (server_server (w_db w)) -> s_id s = Some k -> s_category s <> pk).
  { intros k. rewrite <- not_true_iff_false, key_in_iff. split.
    - intros H s Hs Hk Hc. apply H. exists s. split; [apply G; auto | exact Hk].
    - intros H [s [Hs Hk]]. apply G in Hs. destruct Hs as [Hs Hc]. exact (H s Hs Hk Hc). }
  destruct (Category_delete_files_run self w) as (w1 & E1 & D1 & S1).
  destruct (for_each_Server_delete_files gone w1) as (w2 & E2 & D2 & S2).
  cbv [bind get_state set_tables modify]. fold gone. rewrite E1, E2.
  eexists. split; [reflexivity|].
  cbn [w_db w_storage server_server server_channel server_server_member server_category
       account_account]. rewrite D2, D1.
  assert (A : forall c, In c (filter (fun c => negb (has_pk c_id pk c)) (server_category (w_db w)))
                <-> In c (server_category (w_db w)) /\ c_id c <> Some pk).
  { intros c. rewrite filter_In, negb_true_iff, <- not_true_iff_false, has_pk_iff. tauto. }
  assert (B : forall s, In s (filter (fun s => negb (s_category s =? pk)) (server_server (w_db w)))
                <-> In s (server_server (w_db w)) /\ s_category s <> pk).
  { intros s. rewrite filter_In, negb_true_iff, Z.eqb_neq. tauto. }
  assert (C : forall c, In c (filter (fun c => negb (key_in s_id gone (ch_server c)))
                                (server_channel (w_db w)))
                <-> In c (server_channel (w_db w)) /\
                    forall s, In s (server_server (w_db w)) -> s_id s = Some (ch_server c) ->
                              s_category s <> pk).
  { intros c. rewrite filter_In, negb_true_iff, GK. tauto. }
  assert (D : forall r, In r (filter (fun r => negb (key_in s_id gone (fst r)))
                                (server_server_member (w_db w)))
                <-> In r (server_server_member (w_db w)) /\
                    forall s, In s (server_server (w_db w)) -> s_id s = Some (fst r) ->
                              s_category s <> pk).
  { intros r. rewrite filter_In, negb_true_iff, GK. tauto. }
  repeat (split; [assumption|]). split.
  - intros f. rewrite S2, S1. split.
    + intros [[H1 H2] H3]. repeat split; auto.
      * apply (H3 s). apply G. auto.
      * apply (H3 s). apply G. auto.
    + intros (H1 & H2 & H3). repeat split; auto; apply G in H; destruct H; now apply H3.
  - intros (K1 & K2 & K3). unfold consistent.
    cbn [server_server server_channel server_server_member server_category account_account].
    repeat split.
    + apply K1. now apply B.
    + apply B in H. destruct H as [H Hne]. destruct (K1 s H) as [_ Hk].
      apply key_in_iff in Hk. destruct Hk as [c [Hc Hp]].
      apply key_in_iff. exists c. split; [|exact Hp]. apply A. split; [exact Hc|]. congruence.
    + apply K2. now apply C.
    + apply C in H. destruct H as [H Hne]. destruct (K2 c H) as [_ Hk].
      apply key_in_iff in Hk. destruct Hk as [s [Hs Hp]].
      apply key_in_iff. exists s. split; [|exact Hp]. apply B. split; [exact Hs|]. eauto.
    + apply D in H. destruct H as [H Hne]. destruct (K3 r H) as [Hk _].
      apply key_in_iff in Hk. destruct Hk as [s [Hs Hp]].
      apply key_in_iff. exists s. split; [|exact Hp]. apply B. split; [exact Hs|]. eauto.
    + apply K3. now apply D.
Qed.

Lemma Category_delete_cascades_witness :
  exists w', Category_delete gaming example_world = (Ok tt, w') /\
    (forall c, In c (server_category (w_db w')) <->
       In c (server_category (w_db example_world)) /\ c_id c <> Some 1) /\
    (forall s, In s (server_server (w_db w')) <->
       In s (server_server (w_db example_world)) /\ s_category s <> 1) /\
    (forall c, In c (server_channel (w_db w')) <->
       In c (server_channel (w_db example_world)) /\
       forall s, In s (server_server (w_db example_world)) ->
                 s_id s = Some (ch_server c) -> s_category s <> 1) /\
    (forall r, In r (server_server_member (w_db w')) <->
       In r (server_server_member (w_db example_world)) /\
       forall s, In s (server_server (w_db example_world)) ->
                 s_id s = Some (fst r) -> s_category s <> 1) /\
    (forall f, In f (w_storage w') <->
       In f (w_storage example_world) /\ ~ holds (c_icon gaming) f /\
       forall s, In s (server_server (w_db example_world)) -> s_category s = 1 ->
                 ~ holds (s_icon s) f /\ ~ holds (s_banner s) f) /\
    (consistent (w_db example_world) -> consistent (w_db w')).
Proof.
  apply (Category_delete_cascades gaming example_world 1). reflexivity.
Defined.

(** Replacing the channels by rows that are old or refer to stored
    rows. *)
Lemma consistent_with_channels (db : Database) (t : list Channel) (seq : Z) :
  consistent db ->
  (forall c, In c t -> In c (server_channel db) \/
     (In (ch_owner c) (account_account db) /\
      key_in s_id (server_server db) (ch_server c) = true)) ->
  consistent (set_server_channel t seq db).
Proof.
  intros (K1 & K2 & K3) H. unfold consistent.
  cbn [server_server server_channel server_server_member server_category account_account
    set_server_channel].
  split; [exact K1|]. split; [|exact K3].
  intros c Hc. destruct (H c Hc) as [Hold|Hnew]; [now apply K2 | exact Hnew].
Qed.

(** Writing the row of a category keeps the keys of the categories. *)
Lemma Category_save_table_consistent (self : Category) (w : World) (r : result Category)
  (w' : World) :
  consistent (w_db w) -> Category_save_table self w = (r, w') -> consistent (w_db w').
Proof.
  intros K. unfold Category_save_table.
  destruct (refused _ _ _ _ _); [now intros [= _ <-]|].
  pose proof (table_save_keys Category c_id Category_set_id (Category_row self)
                (server_category (w_db w)) (seq_category (w_db w))) as Hkeys.
  destruct (table_save c_id Category_set_id (Category_row self) (server_category (w_db w))
              (seq_category (w_db w))) as [r0 t].
  intros [= _ <-]. cbn [fst snd w_db] in *. destruct K as (K1 & K2 & K3). unfold consistent.
  cbn [server_server server_channel server_server_member server_category account_account
    set_server_category].
  split; [|split; assumption].
  intros s Hs. destruct (K1 s Hs) as [Ho Hk]. split; [exact Ho|]. now apply Hkeys.
Qed.

(** X20: in a store in which every foreign key has a row, the three
    [save] methods keep it so, whether they return or raise. *)
Theorem saves_keep_consistency (w : World) :
  consistent (w_db w) ->
  (forall self r w', Channel_save self w = (r, w') -> consistent (w_db w')) /\
  (forall storage self r w',
     Category_save storage self w = (r, w') -> consistent (w_db w')) /\
  (forall self r w', Server_save self w = (r, w') -> consistent (w_db w')).
Proof.
  intros K. split; [|split].
  - intros self r w' H. destruct r as [saved|e].
    + apply Channel_save_inversion in H. cbv zeta in H.
      destruct H as (_ & Hu & Hs & Hsaved & ->). cbn [w_db].
      pose proof (table_save_fields (Channel_set_name (text_lower (ch_name self)) self)
                    (server_channel (w_db w)) (seq_channel (w_db w))) as (_ & Fo & _ & Fs).
      cbv zeta in Fo, Fs. rewrite <- Hsaved in Fo, Fs.
      change (ch_owner saved = ch_owner self) in Fo.
      change (ch_server saved = ch_server self) in Fs.
      apply consistent_with_channels; [exact K|]. intros c Hc.
      apply table_save_In in Hc. destruct Hc as [Hc|Hc]; [now left|right].
      rewrite <- Hsaved in Hc. subst c. rewrite Fo, Fs.
      split; [now apply user_exists_iff | exact Hs].
    + now rewrite (Channel_save_failure _ _ _ _ H).
  - intros storage self r w'.
    unfold Category_save, if_id, get_object_or_404, Model_save_Category, pre_save_icon,
      FieldFile_delete. cbv [bind ret lift modify py_super issubclass].
    destruct (c_id self) as [i|]; [destruct (int_truthy (Some i))|];
      try destruct (find (has_pk c_id i) (server_category (w_db w))) as [existing|];
      try destruct (FieldFile_ne (c_icon existing) (c_icon self));
      try destruct (c_icon existing) as [[|? ?]|]; cbn [str_truthy w_db w_storage];
      destruct (uncommitted (c_icon self) (c_icon_committed self)) as [f|];
      try match goal with
          | |- context [storage ?st ?p] => destruct (storage st p) as [name|]
          end;
      intros H;
      try (injection H as _ <-; exact K);
      (eapply Category_save_table_consistent; [|exact H]; exact K).
  - intros self r w'. unfold Server_save, if_id, get_object_or_404, FieldFile_delete.
    cbv [bind ret lift modify py_super issubclass].
    destruct (s_id self) as [i|]; [destruct (int_truthy (Some i))|];
      try destruct (find (has_pk s_id i) (server_server (w_db w))) as [existing|];
      try destruct (FieldFile_ne (s_icon existing) (s_icon self)),
                   (FieldFile_ne (s_banner existing) (s_banner self)),
                   (s_icon existing) as [[|? ?]|], (s_banner existing) as [[|? ?]|];
      cbn; intros [= _ <-]; exact K.
Qed.

Lemma example_db_consistent : consistent example_db.
Proof.
  unfold consistent. split; [|split]; intros x Hx; simpl in Hx;
    repeat (destruct Hx as [<-|Hx]; [split; first [reflexivity | simpl; tauto]|]);
    destruct Hx.
Qed.

Lemma saves_keep_consistency_witness :
  (forall self r w', Channel_save self example_world = (r, w') -> consistent (w_db w')) /\
  (forall storage self r w',
     Category_save storage self example_world = (r, w') -> consistent (w_db w')) /\
  (forall self r w', Server_save self example_world = (r, w') -> consistent (w_db w')).
Proof. apply (saves_keep_consistency example_world). exact example_db_consistent. Defined.

(** X23: from [Channel.save] to the listing.  A channel that has been
    written appears, under its lower-cased name, in the [channel_server]
    entry of its server in the response to [by_serverid=<id of that
    server>]. *)
Theorem saved_channel_is_listed
  (c : option (list ServerObj)) (self saved : Channel) (w w' : World)
  (q : QueryDict) (u : option Z) (s : string) :
  Channel_save self w = (Ok saved, w') ->
  QueryDict_get "by_serverid" q = Some s -> py_int s = Some (ch_server self) ->
  absent "qty" (GET q u) ->
  seen (QueryDict_get "category" q) = None ->
  flag (QueryDict_get "by_user" q) = false ->
  exists l o chans,
    response (class_attribute c) (w_db w') (GET q u) = Ok l /\ In o l /\
    dict_get "id" o = Some (JInt (ch_server self)) /\
    dict_get "channel_server" o = Some (JList chans) /\
    In (ChannelSerializer_to_representation saved) chans /\
    dict_get "name" (ChannelSerializer_to_representation saved) =
      Some (JText (text_lower (ch_name self))).
Proof.
  intros Hsave Hs Hi Hq Hc Hb.
  pose proof Hsave as Hinv. apply Channel_save_inversion in Hinv. cbv zeta in Hinv.
  destruct Hinv as (Hr & _ & Hk & Hsaved & Hw).
  assert (Hrange : in_int64 (ch_server self) = true).
  { apply refused_None in Hr. destruct Hr as [Hr _]. cbn [forallb] in Hr.
    apply andb_true_iff in Hr. destruct Hr as [_ Hr].
    apply andb_true_iff in Hr. tauto. }
  assert (Hsrv : server_server (w_db w') = server_server (w_db w))
    by (rewrite Hw; reflexivity).
  pose proof (table_save_fields (Channel_set_name (text_lower (ch_name self)) self)
                (server_channel (w_db w)) (seq_channel (w_db w))) as (_ & _ & _ & Fs).
  cbv zeta in Fs. rewrite <- Hsaved in Fs. change (ch_server saved = ch_server self) in Fs.
  apply key_in_iff in Hk. destruct Hk as [S [HS Hid]].
  assert (Hu : authorized (GET q u)).
  { unfold authorized. cbn [GET query_params]. rewrite Hb. discriminate. }
  assert (HP : passes (w_db w') (GET q u) S).
  { unfold passes. cbn [GET query_params]. rewrite Hsrv, Hc, Hb.
    repeat split; [exact HS | discriminate | discriminate]. }
  destruct (by_serverid_rows c (w_db w') q u s (ch_server self) Hs Hi Hrange Hu Hq
              (ex_intro _ S (conj HP Hid))) as (objs & Ho & R).
  assert (HinS : In S (map instance objs)) by (apply R; auto).
  apply in_map_iff in HinS. destruct HinS as [obj [Hobj Hin]].
  destruct (to_representation_fields (w_db w') (serializer_context (GET q u)) obj)
    as (Fid & _ & _ & _ & Fch).
  rewrite Hobj, Hid in Fid. rewrite Hobj in Fch. cbn [opt_int] in Fid.
  eexists. exists (to_representation (w_db w') (serializer_context (GET q u)) obj).
  eexists. split; [rewrite response_objects, Ho; reflexivity|].
  split; [unfold ServerSerializer_many; now apply in_map|].
  split; [exact Fid|]. split; [exact Fch|]. split.
  - apply in_map. apply In_channel_server. split; [|congruence].
    rewrite Hw, Hsaved. cbn [w_db server_channel set_server_channel].
    apply table_save_saved_In.
  - cbn. f_equal. f_equal. rewrite Hsaved.
    apply (table_save_fields (Channel_set_name (text_lower (ch_name self)) self)).
Qed.

Lemma saved_channel_is_listed_witness :
  exists l o chans,
    response (class_attribute None) example_db_with_channel
      (GET [("by_serverid", "2")] None) = Ok l /\ In o l /\
    dict_get "id" o = Some (JInt 2) /\
    dict_get "channel_server" o = Some (JList chans) /\
    In (ChannelSerializer_to_representation general_channel) chans /\
    dict_get "name" (ChannelSerializer_to_representation general_channel) =
      Some (JText (text_lower "General")).
Proof.
  apply (saved_channel_is_listed None
           {| ch_id := None; ch_name := "General"; ch_owner := 1;
              ch_topic := "talk"; ch_server := 2 |} general_channel example_world
           {| w_db := example_db_with_channel; w_storage := w_storage example_world |}
           [("by_serverid", "2")] None "2");
    reflexivity.
Defined.
(** ** Upload paths *)
Lemma str_mem_app (c : ascii) (a b : string) :
  str_mem c (a ++ b) = str_mem c a || str_mem c b.
Proof. induction a as [|x a IH]; cbn; [reflexivity|]. now rewrite IH, orb_assoc. Qed.

Lemma string_of_uint_digits (d : Decimal.uint) (c : ascii) :
  str_mem c (DecimalString.NilEmpty.string_of_uint d) = true -> is_digit c = true.
Proof.
  induction d; cbn; try discriminate; intros H; apply orb_true_iff in H;
    (destruct H as [H|H]; [apply Ascii.eqb_eq in H; subst c; reflexivity | auto]).
Qed.

Lemma str_of_int_chars (z : Z) (c : ascii) :
  str_mem c (str_of_int z) = true -> is_digit c = true \/ c = "-"%char.
Proof.
  unfold str_of_int, DecimalString.NilZero.string_of_int,
    DecimalString.NilZero.string_of_uint.
  destruct (Z.to_int z) as [d|d]; [destruct d; [cbn|..]|cbn; destruct d; [cbn|..]];
    intros H;
    try (left; eapply string_of_uint_digits; exact H);
    try (apply orb_true_iff in H; destruct H as [H|H];
         [ apply Ascii.eqb_eq in H; subst c; first [left; reflexivity | right; reflexivity]
         | first [discriminate H | left; eapply string_of_uint_digits; exact H
                 | apply orb_true_iff in H; destruct H as [H|H];
                   [apply Ascii.eqb_eq in H; subst c; left; reflexivity | discriminate H]] ]).
Qed.

Lemma format_id_chars (o : option Z) (c : ascii) :
  str_mem c (format_id o) = true ->
  is_digit c = true \/ c = "-"%char \/ str_mem c "None" = true.
Proof.
  destruct o as [z|]; cbn [format_id]; intros H; [|tauto].
  destruct (str_of_int_chars z c H); tauto.
Qed.

Lemma format_id_no_slash (o : option Z) : str_mem "/" (format_id o) = false.
Proof.
  apply not_true_iff_false. intros H.
  destruct (format_id_chars o _ H) as [H1|[H1|H1]]; discriminate.
Qed.

Lemma str_of_int_inj (a b : Z) : str_of_int a = str_of_int b -> a = b.
Proof.
  unfold str_of_int. intros H.
  assert (N : forall z, Z.to_int z <> Decimal.Pos Decimal.Nil /\
                        Z.to_int z <> Decimal.Neg Decimal.Nil).
  { intros [|p|p]; cbn; split; try discriminate; intros [= E];
      exact (DecimalPos.Unsigned.to_uint_nonnil p E). }
  pose proof (DecimalString.NilZero.isi (Z.to_int a) (proj1 (N a)) (proj2 (N a))) as Ha.
  pose proof (DecimalString.NilZero.isi (Z.to_int b) (proj1 (N b)) (proj2 (N b))) as Hb.
  rewrite H, Hb in Ha. injection Ha as Ha.
  rewrite <- (DecimalZ.of_to a), <- (DecimalZ.of_to b). now rewrite Ha.
Qed.

Lemma format_id_inj (a b : option Z) : format_id a = format_id b -> a = b.
Proof.
  destruct a as [x|], b as [y|]; cbn [format_id]; intros H.
  - f_equal. now apply str_of_int_inj.
  - exfalso. assert (E : str_mem "N" (str_of_int x) = true) by (rewrite H; reflexivity).
    destruct (str_of_int_chars x _ E); discriminate.
  - exfalso. assert (E : str_mem "N" (str_of_int y) = true) by (rewrite <- H; reflexivity).
    destruct (str_of_int_chars y _ E); discriminate.
  - reflexivity.
Qed.

Lemma append_slash_inj (a b x y : string) :
  str_mem "/" a = false -> str_mem "/" b = false ->
  (a ++ String "/" x)%string = (b ++ String "/" y)%string -> a = b /\ x = y.
Proof.
  revert b. induction a as [|c a IH]; intros [|d b]; cbn; intros Ha Hb H.
  - injection H as ->. auto.
  - injection H as <- _. discriminate Hb.
  - injection H as -> _. discriminate Ha.
  - injection H as -> H. apply orb_false_iff in Ha, Hb.
    destruct (IH b (proj2 Ha) (proj2 Hb) H) as [-> ->]. auto.
Qed.

Lemma append_cancel_l (p x y : string) : (p ++ x)%string = (p ++ y)%string -> x = y.
Proof.
  induction p as [|c p IH]; cbn; intros E; [exact E|]. injection E as E. auto.
Qed.

Lemma path_inj (p m : string) (a b : option Z) (f g : string) :
  (p ++ format_id a ++ String "/" (m ++ f))%string =
  (p ++ format_id b ++ String "/" (m ++ g))%string ->
  a = b /\ f = g.
Proof.
  intros H. apply append_cancel_l in H.
  apply append_slash_inj in H; try apply format_id_no_slash.
  destruct H as [Ha Hf]. split; [now apply format_id_inj|].
  now apply append_cancel_l in Hf.
Qed.

(** X24: each of the three upload paths determines the id of the
    instance and the file name it was made from: two uploads get the same
    path only for the same id (also [None], the id of an instance that is
    not stored yet) and the same file name. *)
Theorem upload_paths_are_injective :
  (forall a b f g, server_icon_upload_path a f = server_icon_upload_path b g ->
     s_id a = s_id b /\ f = g) /\
  (forall a b f g, server_banner_upload_path a f = server_banner_upload_path b g ->
     s_id a = s_id b /\ f = g) /\
  (forall a b f g, category_icon_upload_path a f = category_icon_upload_path b g ->
     c_id a = c_id b /\ f = g).
Proof.
  split; [|split]; intros a b f g H.
  - apply (path_inj "server/" "server_icon/" _ _ _ _ H).
  - apply (path_inj "server/" "server_banner/" _ _ _ _ H).
  - apply (path_inj "category/" "category_icon/" _ _ _ _ H).
Qed.

(** X25: the paths of the three kinds of upload never coincide. *)
Theorem upload_paths_are_disjoint (a b : Server) (c : Category) (f g : string) :
  String.eqb (server_icon_upload_path a f) (server_banner_upload_path b g) = false /\
  String.eqb (category_icon_upload_path c f) (server_icon_upload_path a g) = false /\
  String.eqb (category_icon_upload_path c f) (server_banner_upload_path a g) = false.
Proof.
  split; [|split; reflexivity].
  apply String.eqb_neq. intros H.
  unfold server_icon_upload_path, server_banner_upload_path in H.
  apply (append_cancel_l "server/") in H.
  change ("/server_icon/" ++ f)%string with (String "/" ("server_icon/" ++ f)) in H.
  change ("/server_banner/" ++ g)%string with (String "/" ("server_banner/" ++ g)) in H.
  apply append_slash_inj in H; try apply format_id_no_slash.
  destruct H as [_ H]. cbn in H. discriminate H.
Qed.

(** ** [validators.py] *)

Lemma append_assoc (a b c : string) : (a ++ b ++ c)%string = ((a ++ b) ++ c)%string.
Proof. induction a as [|x a IH]; cbn; [reflexivity|]. now rewrite IH. Qed.

Lemma append_empty_r (a : string) : (a ++ "")%string = a.
Proof. induction a as [|x a IH]; cbn; [reflexivity|]. now rewrite IH. Qed.

(** no character of a string is [c] *)
Lemma split_last_none (c : ascii) (s : string) :
  str_mem c s = false -> split_last c s = None.
Proof.
  induction s as [|a s IH]; cbn; [reflexivity|]. intros H.
  apply orb_false_iff in H. destruct H as [H1 H2]. rewrite (IH H2).
  rewrite Ascii.eqb_sym, H1. reflexivity.
Qed.

Lemma split_last_concat (c : ascii) (s x y : string) :
  split_last c s = Some (x, y) -> s = (x ++ y)%string.
Proof.
  revert x y. induction s as [|a s IH]; cbn; intros x y H; [discriminate|].
  destruct (split_last c s) as [[x' y']|].
  - injection H as <- <-. cbn. f_equal. now apply IH.
  - destruct (Ascii.eqb a c); [|discriminate]. now injection H as <- <-.
Qed.

Lemma split_last_head (c : ascii) (s x y : string) :
  split_last c s = Some (x, y) -> exists t, y = String c t.
Proof.
  revert x y. induction s as [|a s IH]; cbn; intros x y H; [discriminate|].
  destruct (split_last c s) as [[x' y']|] eqn:E.
  - injection H as <- <-. eapply IH. reflexivity.
  - destruct (Ascii.eqb a c) eqn:Ea; [|discriminate]. injection H as <- <-.
    apply Ascii.eqb_eq in Ea. subst. eauto.
Qed.

(** the last [c] of [x ++ c :: t] is the one in the middle when [t] has none *)
Lemma split_last_app (c : ascii) (x t : string) :
  str_mem c t = false -> split_last c (x ++ String c t) = Some (x, String c t).
Proof.
  intros H. induction x as [|a x IH]; cbn.
  - rewrite (split_last_none c t H), Ascii.eqb_refl. reflexivity.
  - cbn in IH. rewrite IH. reflexivity.
Qed.

Lemma split_last_app_none (c : ascii) (a t : string) :
  str_mem c t = false ->
  split_last c (a ++ t) =
  match split_last c a with
  | Some (x, y) => Some (x, (y ++ t)%string)
  | None => None
  end.
Proof.
  intros H. induction a as [|b a IH]; cbn.
  - now apply split_last_none.
  - rewrite IH. destruct (split_last c a) as [[x y]|]; [reflexivity|].
    destruct (Ascii.eqb b c); reflexivity.
Qed.

Lemma leading_dots_concat (s : string) :
  let (d, r) := leading_dots s in s = (d ++ r)%string.
Proof.
  induction s as [|a s IH]; cbn; [reflexivity|].
  destruct (Ascii.eqb a "."); [|reflexivity].
  destruct (leading_dots s) as [d r]. cbn. now f_equal.
Qed.

(** [os.path.splitext]: root and extension make the path again. *)
Lemma splitext_concat (p : string) :
  (fst (splitext p) ++ snd (splitext p))%string = p.
Proof.
  unfold splitext.
  destruct (split_last "/" p) as [[x [|b y]]|] eqn:E.
  - apply split_last_head in E. destruct E as [t E]. discriminate.
  - pose proof (split_last_head _ _ _ _ E) as [t Ht]. injection Ht as -> ->.
    apply split_last_concat in E.
    pose proof (leading_dots_concat t) as L. destruct (leading_dots t) as [d r].
    destruct (split_last "." r) as [[stem ext]|] eqn:F; cbn [fst snd].
    + apply split_last_concat in F. subst p t r.
      rewrite <- !append_assoc. reflexivity.
    + now rewrite append_empty_r.
  - pose proof (leading_dots_concat p) as L. destruct (leading_dots p) as [d r].
    destruct (split_last "." r) as [[stem ext]|] eqn:F; cbn [fst snd].
    + apply split_last_concat in F. subst r. cbn. now rewrite <- append_assoc.
    + now rewrite append_empty_r.
Qed.

Lemma leading_dots_none (s : string) :
  str_mem "." s = false -> leading_dots s = (EmptyString, s).
Proof.
  destruct s as [|a s]; cbn [str_mem leading_dots]; [reflexivity|]. intros H.
  apply orb_false_iff in H. destruct H as [H _].
  rewrite Ascii.eqb_sym, H. reflexivity.
Qed.

Lemma leading_dots_all (dots rest : string) :
  (forall c, str_mem c dots = true -> c = "."%char) ->
  leading_dots rest = (EmptyString, rest) ->
  leading_dots (dots ++ rest) = (dots, rest).
Proof.
  intros H Hr. induction dots as [|a d IH]; cbn [append]; [exact Hr|].
  assert (a = "."%char) as -> by (apply H; cbn [str_mem]; now rewrite Ascii.eqb_refl).
  cbn [leading_dots]. rewrite Ascii.eqb_refl, IH; [reflexivity|].
  intros c Hc. apply H. cbn [str_mem]. rewrite Hc. apply orb_true_r.
Qed.

(** Before a character that is no dot, the leading dots are a prefix. *)
Lemma leading_dots_app (p q : string) (c : ascii) :
  c <> "."%char ->
  exists d p', p = (d ++ p')%string /\
    leading_dots (p ++ String c q) = (d, (p' ++ String c q)%string).
Proof.
  intros Hc. induction p as [|a p IH]; cbn [append leading_dots].
  - exists EmptyString, EmptyString. split; [reflexivity|].
    assert (Ascii.eqb c "." = false) as -> by (now apply Ascii.eqb_neq). reflexivity.
  - destruct (Ascii.eqb a ".") eqn:Ea.
    + destruct IH as (d & p' & -> & E). rewrite E.
      exists (String a d), p'. split; reflexivity.
    + exists EmptyString, (String a p). split; reflexivity.
Qed.

Lemma str_mem_lower (c : ascii) (s : string) :
  str_mem c s = true -> str_mem (char_lower c) (str_lower s) = true.
Proof.
  induction s as [|a s IH]; cbn [str_mem str_lower]; [discriminate|]. intros H.
  apply orb_true_iff in H. destruct H as [H|H].
  - apply Ascii.eqb_eq in H. subst a. now rewrite Ascii.eqb_refl.
  - rewrite (IH H). apply orb_true_r.
Qed.

Lemma char_lower_dot (a : ascii) : char_lower a = "."%char -> a = "."%char.
Proof. destruct a as [[] [] [] [] [] [] [] []]; cbn; intros H; try discriminate H; reflexivity. Qed.

(** An extension that is allowed once lower-cased: a dot, then no dot and
    no slash. *)
Lemma allowed_extension_shape (ext : string) :
  In (str_lower ext) valid_extensions ->
  exists t, ext = String "." t /\ str_mem "." t = false /\ str_mem "/" ext = false.
Proof.
  intros H.
  assert (S : exists t', str_lower ext = String "." t' /\ str_mem "." t' = false /\
                         str_mem "/" (str_lower ext) = false).
  { cbn in H. destruct H as [<-|[<-|[<-|[<-|[<-|[]]]]]]; eexists; repeat split. }
  destruct S as (t' & E & H1 & H2). destruct ext as [|a t]; [discriminate|].
  cbn in E. injection E as Ea Et. apply char_lower_dot in Ea. subst a.
  exists t. split; [reflexivity|]. split.
  - apply not_true_iff_false. intros M. apply (str_mem_lower "." t) in M.
    change (char_lower ".") with "."%char in M. congruence.
  - apply not_true_iff_false. intros M. apply (str_mem_lower "/" _) in M.
    change (char_lower "/") with "/"%char in M. congruence.
Qed.

(** X26: a file name that [validate_image_file_extension] accepts ends
    in one of the five extensions, in some spelling of upper and lower
    case. *)
Theorem accepted_names_end_in_an_allowed_extension (name : string) :
  validate_image_file_extension name = Valid ->
  exists root ext, name = (root ++ ext)%string /\ In (str_lower ext) valid_extensions.
Proof.
  unfold validate_image_file_extension. intros H.
  destruct (existsb _ valid_extensions) eqn:E; [|discriminate].
  apply existsb_exists in E. destruct E as [x [Hx Hl]]. apply String.eqb_eq in Hl.
  exists (fst (splitext name)), (snd (splitext name)).
  split; [symmetry; apply splitext_concat | now rewrite Hl].
Qed.

Lemma accepted_names_end_in_an_allowed_extension_witness :
  exists root ext, "server/1/server_icon/Logo.PNG" = (root ++ ext)%string /\
                   In (str_lower ext) valid_extensions.
Proof.
  apply (accepted_names_end_in_an_allowed_extension "server/1/server_icon/Logo.PNG").
  reflexivity.
Defined.

(** X27: a file name made of a directory part, a stem that begins with a
    character other than dot and slash and has no slash, and one of the
    five extensions in any spelling of case, is accepted. *)
Theorem allowed_extension_is_accepted (dir stem ext : string) (c : ascii) :
  In (str_lower ext) valid_extensions ->
  str_mem "/" stem = false -> c <> "."%char -> c <> "/"%char ->
  validate_image_file_extension (dir ++ String c stem ++ ext) = Valid.
Proof.
  intros Hext Hstem Hdot Hslash.
  destruct (allowed_extension_shape ext Hext) as (t & -> & Ht & Hs).
  assert (HT : str_mem "/" (String c stem ++ String "." t) = false).
  { rewrite str_mem_app, Hs, orb_false_r. cbn [str_mem]. rewrite Hstem, orb_false_r.
    rewrite Ascii.eqb_sym. now apply Ascii.eqb_neq. }
  assert (E : snd (splitext (dir ++ String c stem ++ String "." t)) = String "." t).
  { unfold splitext. rewrite (split_last_app_none "/" dir _ HT).
    assert (B : forall p, snd (let (dots, rest) := leading_dots (p ++ String c (stem ++ String "." t)) in
                   match split_last "." rest with
                   | Some (stem0, ext0) => ((EmptyString ++ dots ++ stem0)%string, ext0)
                   | None => (EmptyString, EmptyString)
                   end) = String "." t).
    { intros p. destruct (leading_dots_app p (stem ++ String "." t) c Hdot) as (d & p' & _ & L).
      rewrite L.
      change (p' ++ String c (stem ++ String "." t))%string
        with (p' ++ (String c stem) ++ String "." t)%string.
      rewrite append_assoc, (split_last_app "." _ t Ht). reflexivity. }
    destruct (split_last "/" dir) as [[x y]|] eqn:Ed.
    - pose proof (split_last_head _ _ _ _ Ed) as [y' ->].
      cbn [append]. specialize (B y').
      change (String c stem ++ String "." t)%string with (String c (stem ++ String "." t)).
      destruct (leading_dots (y' ++ String c (stem ++ String "." t))) as [dots rest].
      destruct (split_last "." rest) as [[s0 e0]|]; cbn [fst snd] in *; [exact B | discriminate B].
    - specialize (B dir).
      change (String c stem ++ String "." t)%string with (String c (stem ++ String "." t)).
      destruct (leading_dots (dir ++ String c (stem ++ String "." t))) as [dots rest].
      destruct (split_last "." rest) as [[s0 e0]|]; cbn [fst snd] in *; [exact B | discriminate B]. }
  unfold validate_image_file_extension. rewrite E.
  assert (existsb (String.eqb (str_lower (String "." t))) valid_extensions = true) as ->.
  { apply existsb_exists. exists (str_lower (String "." t)). split; [exact Hext|].
    apply String.eqb_refl. }
  reflexivity.
Qed.

Lemma allowed_extension_is_accepted_witness :
  validate_image_file_extension ("media/." ++ String "b" "anner" ++ ".JpEg") = Valid.
Proof.
  apply (allowed_extension_is_accepted "media/." "anner" ".JpEg" "b");
    [simpl; tauto | reflexivity | discriminate | discriminate].
Defined.

(** X28: a file name whose last component is dots followed by a stem
    without dot has no extension for [os.path.splitext] ([.png] is such a
    name) and is rejected. *)
Theorem name_without_extension_is_rejected (dir dots stem : string) :
  dir = "" \/ (exists d, dir = (d ++ "/")%string) ->
  (forall c, str_mem c dots = true -> c = "."%char) ->
  str_mem "." stem = false -> str_mem "/" stem = false ->
  validate_image_file_extension (dir ++ dots ++ stem) = Invalid "Unsupported file extension".
Proof.
  intros Hdir Hdots Hd Hs.
  assert (HT : str_mem "/" (dots ++ stem) = false).
  { rewrite str_mem_app, Hs, orb_false_r. apply not_true_iff_false. intros M.
    apply Hdots in M. discriminate. }
  assert (L : leading_dots (dots ++ stem) = (dots, stem))
    by (apply leading_dots_all; [exact Hdots | now apply leading_dots_none]).
  assert (E : snd (splitext (dir ++ dots ++ stem)) = EmptyString).
  { unfold splitext. destruct Hdir as [->|[d ->]].
    - cbn [append]. rewrite (split_last_none "/" _ HT), L, (split_last_none "." _ Hd).
      reflexivity.
    - rewrite <- append_assoc. cbn [append].
      rewrite (split_last_app "/" d _ HT), L, (split_last_none "." _ Hd). reflexivity. }
  unfold validate_image_file_extension. rewrite E. reflexivity.
Qed.

Lemma name_without_extension_is_rejected_witness :
  validate_image_file_extension ("uploads/" ++ "." ++ "png") =
  Invalid "Unsupported file extension".
Proof.
  apply (name_without_extension_is_rejected "uploads/" "." "png").
  - right. exists "uploads". reflexivity.
  - intros c H. simpl in H. destruct (Ascii.eqb_spec c "."); [assumption | discriminate].
  - reflexivity.
  - reflexivity.
Defined.
